(** * pcam.py: transfer-learning script for the PCAM dataset

    A shallow embedding of [src/pcam.py] and the properties its
    specification states about it.  Python objects that the script mutates
    (the model, the optimizer, the scheduler, the file system) are threaded
    explicitly; exceptions are values of [Exn].  Calls into torch,
    torchvision, torcheval, ptflops and numpy are operations of the
    [Framework] interface.  Console output ([print], the [tqdm] progress
    bar) is left out.  Python floats that the script computes itself are
    binary64 values ([spec_float]). *)

From Stdlib Require Import Ascii QArith SpecFloat.
From stdpp Require Import gmap strings pretty list fin_maps.

Set Warnings "-register-all".

Open Scope Z_scope.

(** ** Python strings and POSIX paths *)

Module PyStr.

(** [s.rfind(c)] for a one-character needle: index of the last
    occurrence, [-1] when there is none. *)
Fixpoint rfind_from (c : ascii) (s : string) (i last : Z) : Z :=
  match s with
  | EmptyString => last
  | String a s' => rfind_from c s' (i + 1) (if Ascii.eqb a c then i else last)
  end.
Definition rfind (c : ascii) (s : string) : Z := rfind_from c s 0 (-1).

Definition len (s : string) : Z := Z.of_nat (String.length s).

(** [s[i:j]] for [0 <= i], [0 <= j]. *)
Definition slice (s : string) (i j : Z) : string :=
  String.substring (Z.to_nat i) (Z.to_nat (j - i)) s.

(** [s[:j]] and [s[i:]]. *)
Definition upto (s : string) (j : Z) : string := slice s 0 j.
Definition from (s : string) (i : Z) : string := slice s i (len s).

Fixpoint forallb_string (f : ascii -> bool) (s : string) : bool :=
  match s with
  | EmptyString => true
  | String a s' => f a && forallb_string f s'
  end.


(** [s.split(c)] for a one-character separator. *)
Fixpoint split_go (c : ascii) (cur : string) (s : string) : list string :=
  match s with
  | EmptyString => [String.rev cur]
  | String a s' =>
      if Ascii.eqb a c then String.rev cur :: split_go c EmptyString s'
      else split_go c (String a cur) s'
  end.
Definition split (c : ascii) (s : string) : list string :=
  split_go c EmptyString s.

(** [needle in s]. *)
Fixpoint contains (needle s : string) : bool :=
  String.prefix needle s ||
  match s with
  | EmptyString => false
  | String _ s' => contains needle s'
  end.

(** [str(n)] for an integer. *)
Definition str (n : Z) : string := pretty n.

End PyStr.

(** ** Python numbers *)

Module PyNum.

(** An [int] as the exact operand of a division. *)
Definition of_int (z : Z) : spec_float :=
  match z with
  | Z0 => S754_zero false
  | Zpos p => S754_finite false p 0
  | Zneg p => S754_finite true p 0
  end.

(** [a / b] for two [int]s: the quotient rounded to the nearest binary64
    value, ties to even.  Python raises for [b = 0] and for a quotient
    beyond the range of a float; the script divides by [1000000000]. *)
Definition truediv (a b : Z) : spec_float :=
  SFdiv 53 1024 (of_int a) (of_int b).

(** The rational number a finite float stands for. *)
Definition to_Q (f : spec_float) : Q :=
  match f with
  | S754_finite s m e =>
      (if s then -1 else 1) * inject_Z (Zpos m) * (2 ^ e)
  | _ => 0
  end%Q.

End PyNum.

Module OsPath.

(** [os.path.splitext] (posixpath): the extension starts at the last dot
    of the last path component, unless that component has only leading
    dots before it. *)
Definition splitext (p : string) : string * string :=
  let sepIndex := PyStr.rfind "/"%char p in
  let dotIndex := PyStr.rfind "."%char p in
  if (sepIndex <? dotIndex)
     && negb (PyStr.forallb_string (fun a => Ascii.eqb a "."%char)
                (PyStr.slice p (sepIndex + 1) dotIndex))
  then (PyStr.upto p dotIndex, PyStr.from p dotIndex)
  else (p, EmptyString).

(** [os.path.join(a, b)] (posixpath, two arguments). *)
Definition join (a b : string) : string :=
  if String.prefix "/" b then b
  else if (String.eqb a "" || PyStr.contains "/" (PyStr.from a (PyStr.len a - 1)))%bool
       then a +:+ b
       else a +:+ "/" +:+ b.

End OsPath.

(** ** The file system

    A finite map from path strings to nodes.  [os.path.exists] is
    membership; permissions and other operating-system failures are not
    modelled. *)

Inductive Node (C : Type) : Type :=
| Dir
| File (content : C).
Arguments Dir {C}.
Arguments File {C} content.

Section FileSystem.
Context {C : Type}.

Definition exists_ (fs : gmap string (Node C)) (path : string) : bool :=
  bool_decide (is_Some (fs !! path)).

(** [os.makedirs(path)].  Every call in the script is on ['models'] or a
    direct child of it made right after ['models'], so the leaf is the
    only directory that can be missing. *)
Definition makedirs (path : string) (fs : gmap string (Node C))
  : gmap string (Node C) :=
  <[path := Dir]> fs.

(** The name tried at a given counter value:
    [filename + "_" + str(counter) + extension]. *)
Definition candidate (filename extension : string) (counter : Z) : string :=
  filename +:+ "_" +:+ PyStr.str counter +:+ extension.

(** The [while os.path.exists(path)] loop of [uniquify]; [None] when the
    fuel runs out. *)
Fixpoint uniquify_loop (fuel : nat) (fs : gmap string (Node C))
    (filename extension path : string) (counter : Z) : option string :=
  match fuel with
  | O => None
  | S fuel' =>
      if exists_ fs path
      then uniquify_loop fuel' fs filename extension
             (candidate filename extension counter) (counter + 1)
      else Some path
  end.

Definition uniquify_fuel (fuel : nat) (fs : gmap string (Node C))
    (path : string) : option string :=
  let '(filename, extension) := OsPath.splitext path in
  uniquify_loop fuel fs filename extension path 1.

(** The file system is finite, so [size fs + 2] iterations are enough
    ([uniquify_total] below). *)
Definition uniquify (fs : gmap string (Node C)) (path : string)
  : option string :=
  uniquify_fuel (size fs + 2) fs path.

End FileSystem.

(** ** Exceptions *)

Inductive Exn : Type :=
| KeyError (key : string)
| IndexError
| TypeError
| AttributeError (cls attr : string)
| UnboundLocalError (var : string)
| StopIteration
| FileNotFoundError (path : string)
| IsADirectoryError (path : string)
| UnpicklingError (path : string)
| OutOfFuel
| StateDictMismatch
| DataAccessError (split : string).

Inductive result (A : Type) : Type :=
| Ok (a : A)
| Raise (e : Exn).
Arguments Ok {A} a.
Arguments Raise {A} e.

Global Instance result_ret : MRet result := fun A a => Ok a.
Global Instance result_bind : MBind result := fun A B k r =>
  match r with
  | Ok a => k a
  | Raise e => Raise e
  end.

(** ** torch.nn modules

    A module is what [nn.Module] keeps: its class name, plain attributes,
    its own parameters and buffers, and its named sub-modules, each in
    registration order. *)

Inductive AttrVal : Type :=
| AInt (z : Z)
| ABool (b : bool)
| AFrac (q : Q).

Section Modules.
Context {Tensor : Type}.

Record Param : Type := mkParam {
  data : Tensor;
  requires_grad : bool;
  grad : option Tensor
}.

Inductive Module : Type :=
| Mod (cls : string)
      (attrs : list (string * AttrVal))
      (params : list (string * Param))
      (buffers : list (string * Tensor))
      (children : list (string * Module)).

Definition cls (m : Module) : string :=
  match m with Mod c _ _ _ _ => c end.
Definition attrs (m : Module) : list (string * AttrVal) :=
  match m with Mod _ a _ _ _ => a end.
Definition params (m : Module) : list (string * Param) :=
  match m with Mod _ _ p _ _ => p end.
Definition buffers (m : Module) : list (string * Tensor) :=
  match m with Mod _ _ _ b _ => b end.
Definition children (m : Module) : list (string * Module) :=
  match m with Mod _ _ _ _ ch => ch end.

(** Lookup and assignment in an insertion-ordered dict kept as an
    association list: assignment to an existing key keeps its place,
    a new key goes last. *)
Fixpoint assoc_get {V : Type} (k : string) (l : list (string * V)) : option V :=
  match l with
  | [] => None
  | (k', v) :: l' => if String.eqb k' k then Some v else assoc_get k l'
  end.

Fixpoint assoc_set {V : Type} (k : string) (v : V) (l : list (string * V))
  : list (string * V) :=
  match l with
  | [] => [(k, v)]
  | (k', v') :: l' =>
      if String.eqb k' k then (k, v) :: l' else (k', v') :: assoc_set k v l'
  end.

Definition assoc_del {V : Type} (k : string) (l : list (string * V))
  : list (string * V) :=
  filter (fun kv => negb (String.eqb (fst kv) k)) l.

(** [m.name] where a sub-module is expected. *)
Definition get_child (m : Module) (name : string) : result Module :=
  match assoc_get name (children m) with
  | Some c => Ok c
  | None => Raise (AttributeError (cls m) name)
  end.

(** [m.name] where an integer attribute is expected
    ([in_features], [out_features]). *)
Definition get_int (m : Module) (name : string) : result Z :=
  match assoc_get name (attrs m) with
  | Some (AInt z) => Ok z
  | _ => Raise (AttributeError (cls m) name)
  end.

(** [m.name = c] for a module value [c]: [nn.Module.__setattr__] drops
    the name from the plain attributes, parameters and buffers and
    registers [c] under it. *)
Definition set_child (m : Module) (name : string) (c : Module) : Module :=
  match m with
  | Mod k a p b ch =>
      Mod k (assoc_del name a) (assoc_del name p) (assoc_del name b)
          (assoc_set name c ch)
  end.

(** [m.name = v] for a plain value. *)
Definition set_attr (m : Module) (name : string) (v : AttrVal) : Module :=
  match m with
  | Mod k a p b ch => Mod k (assoc_set name v a) p b ch
  end.

(** [seq[-1]] and [seq[-1] = c] on an [nn.Sequential]. *)
Definition get_last (m : Module) : result Module :=
  if String.eqb (cls m) "Sequential" then
    match last (children m) with
    | Some (_, c) => Ok c
    | None => Raise IndexError
    end
  else Raise TypeError.

Definition set_last (m : Module) (c : Module) : result Module :=
  if String.eqb (cls m) "Sequential" then
    match last (children m) with
    | Some (k, _) => Ok (set_child m k c)
    | None => Raise IndexError
    end
  else Raise TypeError.

(** [model.parameters()] with the attribute path of each parameter
    ([named_parameters]): own parameters first, then the sub-modules in
    order. *)
Fixpoint named_parameters (m : Module) : list (list string * Param) :=
  match m with
  | Mod _ _ p _ ch =>
      map (fun np => ([fst np], snd np)) p ++
      flat_map (fun nc =>
                  map (fun pp => (fst nc :: fst pp, snd pp))
                      (named_parameters (snd nc))) ch
  end.

(** [for param in model.parameters(): param.requires_grad = flag]. *)
Definition set_requires_grad (flag : bool) (p : Param) : Param :=
  mkParam (data p) flag (grad p).

Fixpoint map_parameters (f : Param -> Param) (m : Module) : Module :=
  match m with
  | Mod k a p b ch =>
      Mod k a (map (fun np => (fst np, f (snd np))) p) b
          (map (fun nc => (fst nc, map_parameters f (snd nc))) ch)
  end.

Definition freeze (m : Module) : Module :=
  map_parameters (set_requires_grad false) m.

(** [model.train()] and [model.eval()]: set [training] on the module and
    on every sub-module. *)
Fixpoint set_training (flag : bool) (m : Module) : Module :=
  match m with
  | Mod k a p b ch =>
      Mod k (assoc_set "training" (ABool flag) a) p b
          (map (fun nc => (fst nc, set_training flag (snd nc))) ch)
  end.

(** [for module in model.modules(): if 'Dropout' in <class name>:
    module.train()] *)
Fixpoint enable_dropout (m : Module) : Module :=
  if PyStr.contains "Dropout" (cls m) then set_training true m
  else
    match m with
    | Mod k a p b ch =>
        Mod k a p b (map (fun nc => (fst nc, enable_dropout (snd nc))) ch)
    end.

(** The entries of [model.state_dict()]: for each module its parameters,
    then its buffers, then its sub-modules; keys are the attribute paths
    joined by dots. *)
Fixpoint named_tensors (m : Module) : list (list string * Tensor) :=
  match m with
  | Mod _ _ p b ch =>
      map (fun np => ([fst np], data (snd np))) p ++
      map (fun nb => ([fst nb], snd nb)) b ++
      flat_map (fun nc =>
                  map (fun pt => (fst nc :: fst pt, snd pt))
                      (named_tensors (snd nc))) ch
  end.

Definition dotted (path : list string) : string := String.concat "." path.

Definition state_dict (m : Module) : gmap string Tensor :=
  list_to_map (map (fun pt => (dotted (fst pt), snd pt)) (named_tensors m)).

(** Copy into every parameter and buffer the value [f] gives for its path
    and current value. *)
Fixpoint assign (f : list string -> Tensor -> Tensor) (m : Module) : Module :=
  match m with
  | Mod k a p b ch =>
      Mod k a
          (map (fun np => (fst np,
                           mkParam (f [fst np] (data (snd np)))
                                   (requires_grad (snd np)) (grad (snd np)))) p)
          (map (fun nb => (fst nb, f [fst nb] (snd nb))) b)
          (map (fun nc => (fst nc,
                           assign (fun path => f (fst nc :: path)) (snd nc))) ch)
  end.

(** *** Where the classification head is

    The attribute path of the head in each family that [get_model]
    dispatches on, and the path of the last linear layer: the head itself,
    or its last entry when the head is an [nn.Sequential]. *)

Fixpoint get_path (m : Module) (path : list string) : option Module :=
  match path with
  | [] => Some m
  | n :: path' =>
      match assoc_get n (children m) with
      | Some c => get_path c path'
      | None => None
      end
  end.

Definition sequential_family (class_name : string) : bool :=
  String.eqb class_name "AlexNet" || String.eqb class_name "VGG".

Definition head_attr (class_name : string) : list string :=
  if sequential_family class_name then ["classifier"]
  else if String.eqb class_name "DenseNet" then ["classifier"]
  else if String.eqb class_name "VisionTransformer" then ["heads"; "head"]
  else if String.eqb class_name "SwinTransformer" then ["head"]
  else ["fc"].

Definition final_linear_path (m : Module) : option (list string) :=
  let hp := head_attr (cls m) in
  if sequential_family (cls m) then
    match get_path m hp with
    | Some h =>
        match last (children h) with
        | Some (k, _) => Some (hp ++ [k])
        | None => None
        end
    | None => None
    end
  else Some hp.

(** The path of the module that [get_model] attaches: the whole head, or
    only its last linear layer when [all_linears] is off. *)
Definition new_head_path (all_linears : bool) (m : Module) : option (list string) :=
  if all_linears then Some (head_attr (cls m)) else final_linear_path m.

Definition has_in_features (m : Module) : bool :=
  match assoc_get "in_features" (attrs m) with
  | Some (AInt _) => true
  | _ => false
  end.

(** Sub-module names are dict keys, so they are distinct at every
    level. *)
Fixpoint distinct_names (m : Module) : bool :=
  match m with
  | Mod _ _ _ _ ch =>
      bool_decide (NoDup (map fst ch))
      && forallb (fun nc => distinct_names (snd nc)) ch
  end.

(** Every parameter is marked non-trainable. *)
Definition frozen (m : Module) : Prop :=
  forall path p, (path, p) ∈ named_parameters m -> requires_grad p = false.

(** What [get_model] relies on in a network of the zoo: the head of its
    family is there and its (last) linear layer has [in_features]. *)
Definition head_replaceable (m : Module) : bool :=
  distinct_names m &&
  match get_path m (head_attr (cls m)) with
  | Some h =>
      if sequential_family (cls m) then
        String.eqb (cls h) "Sequential" &&
        match last (children h) with
        | Some (_, l) => has_in_features l
        | None => false
        end
      else has_in_features h
  | None => false
  end.

(** The values of the parameters, by path. *)
Definition param_values (m : Module) : list (list string * Tensor) :=
  map (fun pp => (fst pp, data (snd pp))) (named_parameters m).

(** State-dict keys are distinct. *)
Definition distinct_keys (m : Module) : Prop :=
  NoDup (map (fun pt => dotted (fst pt)) (named_tensors m)).

End Modules.
Arguments Param : clear implicits.
Arguments Module : clear implicits.

(** The architecture of a model: its tree of classes, attributes and
    names with every tensor replaced by its shape.  The training mode,
    the trainable flags and the gradients are not part of it. *)
Fixpoint architecture {Tensor : Type} (shape : Tensor -> list Z)
    (m : Module Tensor) : Module (list Z) :=
  match m with
  | Mod k a p b ch =>
      Mod k (assoc_del "training" a)
          (map (fun np => (fst np, mkParam (shape (data (snd np))) false None)) p)
          (map (fun nb => (fst nb, shape (snd nb))) b)
          (map (fun nc => (fst nc, architecture shape (snd nc))) ch)
  end.

(** ** torchvision transforms, datasets and loaders *)

Inductive Transform : Type :=
| ToTensor
| Resize (size : Z) (antialias : bool)
| RandomHorizontalFlip
| RandomVerticalFlip
| Normalize (mean std : list Q).

(** [PCAM(root, split, download, transform)]; [transform] is what
    [transforms.Compose] was given. *)
Record Dataset : Type := mkDataset {
  ds_root : string;
  ds_split : string;
  ds_download : bool;
  ds_transform : list Transform
}.

(** [DataLoader(dataset, batch_size, shuffle)] *)
Record DataLoader : Type := mkDataLoader {
  dl_dataset : Dataset;
  dl_batch_size : Z;
  dl_shuffle : bool
}.

(** ** The deep-learning framework

    What the script calls in torch, torchvision, torcheval, ptflops and
    numpy.  Device placement ([.to(device)]) and dtype casts do not change
    a tensor's value and are not modelled. *)

Class Framework : Type := {
  Tensor : Type;
  Float : Type;
  OptState : Type;
  SchedState : Type;
  Metric : Type;
  (** torchvision.models constructors, applied to [pretrained] *)
  alexnet : bool -> Module Tensor;
  vgg11 : bool -> Module Tensor;
  vgg16 : bool -> Module Tensor;
  googlenet : bool -> Module Tensor;
  inception_v3 : bool -> Module Tensor;
  resnet18 : bool -> Module Tensor;
  densenet161 : bool -> Module Tensor;
  swin_v2_b : bool -> Module Tensor;
  (** initial weight and bias of [nn.Linear(in_features, out_features)] *)
  linear_init : Z -> Z -> Tensor * Tensor;
  (** [tensor.shape] *)
  shape : Tensor -> list Z;
  (** [model(inputs)]: the outputs, and the model afterwards *)
  forward : Module Tensor -> Tensor -> Tensor * Module Tensor;
  (** [torch.max(outputs, 1)[1]] and [tensor.tolist()] *)
  argmax : Tensor -> Tensor;
  tolist : Tensor -> list Z;
  (** [loss.item()], [loss.backward()] *)
  item : Tensor -> Float;
  backward : Tensor -> Module Tensor -> Module Tensor;
  (** [optimizer.zero_grad()], [optimizer.step()], [optimizer.defaults["lr"]] *)
  zero_grad : OptState -> Module Tensor -> Module Tensor;
  opt_step : OptState -> Module Tensor -> OptState * Module Tensor;
  opt_lr : OptState -> Float;
  (** [scheduler.step()] *)
  sched_step : SchedState -> OptState -> SchedState * OptState;
  (** torcheval metrics *)
  MulticlassAUROC : Z -> Metric;
  MulticlassAccuracy : Metric;
  metric_reset : Metric -> Metric;
  metric_update : Metric -> Tensor -> Tensor -> Metric;
  metric_compute : Metric -> Tensor;
  (** [np.average], [str] of a float *)
  np_average : list Float -> Float;
  str_float : Float -> string;
  (** [torch.ones(()).new_empty(size)] *)
  new_empty : list Z -> Tensor;
  (** the multiply-accumulate count that the hooks of ptflops add up
      during one forward pass of a model on an input of a given image
      size *)
  complexity_macs : Module Tensor -> list Z -> Z;
  (** whether the PCAM files of a split are at [root], or can be fetched
      there when [download] is set *)
  pcam_available : string -> string -> bool -> bool;
  (** the [(inputs, labels)] batches a loader yields in one pass;
      reshuffling between passes is not modelled *)
  batches : DataLoader -> list (Tensor * Tensor);
  (** a forward pass assigns no parameter *)
  forward_parameters :
    forall m x, named_parameters (snd (forward m x)) = named_parameters m;
  (** a forward pass leaves the architecture as it is *)
  forward_architecture :
    forall m x, architecture shape (snd (forward m x)) = architecture shape m
}.

(** ** get_model *)

Section GetModel.
Context `{FW : Framework}.

Definition mk_attrs (l : list (string * AttrVal)) : list (string * AttrVal) :=
  ("training", ABool true) :: l.

(** [nn.Linear(in_features, out_features, bias=True)] *)
Definition Linear (in_features out_features : Z) : Module Tensor :=
  let wb := linear_init in_features out_features in
  Mod "Linear"
      (mk_attrs [("in_features", AInt in_features);
                 ("out_features", AInt out_features)])
      [("weight", mkParam (fst wb) true None);
       ("bias", mkParam (snd wb) true None)]
      [] [].

(** [nn.ReLU(inplace)] and [nn.Dropout(p, inplace)] *)
Definition ReLU (inplace : bool) : Module Tensor :=
  Mod "ReLU" (mk_attrs [("inplace", ABool inplace)]) [] [] [].

Definition Dropout (p : Q) (inplace : bool) : Module Tensor :=
  Mod "Dropout" (mk_attrs [("p", AFrac p); ("inplace", ABool inplace)]) [] [] [].

(** [nn.Sequential(m0, m1, ...)]: sub-modules are named ["0"], ["1"], ... *)
Definition Sequential (ms : list (Module Tensor)) : Module Tensor :=
  Mod "Sequential" (mk_attrs []) [] []
      (imap (fun i m => (PyStr.str (Z.of_nat i), m)) ms).

Definition model_list : list (string * (bool -> Module Tensor)) :=
  [("AlexNet", alexnet);
   ("VGG-16", vgg16);
   ("VGG-11", vgg11);
   ("GoogleNet", googlenet);
   ("Inception-v3", inception_v3);
   ("ResNet-18", resnet18);
   ("DenseNet-161", densenet161);
   ("SWIN-v2-B", swin_v2_b)].

Definition model_dir : gmap string (bool -> Module Tensor) :=
  list_to_map model_list.

Definition num_classes_fixed : Z := 2.

(** The two heads that are rebuilt whole when [all_linears] is on. *)
Definition alexnet_classifier (num_classes : Z) : Module Tensor :=
  Sequential
    [Dropout (1 # 2) false;
     Linear 9216 4096;
     ReLU true;
     Dropout (1 # 2) false;
     Linear 4096 4096;
     ReLU true;
     Linear 4096 num_classes].

Definition vgg_classifier (num_classes : Z) : Module Tensor :=
  Sequential
    [Linear 25088 4096;
     ReLU true;
     Dropout (1 # 2) false;
     Linear 4096 4096;
     ReLU true;
     Dropout (1 # 2) false;
     Linear 4096 num_classes].

(** [model.<name> = Linear(model.<name>.in_features, num_classes)] *)
Definition replace_linear (model : Module Tensor) (name : string)
  : result (Module Tensor) :=
  old ← get_child model name;
  n ← get_int old "in_features";
  Ok (set_child model name (Linear n num_classes_fixed)).

(** [model.classifier[-1] = Linear(model.classifier[-1].in_features, num_classes)] *)
Definition replace_last_linear (model : Module Tensor) : result (Module Tensor) :=
  classifier ← get_child model "classifier";
  old ← get_last classifier;
  n ← get_int old "in_features";
  classifier' ← set_last classifier (Linear n num_classes_fixed);
  Ok (set_child model "classifier" classifier').

Definition get_model (model_name device : string) (all_linears : bool)
  : result (Module Tensor) :=
  match model_dir !! model_name with
  | None => Raise (KeyError model_name)
  | Some ctor =>
      let model := ctor true in
      (* Freeze all layers except last *)
      let model := freeze model in
      (* Create classification layer *)
      let num_classes := num_classes_fixed in
      if all_linears then
        if String.eqb (cls model) "AlexNet" then
          Ok (set_child model "classifier" (alexnet_classifier num_classes))
        else if String.eqb (cls model) "VGG" then
          Ok (set_child model "classifier" (vgg_classifier num_classes))
        else if String.eqb (cls model) "DenseNet" then
          replace_linear model "classifier"
        else if String.eqb (cls model) "VisionTransformer" then
          heads ← get_child model "heads";
          heads' ← replace_linear heads "head";
          Ok (set_child model "heads" heads')
        else if String.eqb (cls model) "SwinTransformer" then
          replace_linear model "head"
        else
          replace_linear model "fc"
      else
        if String.eqb (cls model) "AlexNet" then
          replace_last_linear model
        else if String.eqb (cls model) "VGG" then
          replace_last_linear model
        else if String.eqb (cls model) "DenseNet" then
          replace_linear model "classifier"
        else if String.eqb (cls model) "VisionTransformer" then
          heads ← get_child model "heads";
          heads' ← replace_linear heads "head";
          Ok (set_child model "heads" heads')
        else if String.eqb (cls model) "SwinTransformer" then
          replace_linear model "head"
        else
          replace_linear model "fc"
  end.

(** The names the dictionary is keyed on. *)
Definition supported_names : list string :=
  ["AlexNet"; "VGG-16"; "VGG-11"; "GoogleNet"; "Inception-v3";
   "ResNet-18"; "DenseNet-161"; "SWIN-v2-B"].

(** What the adapted model looks like: [hp] is where the new module sits,
    [fp] where the last linear layer is; that layer has two outputs, and a
    parameter is trainable exactly when it is under [hp]. *)
Definition adapted (all_linears : bool) (m : Module Tensor) : Prop :=
  exists hp fp l,
    new_head_path all_linears m = Some hp /\
    final_linear_path m = Some fp /\
    get_path m fp = Some l /\
    cls l = "Linear" /\
    get_int l "out_features" = Ok 2 /\
    (exists w b, (fp ++ ["weight"], w) ∈ named_parameters m /\
                 (fp ++ ["bias"], b) ∈ named_parameters m) /\
    forall path p,
      (path, p) ∈ named_parameters m ->
      requires_grad p = bool_decide (hp `prefix_of` path).

(** Every network of the zoo has the head its family is expected to
    have. *)
Definition zoo_ok : bool :=
  forallb (fun nc => head_replaceable (snd nc true)) model_list.

End GetModel.

(** ** get_dataloaders *)

Section GetDataloaders.
Context `{FW : Framework}.

Definition PCAM (root split : string) (download : bool)
    (transform : list Transform) : result Dataset :=
  if pcam_available root split download
  then Ok (mkDataset root split download transform)
  else Raise (DataAccessError split).

(** A Python value that may be [None]. *)
Definition when_ {A : Type} (b : bool) (r : result A) : result (option A) :=
  if b then (a ← r; Ok (Some a)) else Ok None.

Definition preprocess_list (resize : Z) : list Transform :=
  [ToTensor; Resize resize true].

Definition augment_list (augment : bool) : list Transform :=
  if augment then [RandomHorizontalFlip; RandomVerticalFlip] else [].

Definition normalize_list : list Transform :=
  [Normalize [0.485; 0.456; 0.406]%Q [0.229; 0.224; 0.225]%Q].

(** The two composed pipelines the function builds. *)
Definition train_transform (resize : Z) (augment : bool) : list Transform :=
  preprocess_list resize ++ augment_list augment ++ normalize_list.

Definition testval_transform (resize : Z) : list Transform :=
  preprocess_list resize ++ normalize_list.

Definition get_dataloaders (data_path : string) (batch_size : Z)
    (train shuffle download : bool) (resize : Z) (augment : bool)
  : result (option DataLoader * option DataLoader * option DataLoader) :=
  train_dataset ←
    when_ train (PCAM data_path "train" download (train_transform resize augment));
  val_dataset ←
    when_ train (PCAM data_path "val" download (testval_transform resize));
  test_dataset ← PCAM data_path "test" download (testval_transform resize);
  let train_loader :=
    if train then (fun d => mkDataLoader d batch_size shuffle) <$> train_dataset
    else None in
  let val_loader :=
    if train then (fun d => mkDataLoader d batch_size shuffle) <$> val_dataset
    else None in
  let test_loader := Some (mkDataLoader test_dataset batch_size shuffle) in
  Ok (train_loader, val_loader, test_loader).

(** The transform each returned loader applies. *)
Definition loader_transform (l : option DataLoader) : option (list Transform) :=
  (fun d => ds_transform (dl_dataset d)) <$> l.

Definition is_flip (t : Transform) : bool :=
  match t with
  | RandomHorizontalFlip | RandomVerticalFlip => true
  | _ => false
  end.

Definition has_flip (l : option DataLoader) : bool :=
  match l with
  | Some d => existsb is_flip (ds_transform (dl_dataset d))
  | None => false
  end.

(** The sentence of the specification on augmentation, read as: with
    [augment] on, the train and the validation loader both flip and the
    test loader does not. *)
Definition flips_in_train_and_val (data_path : string) (batch_size : Z)
    (shuffle download : bool) (resize : Z) : Prop :=
  forall tr va te,
    get_dataloaders data_path batch_size true shuffle download resize true
    = Ok (tr, va, te) ->
    has_flip tr = true /\ has_flip va = true /\ has_flip te = false.

End GetDataloaders.

(** ** The objects a run mutates, and the monad of train and test *)

Section Run.
Context `{FW : Framework}.

Inductive PyVal : Type :=
| VInt (z : Z)
| VFloat (f : Float)
| VTensor (t : Tensor)
| VStateDict (sd : gmap string Tensor)
| VOptState (o : OptState).

(** What a file holds: a dict written by [torch.save], or one of the two
    tables written by [DataFrame.to_csv]. *)
Inductive FileContent : Type :=
| Pickle (obj : gmap string PyVal)
| CsvOutputs (preds labels : list Z)
| CsvMetrics (model : string) (gflops : spec_float) (test_loss : Float)
             (test_acc test_auc : Tensor).

(** Calls into the framework that a pass makes, in order. *)
Inductive Event : Type :=
| EvForward (grad_enabled : bool)
| EvZeroGrad
| EvBackward
| EvOptimizerStep
| EvSchedulerStep
| EvRunAppend (namespace key : string) (v : PyVal).

Record World : Type := mkWorld {
  w_fs : gmap string (Node FileContent);
  w_model : Module Tensor;
  w_optimizer : OptState;
  w_scheduler : SchedState;
  w_grad_enabled : bool;
  w_events : list Event
}.

Definition with_fs (fs : gmap string (Node FileContent)) (w : World) : World :=
  mkWorld fs (w_model w) (w_optimizer w) (w_scheduler w)
          (w_grad_enabled w) (w_events w).
Definition with_model (m : Module Tensor) (w : World) : World :=
  mkWorld (w_fs w) m (w_optimizer w) (w_scheduler w)
          (w_grad_enabled w) (w_events w).
Definition with_optimizer (o : OptState) (w : World) : World :=
  mkWorld (w_fs w) (w_model w) o (w_scheduler w)
          (w_grad_enabled w) (w_events w).
Definition with_scheduler (sc : SchedState) (w : World) : World :=
  mkWorld (w_fs w) (w_model w) (w_optimizer w) sc
          (w_grad_enabled w) (w_events w).
Definition with_grad_enabled (g : bool) (w : World) : World :=
  mkWorld (w_fs w) (w_model w) (w_optimizer w) (w_scheduler w)
          g (w_events w).
Definition with_event (e : Event) (w : World) : World :=
  mkWorld (w_fs w) (w_model w) (w_optimizer w) (w_scheduler w)
          (w_grad_enabled w) (w_events w ++ [e]).

(** A computation changes the world and returns or raises; the world at
    the point of a raise is kept. *)
Definition M (A : Type) : Type := World -> World * result A.

Global Instance M_ret : MRet M := fun A a w => (w, Ok a).
Global Instance M_bind : MBind M := fun A B k c w =>
  match c w with
  | (w', Ok a) => k a w'
  | (w', Raise e) => (w', Raise e)
  end.

Definition raise {A : Type} (e : Exn) : M A := fun w => (w, Raise e).
Definition lift {A : Type} (r : result A) : M A := fun w => (w, r).
Definition gets {A : Type} (f : World -> A) : M A := fun w => (w, Ok (f w)).
Definition modify (f : World -> World) : M unit := fun w => (f w, Ok tt).

(** [for a in l: body] over loop-carried locals [s]. *)
Fixpoint for_each {A S : Type} (l : list A) (body : A -> S -> M S) (s : S)
  : M S :=
  match l with
  | [] => mret s
  | a :: l' => s' ← body a s; for_each l' body s'
  end.

(** [with torch.no_grad(): body]: gradient mode is off inside and
    restored on the way out, also when [body] raises. *)
Definition no_grad {A : Type} (body : M A) : M A := fun w =>
  let prev := w_grad_enabled w in
  let '(w', r) := body (with_grad_enabled false w) in
  (with_grad_enabled prev w', r).

(** *** Framework calls on the run's objects *)

Definition call_model (inputs : Tensor) : M Tensor := fun w =>
  let '(outputs, m') := forward (w_model w) inputs in
  (with_event (EvForward (w_grad_enabled w)) (with_model m' w), Ok outputs).

Definition optimizer_zero_grad : M unit := fun w =>
  (with_event EvZeroGrad
     (with_model (zero_grad (w_optimizer w) (w_model w)) w), Ok tt).

Definition loss_backward (loss : Tensor) : M unit := fun w =>
  (with_event EvBackward (with_model (backward loss (w_model w)) w), Ok tt).

Definition optimizer_step : M unit := fun w =>
  let '(o', m') := opt_step (w_optimizer w) (w_model w) in
  (with_event EvOptimizerStep (with_optimizer o' (with_model m' w)), Ok tt).

Definition scheduler_step : M unit := fun w =>
  let '(sc', o') := sched_step (w_scheduler w) (w_optimizer w) in
  (with_event EvSchedulerStep (with_scheduler sc' (with_optimizer o' w)), Ok tt).

Definition model_train : M unit :=
  modify (fun w => with_model (set_training true (w_model w)) w).
Definition model_eval : M unit :=
  modify (fun w => with_model (set_training false (w_model w)) w).

(** [run[logger.base_namespace][key].append(v)] *)
Definition run_append (logger : option string) (key : string) (v : PyVal)
  : M unit :=
  match logger with
  | Some namespace => modify (with_event (EvRunAppend namespace key v))
  | None => raise (AttributeError "NoneType" "base_namespace")
  end.

(** Iterating a loader argument, which may be [None]. *)
Definition iterate (loader : option DataLoader) : M (list (Tensor * Tensor)) :=
  match loader with
  | Some d => mret (batches d)
  | None => raise TypeError
  end.

(** *** Checkpoint files

    [torch.save] and [torch.load] of a dict: the file holds the dict as
    it was given.  A save into a directory that does not exist is among
    the operating-system failures left out. *)

Definition torch_save (obj : gmap string PyVal) (path : string) : M unit :=
  modify (fun w => with_fs (<[path := File (Pickle obj)]> (w_fs w)) w).

Definition torch_load (path : string) : M (gmap string PyVal) := fun w =>
  match w_fs w !! path with
  | Some (File (Pickle obj)) => (w, Ok obj)
  | Some (File _) => (w, Raise (UnpicklingError path))
  | Some Dir => (w, Raise (IsADirectoryError path))
  | None => (w, Raise (FileNotFoundError path))
  end.

(** [model.load_state_dict(sd)], strict: every key of the model is in
    [sd] with the same shape, and [sd] has no other key. *)
Definition load_state_dict (sd : gmap string Tensor) (m : Module Tensor)
  : result (Module Tensor) :=
  if forallb (fun pt => match sd !! dotted (fst pt) with
                        | Some t => bool_decide (shape t = shape (snd pt))
                        | None => false
                        end) (named_tensors m)
     && bool_decide (dom sd ⊆ dom (state_dict m))
  then Ok (assign (fun path t => default t (sd !! dotted path)) m)
  else Raise StateDictMismatch.

(** [checkpoint = torch.load(path);
    model.load_state_dict(checkpoint['model_state_dict'])] *)
Definition load_checkpoint (load_ckpt_path : string) : M unit :=
  checkpoint ← torch_load load_ckpt_path;
  match checkpoint !! "model_state_dict" with
  | Some (VStateDict sd) =>
      m ← gets w_model;
      m' ← lift (load_state_dict sd m);
      modify (with_model m')
  | Some _ => raise TypeError
  | None => raise (KeyError "model_state_dict")
  end.

(** *** Paths of artifacts *)

Definition run_uniquify (path : string) : M string :=
  fs ← gets w_fs;
  match uniquify fs path with
  | Some p => mret p
  | None => raise OutOfFuel
  end.

(** [if not os.path.exists(path): os.makedirs(path)] *)
Definition ensure_dir (path : string) : M unit :=
  modify (fun w => if exists_ (w_fs w) path then w
                   else with_fs (makedirs path (w_fs w)) w).

(** [l[i]] on a Python list. *)
Definition index_ {A : Type} (l : list A) (i : nat) : result A :=
  match l !! i with
  | Some a => Ok a
  | None => Raise IndexError
  end.

(** Reading a local variable that may not have been assigned. *)
Definition read_local {A : Type} (name : string) (v : option A) : result A :=
  match v with
  | Some a => Ok a
  | None => Raise (UnboundLocalError name)
  end.

(** Two models have the same architecture when their parameters and their
    state-dict entries have the same paths and shapes. *)
Definition layout (m : Module Tensor)
  : list (list string * list Z) * list (list string * list Z) :=
  (map (fun pv => (fst pv, shape (snd pv))) (param_values m),
   map (fun pt => (fst pt, shape (snd pt))) (named_tensors m)).

Definition same_architecture (m1 m2 : Module Tensor) : Prop :=
  layout m1 = layout m2.

(** Two worlds that differ at most in what their files hold. *)
Definition alike (w1 w2 : World) : Prop :=
  dom (w_fs w1) = dom (w_fs w2) /\
  w_model w1 = w_model w2 /\
  w_optimizer w1 = w_optimizer w2 /\
  w_scheduler w1 = w_scheduler w2 /\
  w_grad_enabled w1 = w_grad_enabled w2 /\
  w_events w1 = w_events w2.

(** What a pass that only evaluates may do to the world: run forward
    passes in the gradient mode it was started in. *)
Definition evaluates_only (w w' : World) : Prop :=
  named_parameters (w_model w') = named_parameters (w_model w) /\
  w_optimizer w' = w_optimizer w /\
  w_scheduler w' = w_scheduler w /\
  w_fs w' = w_fs w /\
  w_grad_enabled w' = w_grad_enabled w /\
  exists evs, w_events w' = w_events w ++ evs /\
              Forall (fun e => e = EvForward (w_grad_enabled w)) evs.

(** What everything after the load step of [test] keeps. *)
Definition keeps_parameters (w w' : World) : Prop :=
  named_parameters (w_model w') = named_parameters (w_model w).

(** A computation keeps [R] when the world it leaves, returning or
    raising, is related to the one it started in. *)
Definition preserves {A : Type} (R : World -> World -> Prop) (c : M A) : Prop :=
  forall w, R w (fst (c w)).

(** A computation respects [alike] when, started in two worlds that are
    alike, it ends in worlds that are alike with the same outcome: it
    reads no file content. *)
Definition respects {A : Type} (c : M A) : Prop :=
  forall w1 w2,
    alike w1 w2 ->
    alike (fst (c w1)) (fst (c w2)) /\ snd (c w1) = snd (c w2).

(** Changes to the file system only. *)
Definition touches_fs_only (w w' : World) : Prop :=
  w' = with_fs (w_fs w') w.

(** What a run that writes no file may do to the file system: make
    directories where there was nothing. *)
Definition only_new_dirs (w w' : World) : Prop :=
  forall path,
    w_fs w' !! path = w_fs w !! path \/
    (w_fs w !! path = None /\ w_fs w' !! path = Some Dir).

End Run.

(** ** train *)

Section Train.
Context `{FW : Framework}.

(** Loop-carried state of one pass over a loader. *)
Record Running : Type := mkRunning {
  loss_arr : list Float;
  r_auc : Metric;
  r_accuracy : Metric
}.

(** Locals of [train] that outlive an epoch; a metric variable is [None]
    until its first assignment. *)
Record Locals : Type := mkLocals {
  l_train_loss : option Float;
  l_train_acc : option Tensor;
  l_train_auc : option Tensor;
  l_val_loss : option Float;
  l_val_acc : option Tensor;
  l_val_auc : option Tensor;
  l_auc : Metric;
  l_accuracy : Metric
}.

Record EpochMetrics : Type := mkEpochMetrics {
  train_loss : Float;
  train_acc : Tensor;
  train_auc : Tensor;
  val_loss : Float;
  val_acc : Tensor;
  val_auc : Tensor
}.

Definition range (n : Z) : list Z := Z.of_nat <$> seq 0 (Z.to_nat n).

Definition update_running (r : Running) (loss outputs labels : Tensor) : Running :=
  mkRunning (loss_arr r ++ [item loss])
            (metric_update (r_auc r) outputs labels)
            (metric_update (r_accuracy r) outputs labels).

(** Body of the training loop over batches. *)
Definition train_step (loss_fun : Tensor -> Tensor -> Tensor)
    (logger run : option string) (batch : Tensor * Tensor)
    (s : Running * Z) : M (Running * Z) :=
  let '(inputs, labels) := batch in
  let '(r, i) := s in
  _ ← optimizer_zero_grad;
  outputs ← call_model inputs;
  let preds := argmax outputs in
  let loss := loss_fun outputs labels in
  _ ← loss_backward loss;
  _ ← optimizer_step;
  let r := update_running r loss outputs labels in
  _ ← (if (i `mod` 100 =? 0) && bool_decide (is_Some run) then
         _ ← run_append logger "batch/loss" (VFloat (item loss));
         _ ← run_append logger "batch/acc" (VTensor (metric_compute (r_accuracy r)));
         run_append logger "batch/auc" (VTensor (metric_compute (r_auc r)))
       else mret tt);
  mret (r, i + 1).

(** Body of the validation and test loops over batches. *)
Definition eval_step (loss_fun : Tensor -> Tensor -> Tensor)
    (batch : Tensor * Tensor) (r : Running) : M Running :=
  let '(inputs, labels) := batch in
  outputs ← call_model inputs;
  let preds := argmax outputs in
  let loss := loss_fun outputs labels in
  mret (update_running r loss outputs labels).

(** Lines 180-226: the training half of an epoch. *)
Definition train_pass (train_loader : option DataLoader)
    (loss_fun : Tensor -> Tensor -> Tensor) (logger run : option string)
    (l : Locals) : M Locals :=
  _ ← model_train;
  let r := mkRunning [] (metric_reset (l_auc l)) (metric_reset (l_accuracy l)) in
  bs ← iterate train_loader;
  s ← for_each bs (train_step loss_fun logger run) (r, 0);
  let r := fst s in
  _ ← scheduler_step;
  mret (mkLocals (Some (np_average (loss_arr r)))
                 (Some (metric_compute (r_accuracy r)))
                 (Some (metric_compute (r_auc r)))
                 (l_val_loss l) (l_val_acc l) (l_val_auc l)
                 (r_auc r) (r_accuracy r)).

(** Lines 228-256: the validation half of an epoch. *)
Definition validation_pass (val_loader : option DataLoader)
    (loss_fun : Tensor -> Tensor -> Tensor) (l : Locals) : M Locals :=
  _ ← model_eval;
  let r := mkRunning [] (metric_reset (l_auc l)) (metric_reset (l_accuracy l)) in
  r ← no_grad (bs ← iterate val_loader;
               for_each bs (eval_step loss_fun) r);
  mret (mkLocals (l_train_loss l) (l_train_acc l) (l_train_auc l)
                 (Some (np_average (loss_arr r)))
                 (Some (metric_compute (r_accuracy r)))
                 (Some (metric_compute (r_auc r)))
                 (r_auc r) (r_accuracy r)).

Definition epoch_body (train_loader val_loader : option DataLoader)
    (loss_fun : Tensor -> Tensor -> Tensor) (logger run : option string)
    (epoch : Z) (l : Locals) : M Locals :=
  l ← train_pass train_loader loss_fun logger run l;
  validation_pass val_loader loss_fun l.

(** The folder name synthesized when no save path is given:
    [<class>_lr<digits after the point of str(lr)>_epoch<n>], with
    [_augment] appended when augmenting. *)
Definition synthesize_folder (class_name lr_repr : string) (num_epochs : Z)
    (augment : bool) : result string :=
  digits ← index_ (PyStr.split "." lr_repr) 1;
  Ok (OsPath.join "models"
        ((class_name +:+ "_lr" +:+ digits +:+ "_epoch" +:+ PyStr.str num_epochs)
         +:+ (if augment then "_augment" else ""))).

(** Lines 264-275. *)
Definition resolve_save_path (save_ckpt_path : option string)
    (num_epochs : Z) (augment : bool) : M string :=
  match save_ckpt_path with
  | None =>
      m ← gets w_model;
      o ← gets w_optimizer;
      save_ckpt_folder ←
        lift (synthesize_folder (cls m) (str_float (opt_lr o)) num_epochs augment);
      save_ckpt_folder ← run_uniquify save_ckpt_folder;
      let save_ckpt_path := OsPath.join save_ckpt_folder (cls m +:+ ".pt") in
      _ ← ensure_dir "models";
      _ ← ensure_dir save_ckpt_folder;
      mret save_ckpt_path
  | Some path => mret path
  end.

(** Lines 277-287: the dict is built entry by entry, then written. *)
Definition save_checkpoint (num_epochs : Z) (l : Locals)
    (save_ckpt_path : string) : M EpochMetrics :=
  m ← gets w_model;
  o ← gets w_optimizer;
  train_loss ← lift (read_local "train_loss" (l_train_loss l));
  train_acc ← lift (read_local "train_acc" (l_train_acc l));
  train_auc ← lift (read_local "train_auc" (l_train_auc l));
  val_loss ← lift (read_local "val_loss" (l_val_loss l));
  val_acc ← lift (read_local "val_acc" (l_val_acc l));
  val_auc ← lift (read_local "val_auc" (l_val_auc l));
  _ ← torch_save
        (list_to_map
           [("epochs", VInt num_epochs);
            ("model_state_dict", VStateDict (state_dict m));
            ("optimizer_state_dict", VOptState o);
            ("train_loss", VFloat train_loss);
            ("train_acc", VTensor train_acc);
            ("train_auc", VTensor train_auc);
            ("val_loss", VFloat val_loss);
            ("val_acc", VTensor val_acc);
            ("val_auc", VTensor val_auc)])
        save_ckpt_path;
  mret (mkEpochMetrics train_loss train_acc train_auc val_loss val_acc val_auc).

(** Lines 164-167: [model.to(device)], and auxiliary logits off for the
    Inception family. *)
Definition prepare_model : M unit :=
  m ← gets w_model;
  if PyStr.contains "Inception" (cls m)
  then modify (with_model (set_attr m "aux_logits" (ABool false)))
  else mret tt.

(** Lines 169-172 (and 298-301 of [test]). *)
Definition start_from_checkpoint (load_ckpt_path : option string) : M unit :=
  match load_ckpt_path with
  | Some path => load_checkpoint path
  | None => mret tt
  end.

(** Lines 174-261: the metric monitors and the loop over epochs. *)
Definition run_epochs (train_loader val_loader : option DataLoader)
    (loss_fun : Tensor -> Tensor -> Tensor) (num_epochs num_classes : Z)
    (logger run : option string) : M Locals :=
  let l := mkLocals None None None None None None
                    (MulticlassAUROC num_classes) MulticlassAccuracy in
  for_each (range num_epochs)
    (epoch_body train_loader val_loader loss_fun logger run) l.

(** [train]; the model, optimizer and scheduler arguments are the
    world's.  The returned model is the world's model. *)
Definition train (train_loader val_loader : option DataLoader)
    (loss_fun : Tensor -> Tensor -> Tensor)
    (num_epochs num_classes : Z) (device : string) (augment : bool)
    (save_ckpt_path load_ckpt_path : option string)
    (logger run : option string) : M EpochMetrics :=
  _ ← prepare_model;
  (* Start from checkpoint *)
  _ ← start_from_checkpoint load_ckpt_path;
  l ← run_epochs train_loader val_loader loss_fun num_epochs num_classes
        logger run;
  (* Save model *)
  save_ckpt_path ← resolve_save_path save_ckpt_path num_epochs augment;
  save_checkpoint num_epochs l save_ckpt_path.

End Train.

(** ** test *)

Section Test.
Context `{FW : Framework}.

Record TestResult : Type := mkTestResult {
  gflops : spec_float;
  test_loss : Float;
  test_acc : Tensor;
  test_auc : Tensor
}.

(** Body of the test loop: the evaluation step, and the predictions and
    labels of the batch appended to the two lists. *)
Definition test_step (loss_fun : Tensor -> Tensor -> Tensor)
    (batch : Tensor * Tensor) (s : Running * (list Z * list Z))
  : M (Running * (list Z * list Z)) :=
  let '(inputs, labels) := batch in
  let '(r, (preds_list, labels_list)) := s in
  outputs ← call_model inputs;
  let preds := argmax outputs in
  let loss := loss_fun outputs labels in
  mret (update_running r loss outputs labels,
        (preds_list ++ tolist preds, labels_list ++ tolist labels)).

(** [tuple(next(iter(test_loader))[0].shape[1:])] *)
Definition first_image_size (test_loader : option DataLoader) : M (list Z) :=
  bs ← iterate test_loader;
  match bs with
  | (inputs, _) :: _ => mret (tail (shape inputs))
  | [] => raise StopIteration
  end.

(** [get_model_complexity_info(model, image_size, ...)[0]] of ptflops:
    the model is put in evaluation mode and run once, with counting hooks,
    on an empty batch of one image.  The call is made after the
    [torch.no_grad()] block, so the pass runs in the gradient mode of the
    caller. *)
Definition get_model_complexity_info (image_size : list Z) : M Z := fun w =>
  let m := set_training false (w_model w) in
  let '(_, m') := forward m (new_empty (1 :: image_size)) in
  (with_event (EvForward (w_grad_enabled w)) (with_model m' w),
   Ok (complexity_macs m image_size)).

(** [gflops = 2 * macs / 1000000000]: Python's division of two [int]s,
    a float. *)
Definition gflops_of_macs (macs : Z) : spec_float :=
  PyNum.truediv (2 * macs) 1000000000.

(** The image size of the first batch of a loader: the input resolution
    of the test. *)
Definition image_size_of (test_loader : option DataLoader) : option (list Z) :=
  match test_loader with
  | Some d =>
      match batches d with
      | (inputs, _) :: _ => Some (tail (shape inputs))
      | [] => None
      end
  | None => None
  end.

(** What is expected of the analyzer: its count is a function of the
    architecture of the model and of the image size. *)
Definition analyzer_by_architecture : Prop :=
  forall (m1 m2 : Module Tensor) (image_size : list Z),
    architecture shape m1 = architecture shape m2 ->
    complexity_macs m1 image_size = complexity_macs m2 image_size.

(** [load_ckpt_path.split('.')[0] + suffix] *)
Definition beside_checkpoint (load_ckpt_path suffix : string) : result string :=
  stem ← index_ (PyStr.split "." load_ckpt_path) 0;
  Ok (stem +:+ suffix).

(** Lines 369-381. *)
Definition resolve_csv_paths (load_ckpt_path : option string)
  : M (string * string) :=
  match load_ckpt_path with
  | Some path =>
      save_outputs_path ← lift (beside_checkpoint path "_outputs.csv");
      save_metrics_path ← lift (beside_checkpoint path "_metrics.csv");
      mret (save_outputs_path, save_metrics_path)
  | None =>
      m ← gets w_model;
      let save_folder := OsPath.join "models" (cls m) in
      save_outputs_path ←
        run_uniquify (OsPath.join save_folder (cls m +:+ "_outputs.csv"));
      save_metrics_path ←
        run_uniquify (OsPath.join save_folder (cls m +:+ "_metrics.csv"));
      _ ← ensure_dir "models";
      _ ← ensure_dir save_folder;
      mret (save_outputs_path, save_metrics_path)
  end.

Definition to_csv (content : FileContent) (path : string) : M unit :=
  modify (fun w => with_fs (<[path := File content]> (w_fs w)) w).

(** Lines 305-346: evaluation mode, dropout on if asked, and the loop
    over the test batches without gradients. *)
Definition test_pass (test_loader : option DataLoader)
    (loss_fun : Tensor -> Tensor -> Tensor) (num_classes : Z) (dropout : bool)
  : M (Running * (list Z * list Z)) :=
  (* Create metric monitors *)
  let auc := MulticlassAUROC num_classes in
  let accuracy := MulticlassAccuracy in
  (* Set the model to evaluation mode *)
  _ ← model_eval;
  _ ← (if dropout
       then modify (fun w => with_model (enable_dropout (w_model w)) w)
       else mret tt);
  let r := mkRunning [] (metric_reset auc) (metric_reset accuracy) in
  no_grad (bs ← iterate test_loader;
           for_each bs (test_step loss_fun) (r, ([], []))).

Definition test (test_loader : option DataLoader)
    (loss_fun : Tensor -> Tensor -> Tensor) (num_classes : Z)
    (device : string) (dropout : bool) (load_ckpt_path : option string)
  : M TestResult :=
  (* Load model checkpoint *)
  _ ← start_from_checkpoint load_ckpt_path;
  s ← test_pass test_loader loss_fun num_classes dropout;
  let '(r, (preds_list, labels_list)) := s in
  let test_loss := np_average (loss_arr r) in
  let test_acc := metric_compute (r_accuracy r) in
  let test_auc := metric_compute (r_auc r) in
  (* Calculate GFLOPS *)
  image_size ← first_image_size test_loader;
  macs ← get_model_complexity_info image_size;
  let gflops := gflops_of_macs macs in
  (* Save outputs and metrics *)
  m ← gets w_model;
  paths ← resolve_csv_paths load_ckpt_path;
  _ ← to_csv (CsvOutputs preds_list labels_list) (fst paths);
  _ ← to_csv (CsvMetrics (cls m) gflops test_loss test_acc test_auc) (snd paths);
  mret (mkTestResult gflops test_loss test_acc test_auc).

End Test.

(** ** A small framework instance

    Tensors are a shape and a tag, the floats of the framework are
    rationals, the zoo holds skeletons of the torchvision networks: the
    class name, one backbone layer and the classification head of each.
    A backward pass stores the loss as gradient of the trainable
    parameters and an optimizer step adds one to their tags.  The
    analyzer counts by architecture. *)

Module Toy.

Definition tensor : Type := list Z * Z.

Definition param (sh : list Z) (tag : Z) : Param tensor :=
  mkParam (sh, tag) true None.

Definition linear (i o : Z) : Module tensor :=
  Mod "Linear"
      [("training", ABool true); ("in_features", AInt i); ("out_features", AInt o)]
      [("weight", param [o; i] 7); ("bias", param [o] 8)] [] [].

Definition conv (i o k : Z) : Module tensor :=
  Mod "Conv2d" [("training", ABool true)]
      [("weight", param [o; i; k; k] 3); ("bias", param [o] 4)] [] [].

Definition batchnorm (n : Z) : Module tensor :=
  Mod "BatchNorm2d" [("training", ABool true)]
      [("weight", param [n] 5); ("bias", param [n] 6)]
      [("running_mean", ([n], 0)); ("running_var", ([n], 1))] [].

Definition plain (k : string) (a : list (string * AttrVal)) : Module tensor :=
  Mod k (("training", ABool true) :: a) [] [] [].

Definition seq_ (ms : list (Module tensor)) : Module tensor :=
  Mod "Sequential" [("training", ABool true)] [] []
      (imap (fun i m => (PyStr.str (Z.of_nat i), m)) ms).

Definition net (k : string) (ch : list (string * Module tensor)) : Module tensor :=
  Mod k [("training", ABool true)] [] [] ch.

Definition toy_alexnet (_ : bool) : Module tensor :=
  net "AlexNet"
    [("features", seq_ [conv 3 64 11; plain "ReLU" [("inplace", ABool true)]]);
     ("avgpool", plain "AdaptiveAvgPool2d" []);
     ("classifier",
      seq_ [plain "Dropout" [("p", AFrac (1 # 2))]; linear 9216 4096;
            plain "ReLU" [("inplace", ABool true)];
            plain "Dropout" [("p", AFrac (1 # 2))]; linear 4096 4096;
            plain "ReLU" [("inplace", ABool true)]; linear 4096 1000])].

Definition toy_vgg (_ : bool) : Module tensor :=
  net "VGG"
    [("features", seq_ [conv 3 64 3; plain "ReLU" [("inplace", ABool true)]]);
     ("avgpool", plain "AdaptiveAvgPool2d" []);
     ("classifier",
      seq_ [linear 25088 4096; plain "ReLU" [("inplace", ABool true)];
            plain "Dropout" [("p", AFrac (1 # 2))]; linear 4096 4096;
            plain "ReLU" [("inplace", ABool true)];
            plain "Dropout" [("p", AFrac (1 # 2))]; linear 4096 1000])].

Definition toy_googlenet (_ : bool) : Module tensor :=
  net "GoogLeNet"
    [("conv1", net "BasicConv2d" [("conv", conv 3 64 7); ("bn", batchnorm 64)]);
     ("dropout", plain "Dropout" [("p", AFrac (1 # 5))]);
     ("fc", linear 1024 1000)].

Definition toy_inception_v3 (_ : bool) : Module tensor :=
  net "Inception3"
    [("Conv2d_1a_3x3",
      net "BasicConv2d" [("conv", conv 3 32 3); ("bn", batchnorm 32)]);
     ("AuxLogits", net "InceptionAux" [("fc", linear 768 1000)]);
     ("dropout", plain "Dropout" [("p", AFrac (1 # 2))]);
     ("fc", linear 2048 1000)].

Definition toy_resnet18 (_ : bool) : Module tensor :=
  net "ResNet"
    [("conv1", conv 3 64 7); ("bn1", batchnorm 64);
     ("avgpool", plain "AdaptiveAvgPool2d" []);
     ("fc", linear 512 1000)].

Definition toy_densenet161 (_ : bool) : Module tensor :=
  net "DenseNet"
    [("features", seq_ [conv 3 96 7; batchnorm 96]);
     ("classifier", linear 2208 1000)].

Definition toy_swin_v2_b (_ : bool) : Module tensor :=
  net "SwinTransformer"
    [("features", seq_ [conv 3 128 4]);
     ("norm", Mod "LayerNorm" [("training", ABool true)]
                  [("weight", param [1024] 5); ("bias", param [1024] 6)] [] []);
     ("head", linear 1024 1000)].

(** The loader of a split yields two batches of four 96x96 images. *)
Definition toy_batches (d : DataLoader) : list (tensor * tensor) :=
  [(([4; 3; 96; 96], 10), ([4], 11)); (([4; 3; 96; 96], 12), ([4], 13))].

(** The count of the analyzer of this instance: the number of weights
    times the number of input values. *)
Definition toy_macs (a : Module (list Z)) (image_size : list Z) : Z :=
  foldr Z.add 0 (map (fun pp => foldr Z.mul 1 (data (snd pp)))
                     (named_parameters a))
  * foldr Z.mul 1 image_size.

Definition toy_str_float (q : Q) : string :=
  if Qeq_bool q (1 # 2) then "0.5"
  else if Qeq_bool q (1 # 1000) then "0.001"
  else "1e-05".

#[export, refine] Instance framework : Framework := {|
  Tensor := tensor;
  Float := Q;
  OptState := Q * Z;
  SchedState := Z;
  Metric := list Z;
  alexnet := toy_alexnet;
  vgg11 := toy_vgg;
  vgg16 := toy_vgg;
  googlenet := toy_googlenet;
  inception_v3 := toy_inception_v3;
  resnet18 := toy_resnet18;
  densenet161 := toy_densenet161;
  swin_v2_b := toy_swin_v2_b;
  linear_init := fun i o => (([o; i], 1), ([o], 2));
  shape := fst;
  forward := fun m x => (([hd 0 (fst x); 2], snd x), m);
  argmax := fun t => ([hd 0 (fst t)], snd t);
  tolist := fun t => [snd t];
  item := fun t => inject_Z (snd t);
  backward := fun loss m =>
    map_parameters
      (fun p => if requires_grad p then mkParam (data p) true (Some loss) else p)
      m;
  zero_grad := fun _ m =>
    map_parameters (fun p => mkParam (data p) (requires_grad p) None) m;
  opt_step := fun o m =>
    ((fst o, snd o + 1),
     map_parameters
       (fun p => if requires_grad p
                 then mkParam (fst (data p), snd (data p) + 1) true (grad p)
                 else p)
       m);
  opt_lr := fst;
  sched_step := fun sc o => (sc + 1, o);
  MulticlassAUROC := fun n => [n];
  MulticlassAccuracy := [];
  metric_reset := fun _ => [];
  metric_update := fun mt out _ => mt ++ [snd out];
  metric_compute := fun mt => ([], Z.of_nat (length mt));
  np_average := fun l => match l with [] => 0%Q | x :: _ => x end;
  str_float := toy_str_float;
  new_empty := fun sz => (sz, 0);
  complexity_macs := fun m sz => toy_macs (architecture fst m) sz;
  pcam_available := fun root split download => download;
  batches := toy_batches
|}.
Proof.
- reflexivity.
- reflexivity.
Defined.

Definition world (m : Module tensor) (lr : Q)
    (fs : gmap string (Node FileContent)) : World :=
  mkWorld fs m (lr, 0) 0 true [].

Definition loss_fun (outputs labels : tensor) : tensor :=
  ([], snd outputs + snd labels).

Definition loader (split : string) : option DataLoader :=
  Some (mkDataLoader (mkDataset "data" split true []) 4 true).

(** The adapted ResNet-18, and the same network with other values. *)
Definition resnet_adapted : Module tensor :=
  match get_model "ResNet-18" "cpu" true with
  | Ok m => m
  | Raise _ => toy_resnet18 true
  end.

Definition resnet_reinitialised : Module tensor :=
  assign (fun _ t => (fst t, 99)) resnet_adapted.

(** One epoch of training from an empty file system, saved at a given
    path. *)
Definition start : World := world resnet_adapted (1 # 2) ∅.

Definition trained : World * result EpochMetrics :=
  train (loader "train") (loader "val") loss_fun 1 2 "cpu" false
        (Some "run.pt") None None None start.

Definition trained_metrics : EpochMetrics :=
  match snd trained with
  | Ok metrics => metrics
  | Raise _ => mkEpochMetrics 0%Q ([], 0) ([], 0) 0%Q ([], 0) ([], 0)
  end.

Definition fresh : World :=
  world resnet_reinitialised (1 # 2) (w_fs (fst trained)).

Definition tested : World * result TestResult :=
  test (loader "test") loss_fun 2 "cpu" false (Some "run.pt") fresh.

Definition tested_result : TestResult :=
  match snd tested with
  | Ok res => res
  | Raise _ => mkTestResult (S754_zero false) 0%Q ([], 0) ([], 0)
  end.

(** A model whose class is named [ResNet-18], in a file system where its
    synthesized save path is taken. *)
Definition collision : World :=
  world (net "ResNet-18" [("fc", linear 512 2)]) (1 # 2)
        (<["models" := Dir]>
           (<["models/ResNet-18_lr5_epoch10" := Dir]>
              (<["models/ResNet-18_lr5_epoch10/ResNet-18.pt" := File (Pickle ∅)]>
                 ∅))).

(** Two checkpoints with the same model state and different other
    entries. *)
Definition checkpoint_full : gmap string PyVal :=
  <["epochs" := VInt 7]>
    (<["optimizer_state_dict" := VOptState ((1 # 10)%Q, 5)]>
       (<["model_state_dict" := VStateDict (state_dict resnet_reinitialised)]> ∅)).

Definition checkpoint_bare : gmap string PyVal :=
  <["model_state_dict" := VStateDict (state_dict resnet_reinitialised)]> ∅.

End Toy.

(** ** What runs are compared with

    The framework calls of a run with their payload dropped, the calls one
    epoch is expected to make, and relations between the file systems
    before and after. *)

Inductive Call : Type :=
| CZeroGrad
| CForward (grad_enabled : bool)
| CBackward
| COptimizerStep
| CSchedulerStep
| CAppend (namespace key : string).

Section Calls.
Context `{FW : Framework}.

Definition call_of (e : Event) : Call :=
  match e with
  | EvForward g => CForward g
  | EvZeroGrad => CZeroGrad
  | EvBackward => CBackward
  | EvOptimizerStep => COptimizerStep
  | EvSchedulerStep => CSchedulerStep
  | EvRunAppend namespace key _ => CAppend namespace key
  end.

(** How many batches a loader argument yields; [None] yields none. *)
Definition batch_count (loader : option DataLoader) : nat :=
  match loader with
  | Some d => length (batches d)
  | None => 0%nat
  end.

(** Batch [i] of a training pass is logged when a run is attached and [i]
    is a multiple of 100. *)
Definition logged (run : option string) (i : Z) : bool :=
  (i `mod` 100 =? 0) && bool_decide (is_Some run).

Definition step_calls (g : bool) (logger run : option string) (i : Z)
  : list Call :=
  [CZeroGrad; CForward g; CBackward; COptimizerStep] ++
  (if logged run i then
     match logger with
     | Some namespace =>
         [CAppend namespace "batch/loss"; CAppend namespace "batch/acc";
          CAppend namespace "batch/auc"]
     | None => []
     end
   else []).

Definition epoch_calls (g : bool) (logger run : option string)
    (n_train n_val : nat) : list Call :=
  flat_map (step_calls g logger run) (range (Z.of_nat n_train))
  ++ [CSchedulerStep] ++ replicate n_val (CForward false).

(** A step that adds the calls [cs] and keeps the gradient mode. *)
Definition adds_calls (cs : list Call) (w w' : World) : Prop :=
  map call_of (w_events w') = map call_of (w_events w) ++ cs /\
  w_grad_enabled w' = w_grad_enabled w.

(** The file system is as it was. *)
Definition keeps_fs (w w' : World) : Prop := w_fs w' = w_fs w.

(** Whatever was in the file system is still there, unchanged. *)
Definition keeps_existing (w w' : World) : Prop :=
  forall path, is_Some (w_fs w !! path) -> w_fs w' !! path = w_fs w !! path.


(** The architecture of the model is kept. *)
Definition keeps_architecture (w w' : World) : Prop :=
  architecture shape (w_model w') = architecture shape (w_model w).

(** A path without a dot. *)
Definition no_dot (s : string) : bool :=
  PyStr.forallb_string (fun a => negb (Ascii.eqb a ".")) s.

(** The keys of the dict that [train] saves. *)
Definition checkpoint_keys : gset string :=
  list_to_set
    ["epochs"; "model_state_dict"; "optimizer_state_dict";
     "train_loss"; "train_acc"; "train_auc";
     "val_loss"; "val_acc"; "val_auc"].

End Calls.

(** ** Which modules are in training mode

    [test] puts the model in evaluation mode and, when [dropout] is set,
    calls [train()] on every module whose class name contains
    ["Dropout"]. *)

Section TrainingMode.
Context {Tensor : Type}.

(** The [training] attribute of the module at a path. *)
Definition training_at (m : Module Tensor) (path : list string)
  : option AttrVal :=
  match get_path m path with
  | Some c => assoc_get "training" (attrs c)
  | None => None
  end.

(** Whether the module at a path, or one above it, is a dropout module. *)
Fixpoint under_dropout (m : Module Tensor) (path : list string) : bool :=
  PyStr.contains "Dropout" (cls m) ||
  match path with
  | [] => false
  | n :: rest =>
      match assoc_get n (children m) with
      | Some c => under_dropout c rest
      | None => false
      end
  end.

End TrainingMode.

(** ** Runs of the small framework instance *)

Module Runs.

(** Two epochs with a run and a logger attached. *)
Definition logged : World * result EpochMetrics :=
  train (FW := Toy.framework)
        (Toy.loader "train") (Toy.loader "val") Toy.loss_fun 2 2 "cpu" false
        (Some "run.pt") None (Some "training") (Some "run") Toy.start.

Definition no_metrics : EpochMetrics (FW := Toy.framework) :=
  mkEpochMetrics (FW := Toy.framework) 0%Q ([], 0) ([], 0) 0%Q ([], 0) ([], 0).

Definition logged_metrics : EpochMetrics (FW := Toy.framework) :=
  match snd logged with
  | Ok metrics => metrics
  | Raise _ => no_metrics
  end.

(** Ten epochs without a save path, where the synthesized folder is
    taken. *)
Definition unnamed : World * result EpochMetrics :=
  train (FW := Toy.framework)
        (Toy.loader "train") (Toy.loader "val") Toy.loss_fun 10 2 "cpu" false
        None None None None Toy.collision.

Definition unnamed_metrics : EpochMetrics (FW := Toy.framework) :=
  match snd unnamed with
  | Ok metrics => metrics
  | Raise _ => no_metrics
  end.


(** A learning rate that prints as [1e-05]. *)
Definition small_lr : World (FW := Toy.framework) := Toy.world Toy.resnet_adapted (1 # 100000) ∅.

(** The loader of the train split, and a checkpoint that is not one of
    [train]'s. *)
Definition train_split : DataLoader :=
  mkDataLoader (mkDataset "data" "train" true []) 4 true.

Definition foreign : World (FW := Toy.framework) :=
  Toy.world Toy.resnet_adapted (1 # 2)
            (<["other.pt" :=
                 File (Pickle (FW := Toy.framework)
                         (<["epochs" := VInt (FW := Toy.framework) 3]> ∅))]> ∅).

End Runs.


(** * Properties *)

(** The theorems, in the order: the monad, paths, data loaders, module
    trees and [get_model], passes, [train], checkpoints, architectures,
    GFLOPs, resumed runs. *)

(** ** The monad of runs *)

Section MonadFacts.
Context `{FW : Framework}.

Lemma bind_run {A B : Type} (c : M A) (k : A -> M B) (w : World) :
  (c ≫= k) w
  = match c w with
    | (w', Ok a) => k a w'
    | (w', Raise e) => (w', Raise e)
    end.
Proof. reflexivity. Qed.

Lemma bind_ok {A B : Type} (c : M A) (k : A -> M B) (w w1 : World) (a : A) :
  c w = (w1, Ok a) -> (c ≫= k) w = k a w1.
Proof. intros H. by rewrite bind_run, H. Qed.

Lemma bind_raise {A B : Type} (c : M A) (k : A -> M B) (w w1 : World) (e : Exn) :
  c w = (w1, Raise e) -> (c ≫= k) w = (w1, Raise e).
Proof. intros H. by rewrite bind_run, H. Qed.

Lemma bind_ok_inv {A B : Type} (c : M A) (k : A -> M B) (w w' : World) (b : B) :
  (c ≫= k) w = (w', Ok b) ->
  exists w1 a, c w = (w1, Ok a) /\ k a w1 = (w', Ok b).
Proof.
  rewrite bind_run. destruct (c w) as [w1 [a|e]]; [|done].
  intros H. by exists w1, a.
Qed.

Lemma run_outcome {A : Type} (c : M A) (w : World) (r : result A) :
  snd (c w) = r -> c w = (fst (c w), r).
Proof. intros <-. by destruct (c w). Qed.

Section Preserves.
Context (R : World -> World -> Prop) `{!PreOrder R}.

Lemma preserves_ret {A : Type} (a : A) : preserves R (mret a).
Proof. intros w. simpl. reflexivity. Qed.

Lemma preserves_raise {A : Type} (e : Exn) : preserves R (raise (A := A) e).
Proof. intros w. simpl. reflexivity. Qed.

Lemma preserves_lift {A : Type} (r : result A) : preserves R (lift r).
Proof. intros w. simpl. reflexivity. Qed.

Lemma preserves_gets {A : Type} (f : World -> A) : preserves R (gets f).
Proof. intros w. simpl. reflexivity. Qed.

Lemma preserves_modify (f : World -> World) :
  (forall w, R w (f w)) -> preserves R (modify f).
Proof. intros H w. apply H. Qed.

Lemma preserves_bind {A B : Type} (c : M A) (k : A -> M B) :
  preserves R c -> (forall a, preserves R (k a)) -> preserves R (c ≫= k).
Proof.
  intros Hc Hk w. rewrite bind_run. specialize (Hc w).
  destruct (c w) as [w1 [a|e]]; simpl in *; [|done].
  etrans; [exact Hc | apply Hk].
Qed.

Lemma preserves_for_each {A S : Type} (l : list A) (body : A -> S -> M S) :
  (forall a s, preserves R (body a s)) ->
  forall s, preserves R (for_each l body s).
Proof.
  intros Hbody. induction l as [|a l IH]; intros s; simpl.
  - apply preserves_ret.
  - apply preserves_bind; [apply Hbody | apply IH].
Qed.

Lemma preserves_iterate (loader : option DataLoader) : preserves R (iterate loader).
Proof. destruct loader; [apply preserves_ret | apply preserves_raise]. Qed.

End Preserves.

End MonadFacts.

(** ** uniquify *)

Section UniquifyFacts.
Context {C : Type}.
Implicit Types (fs : gmap string (Node C)).

Lemma string_app_cons (a : ascii) (s1 s2 : string) :
  String a s1 +:+ s2 = String a (s1 +:+ s2).
Proof. reflexivity. Qed.

Lemma string_length_app (s1 s2 : string) :
  String.length (s1 +:+ s2) = (String.length s1 + String.length s2)%nat.
Proof.
  induction s1 as [|a s1 IH]; [done|].
  rewrite string_app_cons. simpl. by rewrite IH.
Qed.

Lemma string_app_nil_r (s : string) : s +:+ "" = s.
Proof. induction s as [|a s IH]; [done|]. rewrite string_app_cons. by f_equal. Qed.

Lemma string_app_inj_r (s1 s2 e : string) : s1 +:+ e = s2 +:+ e -> s1 = s2.
Proof.
  revert s2. induction s1 as [|a s1 IH]; intros [|b s2] Heq.
  - done.
  - apply (f_equal String.length) in Heq.
    rewrite !string_length_app in Heq. simpl in Heq. lia.
  - apply (f_equal String.length) in Heq.
    rewrite !string_length_app in Heq. simpl in Heq. lia.
  - rewrite !string_app_cons in Heq. injection Heq as -> Heq.
    f_equal. by apply IH.
Qed.

Lemma candidate_inj (filename extension : string) (j k : Z) :
  candidate filename extension j = candidate filename extension k -> j = k.
Proof.
  unfold candidate, PyStr.str. intros Heq.
  apply (inj (String.app filename)) in Heq.
  apply (inj (String.app "_")) in Heq.
  apply string_app_inj_r in Heq.
  by apply (inj pretty) in Heq.
Qed.

Lemma exists_true fs path : exists_ fs path = true <-> path ∈ dom fs.
Proof.
  unfold exists_. rewrite bool_decide_eq_true. by rewrite elem_of_dom.
Qed.

Lemma exists_false fs path : exists_ fs path = false <-> path ∉ dom fs.
Proof.
  rewrite <- exists_true. destruct (exists_ fs path); naive_solver.
Qed.

(** Among the first [size fs + 1] candidates one is free. *)
Lemma candidate_free fs (filename extension : string) :
  exists k, 1 <= k <= Z.of_nat (size fs) + 1 /\
            exists_ fs (candidate filename extension k) = false.
Proof.
  set (ks := (fun i => Z.of_nat i) <$> seq 1 (S (size fs))).
  set (l := candidate filename extension <$> ks).
  destruct (decide (Forall (fun p => p ∈ dom fs) l)) as [Hall|Hex].
  - exfalso.
    assert (NoDup l) as Hnd.
    { apply NoDup_fmap_2_strong.
      - intros ?? _ _. apply candidate_inj.
      - apply NoDup_fmap_2; [intros ?? ?; lia | apply NoDup_seq]. }
    assert (list_to_set l ⊆ dom fs) as Hsub.
    { intros p Hp. apply elem_of_list_to_set in Hp.
      by eapply (proj1 (Forall_forall _ _)) in Hall. }
    apply subseteq_size in Hsub.
    rewrite size_list_to_set, size_dom in Hsub by done.
    unfold l, ks in Hsub. rewrite !length_fmap, length_seq in Hsub. lia.
  - apply not_Forall_Exists in Hex; [|apply _].
    apply Exists_exists in Hex as (p & Hp & Hfree).
    apply list_elem_of_fmap in Hp as (k & -> & Hk).
    apply list_elem_of_fmap in Hk as (i & -> & Hi).
    apply elem_of_seq in Hi.
    exists (Z.of_nat i). split; [lia|]. by apply exists_false.
Qed.

(** The loop stops at the path it is given when that is free, and else at
    the first free candidate from [counter] on. *)
Lemma uniquify_loop_sound fs (filename extension : string) fuel :
  forall path counter r,
    uniquify_loop fuel fs filename extension path counter = Some r ->
    exists_ fs r = false /\
    ((exists_ fs path = false /\ r = path) \/
     (exists_ fs path = true /\
      exists k, counter <= k /\ r = candidate filename extension k /\
                forall j, counter <= j < k ->
                          exists_ fs (candidate filename extension j) = true)).
Proof.
  induction fuel as [|fuel IH]; intros path counter r; simpl; [done|].
  destruct (exists_ fs path) eqn:Hp.
  - intros Hloop. apply IH in Hloop as [Hfree Hcases].
    split; [done|]. right. split; [done|].
    destruct Hcases as [[Hc ->]|[Hc (k & Hk & -> & Hbelow)]].
    + exists counter. split; [lia|]. split; [done|]. intros j ?; lia.
    + exists k. split; [lia|]. split; [done|].
      intros j Hj. destruct (decide (j = counter)) as [->|]; [done|].
      apply Hbelow. lia.
  - intros [= <-]. split; [done|]. by left.
Qed.

(** A free candidate within reach of the fuel makes the loop return. *)
Lemma uniquify_loop_returns fs (filename extension : string) fuel :
  forall path counter k,
    counter <= k ->
    exists_ fs (candidate filename extension k) = false ->
    (Z.to_nat (k - counter) + 2 <= fuel)%nat ->
    is_Some (uniquify_loop fuel fs filename extension path counter).
Proof.
  induction fuel as [|fuel IH]; intros path counter k Hk Hfree Hfuel; [lia|].
  simpl. destruct (exists_ fs path) eqn:Hp; [|by eexists].
  destruct (decide (k = counter)) as [->|Hne].
  - destruct fuel as [|fuel']; [lia|]. simpl. rewrite Hfree. by eexists.
  - apply (IH _ _ k); [lia | done | lia].
Qed.

Lemma uniquify_total fs (path : string) : is_Some (uniquify fs path).
Proof.
  unfold uniquify, uniquify_fuel.
  destruct (OsPath.splitext path) as [filename extension].
  destruct (candidate_free fs filename extension) as (k & Hk & Hfree).
  apply (uniquify_loop_returns _ _ _ _ _ _ k); [lia | done | lia].
Qed.


End UniquifyFacts.

(** ** Where the extension starts *)

Section SplitextFacts.












End SplitextFacts.

Section SavePath.
Context `{FW : Framework}.

Lemma run_uniquify_some (path r : string) (w : World) :
  uniquify (w_fs w) path = Some r -> run_uniquify path w = (w, Ok r).
Proof. intros H. unfold run_uniquify. rewrite bind_run. simpl. by rewrite H. Qed.




End SavePath.

(** ** get_dataloaders *)

Section DataloaderFacts.
Context `{FW : Framework}.

Lemma PCAM_inv (root split : string) (download : bool)
    (transform : list Transform) (d : Dataset) :
  PCAM root split download transform = Ok d ->
  d = mkDataset root split download transform.
Proof. unfold PCAM. destruct (pcam_available _ _ _); congruence. Qed.

(** What a successful call returns, split by the [train] flag. *)
Lemma get_dataloaders_inv (data_path : string) (batch_size : Z)
    (train shuffle download : bool) (resize : Z) (augment : bool)
    (tr va te : option DataLoader) :
  get_dataloaders data_path batch_size train shuffle download resize augment
  = Ok (tr, va, te) ->
  te = Some (mkDataLoader
               (mkDataset data_path "test" download (testval_transform resize))
               batch_size shuffle) /\
  (train = false -> tr = None /\ va = None) /\
  (train = true ->
   tr = Some (mkDataLoader
                (mkDataset data_path "train" download
                           (train_transform resize augment))
                batch_size shuffle) /\
   va = Some (mkDataLoader
                (mkDataset data_path "val" download (testval_transform resize))
                batch_size shuffle)).
Proof.
  unfold get_dataloaders, when_, mbind, result_bind.
  destruct train.
  - destruct (PCAM data_path "train" _ _) as [d1|] eqn:H1; [|done].
    destruct (PCAM data_path "val" _ _) as [d2|] eqn:H2; [|done].
    destruct (PCAM data_path "test" _ _) as [d3|] eqn:H3; [|done].
    apply PCAM_inv in H1 as ->. apply PCAM_inv in H2 as ->.
    apply PCAM_inv in H3 as ->. simpl. intros [= <- <- <-]. by repeat split.
  - destruct (PCAM data_path "test" _ _) as [d3|] eqn:H3; [|done].
    apply PCAM_inv in H3 as ->. simpl. intros [= <- <- <-]. by repeat split.
Qed.

Lemma get_dataloaders_returns (data_path : string) (batch_size : Z)
    (train shuffle download : bool) (resize : Z) (augment : bool) :
  pcam_available data_path "test" download = true ->
  (train = true ->
   pcam_available data_path "train" download = true /\
   pcam_available data_path "val" download = true) ->
  exists r,
    get_dataloaders data_path batch_size train shuffle download resize augment
    = Ok r.
Proof.
  intros Hte Htr. unfold get_dataloaders, when_, PCAM, mbind, result_bind.
  destruct train.
  - destruct Htr as [-> ->]; [done|]. rewrite Hte. simpl. by eexists.
  - rewrite Hte. simpl. by eexists.
Qed.

(** C6. With [train] off the train and validation loaders are [None] and
    the test loader is a loader; with [train] on all three are loaders.
    The call returns whenever the PCAM files of the splits it builds are
    available. *)
Theorem get_dataloaders_train_flag (data_path : string) (batch_size : Z)
    (train shuffle download : bool) (resize : Z) (augment : bool) :
  (forall tr va te,
      get_dataloaders data_path batch_size train shuffle download resize augment
      = Ok (tr, va, te) ->
      is_Some te /\
      (train = false -> tr = None /\ va = None) /\
      (train = true -> is_Some tr /\ is_Some va)) /\
  (pcam_available data_path "test" download = true ->
   (train = true ->
    pcam_available data_path "train" download = true /\
    pcam_available data_path "val" download = true) ->
   exists r,
     get_dataloaders data_path batch_size train shuffle download resize augment
     = Ok r).
Proof.
  split.
  - intros tr va te Hget.
    apply get_dataloaders_inv in Hget as (-> & Hoff & Hon).
    split; [by eexists|]. split; [done|].
    intros Ht. destruct (Hon Ht) as [-> ->]. split; by eexists.
  - apply get_dataloaders_returns.
Qed.

(** C2, as amended.  The flips are in the train pipeline only, and only
    with [augment] on; the validation and the test loader share one
    pipeline without flips.  All three resize and then normalize with the
    same fixed channel statistics: the train pipeline without its flips is
    the validation and test pipeline. *)
Theorem augmentation_only_in_train (data_path : string) (batch_size : Z)
    (train shuffle download : bool) (resize : Z) (augment : bool)
    (tr va te : option DataLoader) :
  get_dataloaders data_path batch_size train shuffle download resize augment
  = Ok (tr, va, te) ->
  loader_transform te
  = Some [ToTensor; Resize resize true;
          Normalize [0.485; 0.456; 0.406]%Q [0.229; 0.224; 0.225]%Q] /\
  has_flip te = false /\
  has_flip va = false /\
  (train = true ->
   loader_transform va = loader_transform te /\
   loader_transform tr
   = Some ([ToTensor; Resize resize true]
           ++ (if augment then [RandomHorizontalFlip; RandomVerticalFlip] else [])
           ++ [Normalize [0.485; 0.456; 0.406]%Q [0.229; 0.224; 0.225]%Q]) /\
   has_flip tr = augment /\
   (filter (fun t => negb (is_flip t)) <$> loader_transform tr)
   = loader_transform te).
Proof.
  intros Hget. apply get_dataloaders_inv in Hget as (-> & Hoff & Hon).
  split; [done|]. split; [done|]. destruct train.
  - destruct (Hon eq_refl) as [-> ->]. split; [done|]. intros _.
    split; [done|]. split; [done|]. by destruct augment.
  - destruct (Hoff eq_refl) as [-> ->]. done.
Qed.

End DataloaderFacts.

(** A test-only call on a data source that can be downloaded returns. *)
Lemma get_dataloaders_train_flag_witness :
  exists r,
    get_dataloaders (FW := Toy.framework) "data" 4 false true true 96 false = Ok r.
Proof.
  apply (proj2 (get_dataloaders_train_flag
                  (FW := Toy.framework) "data" 4 false true true 96 false)).
  - reflexivity.
  - discriminate.
Defined.

(** With [augment] on, the train loader flips and the other two do not. *)
Lemma augmentation_only_in_train_witness :
  exists tr va te,
    get_dataloaders (FW := Toy.framework) "data" 4 true true true 96 true
    = Ok (tr, va, te) /\
    has_flip tr = true /\ has_flip va = false /\ has_flip te = false.
Proof.
  eexists _, _, _. split; [reflexivity|].
  pose proof (augmentation_only_in_train
                (FW := Toy.framework) "data" 4 true true true 96 true
                _ _ _ eq_refl) as (_ & Hte & Hva & Hon).
  destruct (Hon eq_refl) as (_ & _ & Htr & _). auto.
Defined.

(** C2, as stated, fails: with [augment] on, the validation loader does
    not flip. *)
Lemma flips_in_train_and_val_refuted :
  ~ flips_in_train_and_val (FW := Toy.framework) "data" 4 true true 96.
Proof.
  intros H. destruct (H _ _ _ eq_refl) as (_ & Hva & _). discriminate Hva.
Qed.

(** ** Module trees *)

Section ModuleFacts.
Context {Tensor : Type}.
Implicit Types (m c : Module Tensor) (p : Param Tensor).

Lemma Module_ind' (P : Module Tensor -> Prop) :
  (forall k a ps b ch, Forall (fun nc => P (snd nc)) ch -> P (Mod k a ps b ch)) ->
  forall m, P m.
Proof.
  intros step. fix IH 1. intros [k a ps b ch]. apply step.
  induction ch as [|[n c] ch IHch]; constructor; [apply IH | exact IHch].
Qed.

(** *** Association lists *)

Lemma assoc_get_set_eq {V : Type} (k : string) (v : V) (l : list (string * V)) :
  assoc_get k (assoc_set k v l) = Some v.
Proof.
  induction l as [|[k' v'] l IH]; simpl.
  - by rewrite String.eqb_refl.
  - destruct (String.eqb k' k) eqn:E; simpl.
    + by rewrite String.eqb_refl.
    + by rewrite E.
Qed.

Lemma assoc_get_elem {V : Type} (k : string) (v : V) (l : list (string * V)) :
  assoc_get k l = Some v -> (k, v) ∈ l.
Proof.
  induction l as [|[k' v'] l IH]; simpl; [done|].
  destruct (String.eqb k' k) eqn:E.
  - apply String.eqb_eq in E as ->. intros [= ->]. left.
  - intros H. right. by apply IH.
Qed.

Lemma elem_assoc_get {V : Type} (k : string) (v : V) (l : list (string * V)) :
  NoDup (map fst l) -> (k, v) ∈ l -> assoc_get k l = Some v.
Proof.
  induction l as [|[k' v'] l IH]; simpl; intros Hnd Hin.
  - by apply elem_of_nil in Hin.
  - apply NoDup_cons in Hnd as [Hk' Hnd].
    apply elem_of_cons in Hin as [[= <- <-]|Hin].
    + by rewrite String.eqb_refl.
    + destruct (String.eqb k' k) eqn:E; [|by apply IH].
      apply String.eqb_eq in E as ->. exfalso. apply Hk'.
      apply list_elem_of_fmap. by exists (k, v).
Qed.

Lemma assoc_set_keys_elem {V : Type} (k : string) (v : V) (l : list (string * V))
    (n : string) (x : V) :
  NoDup (map fst l) ->
  (n, x) ∈ assoc_set k v l ->
  (n = k /\ x = v) \/ (n <> k /\ (n, x) ∈ l).
Proof.
  induction l as [|[k' v'] l IH]; simpl; intros Hnd Hin.
  - apply list_elem_of_singleton in Hin as [= -> ->]. by left.
  - apply NoDup_cons in Hnd as [Hk' Hnd].
    destruct (String.eqb k' k) eqn:E.
    + apply String.eqb_eq in E as ->.
      apply elem_of_cons in Hin as [[= -> ->]|Hin]; [by left|].
      right. split; [|by right]. intros ->. apply Hk'.
      apply list_elem_of_fmap. by exists (k, x).
    + apply String.eqb_neq in E.
      apply elem_of_cons in Hin as [[= -> ->]|Hin].
      * right. split; [done | left].
      * destruct (IH Hnd Hin) as [?|[? ?]]; [by left|].
        right. split; [done | by right].
Qed.

Lemma elem_assoc_set_new {V : Type} (k : string) (v : V) (l : list (string * V)) :
  (k, v) ∈ assoc_set k v l.
Proof. apply assoc_get_elem, assoc_get_set_eq. Qed.

Lemma assoc_set_last {V : Type} (k : string) (v v' : V) (l : list (string * V)) :
  NoDup (map fst l) -> last l = Some (k, v) ->
  last (assoc_set k v' l) = Some (k, v').
Proof.
  induction l as [|[k1 v1] l IH]; simpl; [done|]. intros Hnd Hlast.
  apply NoDup_cons in Hnd as [Hk1 Hnd].
  destruct l as [|[k2 v2] l].
  - simpl in Hlast. injection Hlast as -> ->. by rewrite String.eqb_refl.
  - destruct (String.eqb k1 k) eqn:E.
    + apply String.eqb_eq in E as ->. exfalso. apply Hk1.
      apply list_elem_of_fmap. exists (k, v). split; [done|].
      by apply last_Some_elem_of.
    + specialize (IH Hnd Hlast).
      destruct (assoc_set k v' ((k2, v2) :: l)) eqn:Es; [done|]. exact IH.
Qed.

Lemma assoc_del_elem {V : Type} (k n : string) (x : V) (l : list (string * V)) :
  (n, x) ∈ assoc_del k l -> n <> k /\ (n, x) ∈ l.
Proof.
  unfold assoc_del. rewrite list_elem_of_filter. simpl.
  intros [Hne Hin]. split; [|done].
  apply negb_prop_elim in Hne. intros ->. apply Hne.
  by rewrite String.eqb_refl.
Qed.

Lemma assoc_get_fmap {V W : Type} (f : V -> W) (k : string) (l : list (string * V)) :
  assoc_get k (map (fun nv => (fst nv, f (snd nv))) l) = f <$> assoc_get k l.
Proof.
  induction l as [|[k' v'] l IH]; simpl; [done|].
  by destruct (String.eqb k' k).
Qed.

(** *** Parameters of a tree *)

Lemma elem_of_named_parameters (path : list string) p m :
  (path, p) ∈ named_parameters m <->
  (exists n, path = [n] /\ (n, p) ∈ params m) \/
  (exists n c rest, path = n :: rest /\ (n, c) ∈ children m /\
                    (rest, p) ∈ named_parameters c).
Proof.
  destruct m as [k a ps b ch]. simpl. rewrite elem_of_app. split.
  - intros [Hin|Hin].
    + apply list_elem_of_fmap in Hin as ([n q] & [= -> ->] & Hin).
      left. by exists n.
    + apply list_elem_of_In, in_flat_map in Hin as ([n c] & Hc & Hin).
      apply list_elem_of_In in Hc, Hin.
      apply list_elem_of_fmap in Hin as ([rest q] & [= -> ->] & Hin).
      right. by exists n, c, rest.
  - intros [(n & -> & Hin)|(n & c & rest & -> & Hc & Hin)].
    + left. apply list_elem_of_fmap. by exists (n, p).
    + right. apply list_elem_of_In, in_flat_map. exists (n, c).
      split; [by apply list_elem_of_In|].
      apply list_elem_of_In, list_elem_of_fmap. by exists (rest, p).
Qed.

Lemma named_parameters_map_parameters (f : Param Tensor -> Param Tensor) m :
  named_parameters (map_parameters f m)
  = map (fun pp => (fst pp, f (snd pp))) (named_parameters m).
Proof.
  induction m as [k a ps b ch IH] using Module_ind'. simpl.
  rewrite map_app, !map_map. f_equal.
  induction IH as [|[n c] ch Hc _ IHch]; simpl; [done|].
  rewrite map_app, IHch. f_equal. simpl in Hc. rewrite Hc, !map_map. done.
Qed.

Lemma freeze_frozen (path : list string) p m :
  (path, p) ∈ named_parameters (freeze m) -> requires_grad p = false.
Proof.
  unfold freeze. rewrite named_parameters_map_parameters.
  intros Hin. apply list_elem_of_fmap in Hin as ([path' q] & [= -> ->] & _).
  done.
Qed.

(** Freezing changes nothing but the flags. *)
Lemma cls_map_parameters (f : Param Tensor -> Param Tensor) m :
  cls (map_parameters f m) = cls m.
Proof. by destruct m. Qed.

Lemma attrs_map_parameters (f : Param Tensor -> Param Tensor) m :
  attrs (map_parameters f m) = attrs m.
Proof. by destruct m. Qed.

Lemma children_map_parameters (f : Param Tensor -> Param Tensor) m :
  children (map_parameters f m)
  = map (fun nc => (fst nc, map_parameters f (snd nc))) (children m).
Proof. by destruct m. Qed.

Lemma get_path_map_parameters (f : Param Tensor -> Param Tensor)
    (path : list string) :
  forall m, get_path (map_parameters f m) path = map_parameters f <$> get_path m path.
Proof.
  induction path as [|n path IH]; intros m; simpl; [done|].
  rewrite children_map_parameters, assoc_get_fmap.
  destruct (assoc_get n (children m)); simpl; [apply IH | done].
Qed.

Lemma distinct_names_map_parameters (f : Param Tensor -> Param Tensor) m :
  distinct_names (map_parameters f m) = distinct_names m.
Proof.
  induction m as [k a ps b ch IH] using Module_ind'. simpl.
  rewrite map_map. simpl. f_equal.
  induction IH as [|[n c] ch Hc _ IHch]; simpl; [done|].
  simpl in Hc. by rewrite Hc, IHch.
Qed.

Lemma last_map {A B : Type} (f : A -> B) (l : list A) :
  last (map f l) = f <$> last l.
Proof. apply (fmap_last f l). Qed.

Lemma head_replaceable_freeze m :
  head_replaceable (freeze m) = head_replaceable m.
Proof.
  unfold head_replaceable, freeze.
  rewrite distinct_names_map_parameters, cls_map_parameters,
    get_path_map_parameters.
  destruct (get_path m (head_attr (cls m))) as [h|]; simpl; [|done].
  rewrite cls_map_parameters, children_map_parameters, last_map.
  unfold has_in_features. rewrite attrs_map_parameters.
  destruct (last (children h)) as [[k l]|]; simpl; [|done].
  by rewrite attrs_map_parameters.
Qed.

(** Facts that [distinct_names] packs. *)
Lemma distinct_names_children m :
  distinct_names m = true -> NoDup (map fst (children m)).
Proof.
  destruct m as [k a ps b ch]. simpl. intros H.
  apply andb_prop in H as [H _]. by apply bool_decide_eq_true in H.
Qed.

Lemma distinct_names_child m (n : string) c :
  distinct_names m = true -> (n, c) ∈ children m -> distinct_names c = true.
Proof.
  destruct m as [k a ps b ch]. simpl. intros H Hin.
  apply andb_prop in H as [_ H]. rewrite forallb_forall in H.
  apply (H (n, c)). by apply list_elem_of_In.
Qed.

(** *** Assigning a sub-module *)

Lemma cls_set_child m (name : string) c : cls (set_child m name c) = cls m.
Proof. by destruct m. Qed.

Lemma children_set_child m (name : string) c :
  children (set_child m name c) = assoc_set name c (children m).
Proof. by destruct m. Qed.

Lemma get_child_set_child m (name : string) c :
  assoc_get name (children (set_child m name c)) = Some c.
Proof. rewrite children_set_child. apply assoc_get_set_eq. Qed.

(** The parameters after [m.name = c]: those of [c] under [name], and
    those [m] had elsewhere. *)
Lemma named_parameters_set_child m (name : string) c (path : list string) p :
  NoDup (map fst (children m)) ->
  (path, p) ∈ named_parameters (set_child m name c) ->
  (exists rest, path = name :: rest /\ (rest, p) ∈ named_parameters c) \/
  (exists n rest, path = n :: rest /\ n <> name /\
                  (path, p) ∈ named_parameters m).
Proof.
  intros Hnd Hin. apply elem_of_named_parameters in Hin.
  destruct m as [k a ps b ch]. simpl in Hnd, Hin.
  destruct Hin as [(n & -> & Hin)|(n & c' & rest & -> & Hc & Hin)].
  - apply assoc_del_elem in Hin as [Hne Hin]. right. exists n, [].
    split; [done|]. split; [done|].
    apply elem_of_named_parameters. left. by exists n.
  - simpl in Hc. apply assoc_set_keys_elem in Hc; [|done].
    destruct Hc as [[-> ->]|[Hne Hc]].
    + left. by exists rest.
    + right. exists n, rest. split; [done|]. split; [done|].
      apply elem_of_named_parameters. right. by exists n, c', rest.
Qed.

Lemma named_parameters_set_child_new m (name : string) c (rest : list string) p :
  (rest, p) ∈ named_parameters c ->
  (name :: rest, p) ∈ named_parameters (set_child m name c).
Proof.
  intros Hin. apply elem_of_named_parameters. right. exists name, c, rest.
  split; [done|]. split; [|done].
  rewrite children_set_child. apply elem_assoc_set_new.
Qed.

End ModuleFacts.

(** ** get_model *)

Section GetModelFacts.
Context `{FW : Framework}.
Implicit Types (m c : Module Tensor) (p : Param Tensor).

Lemma model_dir_lookup (name : string) (ctor : bool -> Module Tensor) :
  (name, ctor) ∈ model_list -> model_dir !! name = Some ctor.
Proof.
  intros Hin. apply elem_of_list_to_map_1; [|done].
  apply (bool_decide_unpack _). vm_compute. exact I.
Qed.

(** C8. A name outside the supported set is not a key of the dictionary:
    [get_model] raises [KeyError] with that name, and nothing in it
    handles the exception. *)
Theorem get_model_unknown_name (model_name device : string) (all_linears : bool) :
  model_name ∉ supported_names ->
  get_model model_name device all_linears = Raise (KeyError model_name).
Proof.
  intros Hnot. unfold get_model, model_dir.
  rewrite (not_elem_of_list_to_map_1 model_list model_name); [done|].
  exact Hnot.
Qed.

(** *** The layers that are attached *)

Lemma Linear_parameters (n o : Z) :
  named_parameters (Linear n o)
  = [(["weight"], mkParam (fst (linear_init n o)) true None);
     (["bias"], mkParam (snd (linear_init n o)) true None)].
Proof. reflexivity. Qed.

Lemma Linear_trainable (n o : Z) (path : list string) p :
  (path, p) ∈ named_parameters (Linear n o) -> requires_grad p = true.
Proof.
  rewrite Linear_parameters. intros Hin.
  repeat (apply elem_of_cons in Hin as [[= -> ->]|Hin]); try done.
  by apply elem_of_nil in Hin.
Qed.

Lemma alexnet_classifier_trainable (path : list string) p :
  (path, p) ∈ named_parameters (alexnet_classifier 2) -> requires_grad p = true.
Proof.
  intros Hin. vm_compute in Hin.
  repeat (apply elem_of_cons in Hin as [[= -> ->]|Hin]); try done.
  by apply elem_of_nil in Hin.
Qed.

Lemma vgg_classifier_trainable (path : list string) p :
  (path, p) ∈ named_parameters (vgg_classifier 2) -> requires_grad p = true.
Proof.
  intros Hin. vm_compute in Hin.
  repeat (apply elem_of_cons in Hin as [[= -> ->]|Hin]); try done.
  by apply elem_of_nil in Hin.
Qed.

Lemma alexnet_classifier_last :
  last (children (alexnet_classifier 2)) = Some ("6", Linear 4096 2).
Proof. vm_compute. reflexivity. Qed.

Lemma vgg_classifier_last :
  last (children (vgg_classifier 2)) = Some ("6", Linear 4096 2).
Proof. vm_compute. reflexivity. Qed.

Lemma alexnet_classifier_get :
  assoc_get "6" (children (alexnet_classifier 2)) = Some (Linear 4096 2).
Proof. vm_compute. reflexivity. Qed.

Lemma vgg_classifier_get :
  assoc_get "6" (children (vgg_classifier 2)) = Some (Linear 4096 2).
Proof. vm_compute. reflexivity. Qed.

(** *** Trainable flags after the head is attached *)

Lemma frozen_child m (n : string) c :
  frozen m -> assoc_get n (children m) = Some c -> frozen c.
Proof.
  intros Hm Hc path p Hin. apply (Hm (n :: path)).
  apply elem_of_named_parameters. right. exists n, c, path.
  split; [done|]. split; [by apply assoc_get_elem | done].
Qed.

(** One level: [m.a = c] with every parameter of [c] trainable. *)
Lemma flags_after_attach m (a : string) c :
  frozen m -> NoDup (map fst (children m)) ->
  (forall path p, (path, p) ∈ named_parameters c -> requires_grad p = true) ->
  forall path p,
    (path, p) ∈ named_parameters (set_child m a c) ->
    requires_grad p = bool_decide ([a] `prefix_of` path).
Proof.
  intros Hm Hnd Hc path p Hin.
  apply named_parameters_set_child in Hin
    as [(rest & -> & Hin)|(n & rest & -> & Hne & Hin)]; [| |done].
  - rewrite (Hc _ _ Hin). symmetry. apply bool_decide_eq_true_2.
    by exists rest.
  - rewrite (Hm _ _ Hin). symmetry. apply bool_decide_eq_false_2.
    intros [k Hk]. simplify_eq/=.
Qed.

(** Two levels: [m.a.b = c] where [m.a] was frozen. *)
Lemma flags_after_attach_inner m (a b : string) ca c :
  frozen m -> NoDup (map fst (children m)) ->
  assoc_get a (children m) = Some ca -> NoDup (map fst (children ca)) ->
  (forall path p, (path, p) ∈ named_parameters c -> requires_grad p = true) ->
  forall path p,
    (path, p) ∈ named_parameters (set_child m a (set_child ca b c)) ->
    requires_grad p = bool_decide ([a; b] `prefix_of` path).
Proof.
  intros Hm Hnd Hca Hnda Hc path p Hin.
  apply named_parameters_set_child in Hin
    as [(rest & -> & Hin)|(n & rest & -> & Hne & Hin)]; [| |done].
  - apply named_parameters_set_child in Hin
      as [(rest' & -> & Hin)|(n & rest' & -> & Hne & Hin)]; [| |done].
    + rewrite (Hc _ _ Hin). symmetry. apply bool_decide_eq_true_2.
      by exists rest'.
    + rewrite (frozen_child _ _ _ Hm Hca _ _ Hin). symmetry.
      apply bool_decide_eq_false_2. intros [k Hk]. simplify_eq/=.
  - rewrite (Hm _ _ Hin). symmetry. apply bool_decide_eq_false_2.
    intros [k Hk]. simplify_eq/=.
Qed.

Lemma Linear_out_features (n : Z) :
  cls (Linear n 2) = "Linear" /\ get_int (Linear n 2) "out_features" = Ok 2.
Proof. split; reflexivity. Qed.

Lemma has_in_features_get_int m :
  has_in_features m = true -> exists n, get_int m "in_features" = Ok n.
Proof.
  unfold has_in_features, get_int.
  destruct (assoc_get "in_features" (attrs m)) as [[z| |]|]; try done.
  by exists z.
Qed.

(** *** The three shapes of head replacement *)

(** [model.<name> = Linear(model.<name>.in_features, 2)] in a family whose
    head is that one linear layer. *)
Lemma replace_linear_adapts (all_linears : bool) m (name : string) old (n : Z) :
  frozen m -> NoDup (map fst (children m)) ->
  sequential_family (cls m) = false -> head_attr (cls m) = [name] ->
  assoc_get name (children m) = Some old ->
  get_int old "in_features" = Ok n ->
  replace_linear m name = Ok (set_child m name (Linear n 2)) /\
  adapted all_linears (set_child m name (Linear n 2)).
Proof.
  intros Hm Hnd Hfam Hhead Hold Hn. split.
  - unfold replace_linear, get_child. rewrite Hold. simpl. by rewrite Hn.
  - exists [name], [name], (Linear n 2).
    assert (final_linear_path (set_child m name (Linear n 2)) = Some [name])
      as Hfp.
    { unfold final_linear_path. by rewrite cls_set_child, Hfam, Hhead. }
    split; [|split; [done|]].
    { unfold new_head_path. rewrite cls_set_child, Hhead.
      by destruct all_linears. }
    split; [simpl; by rewrite get_child_set_child|].
    split; [done|]. split; [done|]. split.
    + eexists _, _. split; apply named_parameters_set_child_new;
        rewrite Linear_parameters; [left | right; left].
    + apply flags_after_attach; [done..|]. apply Linear_trainable.
Qed.

(** [model.classifier[-1] = Linear(model.classifier[-1].in_features, 2)] *)
Lemma replace_last_linear_adapts m ca (k : string) old (n : Z) :
  frozen m -> NoDup (map fst (children m)) ->
  sequential_family (cls m) = true ->
  assoc_get "classifier" (children m) = Some ca ->
  cls ca = "Sequential" -> NoDup (map fst (children ca)) ->
  last (children ca) = Some (k, old) ->
  get_int old "in_features" = Ok n ->
  replace_last_linear m
  = Ok (set_child m "classifier" (set_child ca k (Linear n 2))) /\
  adapted false (set_child m "classifier" (set_child ca k (Linear n 2))).
Proof.
  intros Hm Hnd Hfam Hca Hseq Hnda Hlast Hn.
  assert (head_attr (cls m) = ["classifier"]) as Hhead.
  { unfold head_attr. by rewrite Hfam. }
  split.
  - unfold replace_last_linear, get_child, get_last, set_last.
    rewrite Hca. simpl. rewrite Hseq. simpl. rewrite Hlast. simpl.
    by rewrite Hn.
  - exists ["classifier"; k], ["classifier"; k], (Linear n 2).
    assert (final_linear_path
              (set_child m "classifier" (set_child ca k (Linear n 2)))
            = Some ["classifier"; k]) as Hfp.
    { unfold final_linear_path. rewrite cls_set_child, Hfam, Hhead. simpl.
      rewrite get_child_set_child, children_set_child.
      by rewrite (assoc_set_last k old (Linear n 2)). }
    split; [done|]. split; [done|].
    split; [simpl; by rewrite get_child_set_child, get_child_set_child|].
    split; [done|]. split; [done|]. split.
    + eexists _, _.
      split; do 2 apply named_parameters_set_child_new;
        rewrite Linear_parameters; [left | right; left].
    + apply flags_after_attach_inner; [done..|]. apply Linear_trainable.
Qed.

(** [model.heads.head = Linear(model.heads.head.in_features, 2)] *)
Lemma replace_heads_head_adapts (all_linears : bool) m heads old (n : Z) :
  frozen m -> NoDup (map fst (children m)) ->
  sequential_family (cls m) = false -> head_attr (cls m) = ["heads"; "head"] ->
  assoc_get "heads" (children m) = Some heads ->
  NoDup (map fst (children heads)) ->
  assoc_get "head" (children heads) = Some old ->
  get_int old "in_features" = Ok n ->
  (heads ← get_child m "heads";
   heads' ← replace_linear heads "head";
   Ok (set_child m "heads" heads'))
  = Ok (set_child m "heads" (set_child heads "head" (Linear n 2))) /\
  adapted all_linears (set_child m "heads" (set_child heads "head" (Linear n 2))).
Proof.
  intros Hm Hnd Hfam Hhead Hheads Hndh Hold Hn. split.
  - unfold replace_linear, get_child. rewrite Hheads. simpl.
    rewrite Hold. simpl. by rewrite Hn.
  - exists ["heads"; "head"], ["heads"; "head"], (Linear n 2).
    assert (final_linear_path
              (set_child m "heads" (set_child heads "head" (Linear n 2)))
            = Some ["heads"; "head"]) as Hfp.
    { unfold final_linear_path. by rewrite cls_set_child, Hfam, Hhead. }
    split; [|split; [done|]].
    { unfold new_head_path. rewrite cls_set_child, Hhead.
      by destruct all_linears. }
    split; [simpl; by rewrite get_child_set_child, get_child_set_child|].
    split; [done|]. split; [done|]. split.
    + eexists _, _.
      split; do 2 apply named_parameters_set_child_new;
        rewrite Linear_parameters; [left | right; left].
    + apply flags_after_attach_inner; [done..|]. apply Linear_trainable.
Qed.

(** [model.classifier = nn.Sequential(...)], the whole head rebuilt. *)
Lemma rebuild_classifier_adapts m c :
  frozen m -> NoDup (map fst (children m)) ->
  sequential_family (cls m) = true ->
  (forall path p, (path, p) ∈ named_parameters c -> requires_grad p = true) ->
  last (children c) = Some ("6", Linear 4096 2) ->
  assoc_get "6" (children c) = Some (Linear 4096 2) ->
  adapted true (set_child m "classifier" c).
Proof.
  intros Hm Hnd Hfam Hc Hlast Hget.
  assert (head_attr (cls m) = ["classifier"]) as Hhead.
  { unfold head_attr. by rewrite Hfam. }
  exists ["classifier"], ["classifier"; "6"], (Linear 4096 2).
  split; [unfold new_head_path; by rewrite cls_set_child, Hhead|].
  split.
  { unfold final_linear_path. rewrite cls_set_child, Hfam, Hhead. simpl.
    by rewrite get_child_set_child, Hlast. }
  split; [simpl; by rewrite get_child_set_child, Hget|].
  split; [done|]. split; [done|]. split.
  - assert (("6", Linear 4096 2) ∈ children c) as Hin
      by by apply assoc_get_elem.
    eexists _, _. split; apply named_parameters_set_child_new.
    + apply elem_of_named_parameters. right.
      exists "6", (Linear 4096 2), ["weight"]. rewrite Linear_parameters.
      split; [done|]. split; [done | left].
    + apply elem_of_named_parameters. right.
      exists "6", (Linear 4096 2), ["bias"]. rewrite Linear_parameters.
      split; [done|]. split; [done | right; left].
  - by apply flags_after_attach.
Qed.

(** *** get_model on a network whose head is where its family has it *)

Lemma get_model_adapts (name device : string) (ctor : bool -> Module Tensor)
    (all_linears : bool) :
  (name, ctor) ∈ model_list ->
  head_replaceable (ctor true) = true ->
  exists m, get_model name device all_linears = Ok m /\ adapted all_linears m.
Proof.
  intros Hin Hhr. unfold get_model. rewrite (model_dir_lookup _ _ Hin).
  cbv zeta. rewrite <- head_replaceable_freeze in Hhr.
  assert (frozen (freeze (ctor true))) as Hm
    by (intros path p; apply freeze_frozen).
  set (m := freeze (ctor true)) in *. clearbody m.
  unfold head_replaceable in Hhr. apply andb_prop in Hhr as [Hdn Hhr].
  pose proof (distinct_names_children m Hdn) as Hnd.
  destruct (get_path m (head_attr (cls m))) as [h|] eqn:Hh; [|done].
  destruct (sequential_family (cls m)) eqn:Hfam.
  - (* AlexNet and VGG *)
    assert (head_attr (cls m) = ["classifier"]) as Hhead.
    { unfold head_attr. by rewrite Hfam. }
    rewrite Hhead in Hh. simpl in Hh.
    destruct (assoc_get "classifier" (children m)) as [ca|] eqn:Hca; [|done].
    injection Hh as ->.
    apply andb_prop in Hhr as [Hseq Hhr]. apply String.eqb_eq in Hseq.
    destruct (last (children h)) as [[k old]|] eqn:Hlast; [|done].
    apply has_in_features_get_int in Hhr as [n Hn].
    assert (NoDup (map fst (children h))) as Hndh.
    { apply distinct_names_children.
      eapply distinct_names_child; [exact Hdn | by apply assoc_get_elem]. }
    unfold sequential_family in Hfam.
    destruct all_linears.
    + destruct (String.eqb (cls m) "AlexNet") eqn:EA.
      * eexists. split; [reflexivity|].
        apply rebuild_classifier_adapts;
          [exact Hm | exact Hnd | unfold sequential_family; by rewrite EA
          | apply alexnet_classifier_trainable
          | apply alexnet_classifier_last | apply alexnet_classifier_get].
      * simpl in Hfam. rewrite Hfam.
        eexists. split; [reflexivity|].
        apply rebuild_classifier_adapts;
          [exact Hm | exact Hnd
          | unfold sequential_family; by rewrite EA, Hfam
          | apply vgg_classifier_trainable
          | apply vgg_classifier_last | apply vgg_classifier_get].
    + assert (sequential_family (cls m) = true) as Hfam'
        by exact Hfam.
      destruct (replace_last_linear_adapts m h k old n) as [Hrun Had];
        try done.
      destruct (String.eqb (cls m) "AlexNet") eqn:EA.
      * eexists. split; [exact Hrun | exact Had].
      * simpl in Hfam. rewrite Hfam.
        eexists. split; [exact Hrun | exact Had].
  - (* the families with one linear layer as head *)
    apply has_in_features_get_int in Hhr as [n Hn].
    unfold head_attr in Hh. rewrite Hfam in Hh.
    pose proof Hfam as Hfam'. unfold sequential_family in Hfam'.
    apply orb_false_elim in Hfam' as [EA EV]. rewrite EA, EV.
    assert (forall name' old,
               head_attr (cls m) = [name'] ->
               assoc_get name' (children m) = Some old ->
               get_int old "in_features" = Ok n ->
               exists m', replace_linear m name' = Ok m' /\
                          adapted all_linears m') as Hone.
    { intros name' old Hhead Hold Hold_n.
      destruct (replace_linear_adapts all_linears m name' old n)
        as [Hrun Had]; try done.
      eexists. split; [exact Hrun | exact Had]. }
    destruct (String.eqb (cls m) "DenseNet") eqn:ED.
    { simpl in Hh.
      destruct (assoc_get "classifier" (children m)) as [old|] eqn:Hold;
        [|done].
      injection Hh as ->.
      assert (exists m', replace_linear m "classifier" = Ok m' /\
                         adapted all_linears m') as Hres.
      { apply (Hone "classifier" h); [|done..].
        unfold head_attr. by rewrite Hfam, ED. }
      by destruct all_linears. }
    destruct (String.eqb (cls m) "VisionTransformer") eqn:EVT.
    { simpl in Hh.
      destruct (assoc_get "heads" (children m)) as [heads|] eqn:Hheads;
        [|done].
      destruct (assoc_get "head" (children heads)) as [old|] eqn:Hold;
        [|done].
      injection Hh as ->.
      assert (NoDup (map fst (children heads))) as Hndh.
      { apply distinct_names_children.
        eapply distinct_names_child; [exact Hdn | by apply assoc_get_elem]. }
      destruct (replace_heads_head_adapts all_linears m heads h n)
        as [Hrun Had]; try done.
      { unfold head_attr. by rewrite Hfam, ED, EVT. }
      destruct all_linears; (eexists; split; [exact Hrun | exact Had]). }
    destruct (String.eqb (cls m) "SwinTransformer") eqn:ES.
    { simpl in Hh.
      destruct (assoc_get "head" (children m)) as [old|] eqn:Hold; [|done].
      injection Hh as ->.
      assert (exists m', replace_linear m "head" = Ok m' /\
                         adapted all_linears m') as Hres.
      { apply (Hone "head" h); [|done..].
        unfold head_attr. by rewrite Hfam, ED, EVT, ES. }
      by destruct all_linears. }
    simpl in Hh.
    destruct (assoc_get "fc" (children m)) as [old|] eqn:Hold; [|done].
    injection Hh as ->.
    assert (exists m', replace_linear m "fc" = Ok m' /\
                       adapted all_linears m') as Hres.
    { apply (Hone "fc" h); [|done..].
      unfold head_attr. by rewrite Hfam, ED, EVT, ES. }
    by destruct all_linears.
Qed.

(** C1. For each of the eight supported names and both values of
    [all_linears], [get_model] returns a model whose last linear layer
    (the head, or the last entry of a sequential head) has two outputs,
    and in which a parameter is trainable exactly when it belongs to the
    newly attached module: everything else is frozen.  The zoo is
    expected to provide, for each name, a network with the head of its
    family. *)
Theorem get_model_head_and_frozen_backbone (model_name device : string)
    (all_linears : bool) :
  zoo_ok = true ->
  model_name ∈ supported_names ->
  exists m hp fp l,
    get_model model_name device all_linears = Ok m /\
    new_head_path all_linears m = Some hp /\
    final_linear_path m = Some fp /\
    get_path m fp = Some l /\
    cls l = "Linear" /\
    get_int l "out_features" = Ok 2 /\
    (exists w b, (fp ++ ["weight"], w) ∈ named_parameters m /\
                 (fp ++ ["bias"], b) ∈ named_parameters m) /\
    forall path p,
      (path, p) ∈ named_parameters m ->
      requires_grad p = bool_decide (hp `prefix_of` path).
Proof.
  intros Hzoo Hname.
  assert (exists ctor, (model_name, ctor) ∈ model_list) as [ctor Hin].
  { change supported_names with (map fst model_list) in Hname.
    apply list_elem_of_fmap in Hname as ([n ctor] & -> & Hin). by exists ctor. }
  unfold zoo_ok in Hzoo. rewrite forallb_forall in Hzoo.
  pose proof (Hzoo (model_name, ctor) (proj1 (list_elem_of_In _ _) Hin))
    as Hhr.
  destruct (get_model_adapts model_name device ctor all_linears Hin Hhr)
    as (m & Hget & hp & fp & l & Hrest).
  by exists m, hp, fp, l.
Qed.

End GetModelFacts.

(** [ResNet-50] is not in the dictionary. *)
Lemma get_model_unknown_name_witness :
  get_model (FW := Toy.framework) "ResNet-50" "cpu" true
  = Raise (KeyError "ResNet-50").
Proof.
  apply (get_model_unknown_name (FW := Toy.framework)).
  apply (bool_decide_unpack _). vm_compute. exact I.
Defined.

(** AlexNet of the small zoo, last linear layer replaced. *)
Lemma get_model_head_and_frozen_backbone_witness :
  exists m hp fp l,
    get_model (FW := Toy.framework) "AlexNet" "cpu" false = Ok m /\
    new_head_path false m = Some hp /\
    final_linear_path m = Some fp /\
    get_path m fp = Some l /\
    cls l = "Linear" /\
    get_int l "out_features" = Ok 2 /\
    (exists w b, (fp ++ ["weight"], w) ∈ named_parameters m /\
                 (fp ++ ["bias"], b) ∈ named_parameters m) /\
    forall path p,
      (path, p) ∈ named_parameters m ->
      requires_grad p = bool_decide (hp `prefix_of` path).
Proof.
  apply (get_model_head_and_frozen_backbone (FW := Toy.framework)).
  - vm_compute. reflexivity.
  - apply (bool_decide_unpack _). vm_compute. exact I.
Defined.

(** ** Passes that only evaluate *)

Section TrainingFlag.
Context {Tensor : Type}.
Implicit Types (m : Module Tensor).

Lemma named_parameters_set_training (flag : bool) m :
  named_parameters (set_training flag m) = named_parameters m.
Proof.
  induction m as [k a ps b ch IH] using Module_ind'. simpl. f_equal.
  induction IH as [|[n c] ch Hc _ IHch]; simpl; [done|].
  simpl in Hc. by rewrite Hc, IHch.
Qed.

Lemma named_parameters_enable_dropout m :
  named_parameters (enable_dropout m) = named_parameters m.
Proof.
  induction m as [k a ps b ch IH] using Module_ind'. simpl.
  destruct (PyStr.contains "Dropout" k).
  - apply (named_parameters_set_training true (Mod k a ps b ch)).
  - simpl. f_equal.
    induction IH as [|[n c] ch Hc _ IHch]; simpl; [done|].
    simpl in Hc. by rewrite Hc, IHch.
Qed.

End TrainingFlag.

Section EvaluationFacts.
Context `{FW : Framework}.

Lemma evaluates_only_preorder : PreOrder evaluates_only.
Proof.
  split.
  - intros w. repeat split; try done. exists []. by rewrite app_nil_r.
  - intros w1 w2 w3 (Hp1 & Ho1 & Hs1 & Hf1 & Hg1 & evs1 & He1 & Hall1)
                    (Hp2 & Ho2 & Hs2 & Hf2 & Hg2 & evs2 & He2 & Hall2).
    repeat split; try congruence.
    exists (evs1 ++ evs2). split.
    + by rewrite He2, He1, app_assoc.
    + apply Forall_app. split; [done|]. by rewrite <- Hg1.
Qed.
#[local] Existing Instance evaluates_only_preorder.

Lemma keeps_parameters_preorder : PreOrder keeps_parameters.
Proof.
  split; [by intros w|]. intros w1 w2 w3. unfold keeps_parameters. congruence.
Qed.
#[local] Existing Instance keeps_parameters_preorder.

Lemma evaluates_only_keeps (w w' : World) :
  evaluates_only w w' -> keeps_parameters w w'.
Proof. by intros [H _]. Qed.

Lemma call_model_evaluates (inputs : Tensor) :
  preserves evaluates_only (call_model inputs).
Proof.
  intros w. unfold call_model.
  pose proof (forward_parameters (w_model w) inputs) as Hfwd.
  destruct (forward (w_model w) inputs) as [outputs m']. simpl in *.
  repeat split; try done. exists [EvForward (w_grad_enabled w)].
  split; [done|]. by constructor.
Qed.

Lemma eval_step_evaluates (loss_fun : Tensor -> Tensor -> Tensor)
    (batch : Tensor * Tensor) (r : Running) :
  preserves evaluates_only (eval_step loss_fun batch r).
Proof.
  destruct batch as [inputs labels]. unfold eval_step.
  apply preserves_bind; [apply _ | apply call_model_evaluates |].
  intros outputs. apply preserves_ret; apply _.
Qed.

Lemma test_step_evaluates (loss_fun : Tensor -> Tensor -> Tensor)
    (batch : Tensor * Tensor) (s : Running * (list Z * list Z)) :
  preserves evaluates_only (test_step loss_fun batch s).
Proof.
  destruct batch as [inputs labels]. destruct s as [r [preds labs]].
  unfold test_step.
  apply preserves_bind; [apply _ | apply call_model_evaluates |].
  intros outputs. apply preserves_ret; apply _.
Qed.

Lemma model_eval_evaluates : preserves evaluates_only model_eval.
Proof.
  intros w. simpl. repeat split; try done.
  - apply named_parameters_set_training.
  - exists []. by rewrite app_nil_r.
Qed.

(** An evaluating body under [torch.no_grad()]: every forward pass runs
    with gradients off, and the mode is back afterwards. *)
Lemma no_grad_evaluates {A : Type} (body : M A) (w : World) :
  preserves evaluates_only body ->
  named_parameters (w_model (fst (no_grad body w)))
  = named_parameters (w_model w) /\
  w_optimizer (fst (no_grad body w)) = w_optimizer w /\
  w_scheduler (fst (no_grad body w)) = w_scheduler w /\
  w_fs (fst (no_grad body w)) = w_fs w /\
  w_grad_enabled (fst (no_grad body w)) = w_grad_enabled w /\
  exists evs, w_events (fst (no_grad body w)) = w_events w ++ evs /\
              Forall (fun e => e = EvForward false) evs.
Proof.
  intros Hbody. unfold no_grad.
  specialize (Hbody (with_grad_enabled false w)).
  destruct (body (with_grad_enabled false w)) as [w' r]. simpl in *.
  destruct Hbody as (Hp & Ho & Hs & Hf & Hg & evs & He & Hall).
  repeat split; try done. by exists evs.
Qed.

(** C7. The validation pass of an epoch leaves the parameters of the
    model (values, flags and gradients), the optimizer and the scheduler
    as they were, and restores the gradient mode.  All it asks of the
    framework is forward passes, each with gradients off: no backward
    pass, no optimizer step, no scheduler step. *)
Theorem validation_pass_frame (val_loader : option DataLoader)
    (loss_fun : Tensor -> Tensor -> Tensor) (l : Locals) (w : World) :
  named_parameters (w_model (fst (validation_pass val_loader loss_fun l w)))
  = named_parameters (w_model w) /\
  w_optimizer (fst (validation_pass val_loader loss_fun l w)) = w_optimizer w /\
  w_scheduler (fst (validation_pass val_loader loss_fun l w)) = w_scheduler w /\
  w_grad_enabled (fst (validation_pass val_loader loss_fun l w))
  = w_grad_enabled w /\
  exists evs,
    w_events (fst (validation_pass val_loader loss_fun l w))
    = w_events w ++ evs /\
    Forall (fun e => e = EvForward false) evs.
Proof.
  unfold validation_pass. rewrite bind_run. simpl.
  set (w0 := with_model (set_training false (w_model w)) w).
  set (body := iterate val_loader ≫= _).
  assert (preserves evaluates_only body) as Hbody.
  { apply preserves_bind; [apply _ | apply preserves_iterate; apply _ |].
    intros bs. apply preserves_for_each; [apply _|].
    intros a s. apply eval_step_evaluates. }
  destruct (no_grad_evaluates body w0 Hbody)
    as (Hp & Ho & Hs & Hf & Hg & evs & He & Hall).
  rewrite bind_run.
  destruct (no_grad body w0) as [w' [r|e]]; simpl in *.
  - rewrite Hp. unfold w0. simpl.
    split; [apply named_parameters_set_training|].
    repeat split; try done. by exists evs.
  - rewrite Hp. unfold w0. simpl.
    split; [apply named_parameters_set_training|].
    repeat split; try done. by exists evs.
Qed.

End EvaluationFacts.
#[local] Existing Instance keeps_parameters_preorder.
#[local] Existing Instance evaluates_only_preorder.

(** ** train without epochs *)

Section NoEpochs.
Context `{FW : Framework}.

Lemma only_new_dirs_preorder : PreOrder only_new_dirs.
Proof.
  split.
  - intros w path. by left.
  - intros w1 w2 w3 H12 H23 path.
    destruct (H12 path) as [E12|[N1 D2]], (H23 path) as [E23|[N2 D3]].
    + left. congruence.
    + right. split; congruence.
    + right. split; congruence.
    + congruence.
Qed.
#[local] Existing Instance only_new_dirs_preorder.

Lemma prepare_model_run (w : World) :
  exists w0, prepare_model w = (w0, Ok tt) /\
             w_fs w0 = w_fs w /\ w_optimizer w0 = w_optimizer w /\
             w_scheduler w0 = w_scheduler w /\ w_events w0 = w_events w /\
             w_grad_enabled w0 = w_grad_enabled w.
Proof.
  unfold prepare_model. rewrite bind_run. simpl.
  destruct (PyStr.contains "Inception" (cls (w_model w))); by eexists.
Qed.

(** The load step touches the model only. *)
Lemma load_checkpoint_frame (path : string) (w : World) :
  fst (load_checkpoint path w)
  = with_model (w_model (fst (load_checkpoint path w))) w.
Proof.
  unfold load_checkpoint, torch_load. rewrite bind_run.
  destruct (w_fs w !! path) as [[|[ck| |]]|]; simpl; try by destruct w.
  destruct (ck !! "model_state_dict") as [[| | |sd|]|]; simpl;
    try by destruct w.
  rewrite !bind_run. simpl.
  destruct (load_state_dict sd (w_model w)); simpl; by destruct w.
Qed.

Lemma start_from_checkpoint_frame (load_ckpt_path : option string) (w : World) :
  fst (start_from_checkpoint load_ckpt_path w)
  = with_model (w_model (fst (start_from_checkpoint load_ckpt_path w))) w.
Proof.
  destruct load_ckpt_path as [path|]; simpl.
  - apply load_checkpoint_frame.
  - by destruct w.
Qed.

Lemma range_nonpositive (n : Z) : n <= 0 -> range n = [].
Proof. intros Hn. unfold range. by replace (Z.to_nat n) with 0%nat by lia. Qed.

Lemma run_epochs_none (train_loader val_loader : option DataLoader)
    (loss_fun : Tensor -> Tensor -> Tensor) (num_epochs num_classes : Z)
    (logger run : option string) (w : World) :
  num_epochs <= 0 ->
  run_epochs train_loader val_loader loss_fun num_epochs num_classes logger run w
  = (w, Ok (mkLocals None None None None None None
                     (MulticlassAUROC num_classes) MulticlassAccuracy)).
Proof. intros Hn. unfold run_epochs. by rewrite range_nonpositive. Qed.

Lemma save_checkpoint_unbound (num_epochs : Z) (l : Locals) (path : string)
    (w : World) :
  l_train_loss l = None ->
  save_checkpoint num_epochs l path w = (w, Raise (UnboundLocalError "train_loss")).
Proof. intros Hl. unfold save_checkpoint. rewrite !bind_run. simpl. by rewrite Hl. Qed.

Lemma ensure_dir_new_dirs (path : string) : preserves only_new_dirs (ensure_dir path).
Proof.
  intros w p. simpl. destruct (exists_ (w_fs w) path) eqn:E; [by left|].
  simpl. unfold makedirs. destruct (decide (p = path)) as [->|Hne].
  - right. rewrite lookup_insert_eq. split; [|done].
    apply exists_false in E. by apply not_elem_of_dom.
  - left. by rewrite lookup_insert_ne.
Qed.

Lemma run_uniquify_run (path : string) (w : World) :
  exists r, run_uniquify path w = (w, Ok r).
Proof.
  destruct (uniquify_total (w_fs w) path) as [r Hr]. exists r.
  by apply run_uniquify_some.
Qed.

Lemma resolve_save_path_new_dirs (save_ckpt_path : option string)
    (num_epochs : Z) (augment : bool) :
  preserves only_new_dirs (resolve_save_path save_ckpt_path num_epochs augment).
Proof.
  destruct save_ckpt_path as [path|]; simpl; [apply preserves_ret; apply _|].
  apply preserves_bind; [apply _ | apply preserves_gets; apply _ |]. intros m.
  apply preserves_bind; [apply _ | apply preserves_gets; apply _ |]. intros o.
  apply preserves_bind; [apply _ | apply preserves_lift; apply _ |].
  intros folder.
  apply preserves_bind; [apply _ | |].
  { intros w. destruct (run_uniquify_run folder w) as [r ->]. reflexivity. }
  intros folder'.
  apply preserves_bind; [apply _ | apply ensure_dir_new_dirs |]. intros _.
  apply preserves_bind; [apply _ | apply ensure_dir_new_dirs |]. intros _.
  apply preserves_ret; apply _.
Qed.

Lemma resolve_save_path_returns (save_ckpt_path : option string)
    (num_epochs : Z) (augment : bool) (w : World) :
  (save_ckpt_path = None ->
   is_Some (PyStr.split "." (str_float (opt_lr (w_optimizer w))) !! 1%nat)) ->
  exists w' path, resolve_save_path save_ckpt_path num_epochs augment w
                  = (w', Ok path).
Proof.
  intros Hlr. destruct save_ckpt_path as [path|]; simpl; [by eexists _, _|].
  destruct (Hlr eq_refl) as [digits Hdigits].
  unfold resolve_save_path. do 3 (rewrite bind_run; simpl).
  unfold synthesize_folder, index_. rewrite Hdigits. simpl.
  rewrite bind_run.
  edestruct run_uniquify_run as [folder ->]. simpl. by eexists _, _.
Qed.

(** What [train] does when the loop over epochs has nothing to run. *)
Lemma train_no_epochs (train_loader val_loader : option DataLoader)
    (loss_fun : Tensor -> Tensor -> Tensor) (num_epochs num_classes : Z)
    (device : string) (augment : bool)
    (save_ckpt_path load_ckpt_path : option string)
    (logger run : option string) (w : World) :
  num_epochs <= 0 ->
  (exists e,
      snd (train train_loader val_loader loss_fun num_epochs num_classes device
             augment save_ckpt_path load_ckpt_path logger run w) = Raise e) /\
  only_new_dirs w
    (fst (train train_loader val_loader loss_fun num_epochs num_classes device
            augment save_ckpt_path load_ckpt_path logger run w)) /\
  (snd (start_from_checkpoint load_ckpt_path (fst (prepare_model w))) = Ok tt ->
   (save_ckpt_path = None ->
    is_Some (PyStr.split "." (str_float (opt_lr (w_optimizer w))) !! 1%nat)) ->
   snd (train train_loader val_loader loss_fun num_epochs num_classes device
          augment save_ckpt_path load_ckpt_path logger run w)
   = Raise (UnboundLocalError "train_loss")).
Proof.
  intros Hn. unfold train.
  destruct (prepare_model_run w) as (w0 & Hprep & Hfs0 & Hopt0 & _).
  rewrite (bind_ok _ _ _ _ _ Hprep). rewrite Hprep. simpl.
  pose proof (start_from_checkpoint_frame load_ckpt_path w0) as Hframe.
  rewrite bind_run.
  destruct (start_from_checkpoint load_ckpt_path w0) as [w1 [[]|e]] eqn:Hload;
    simpl in Hframe.
  - rewrite (bind_ok _ _ _ _ _ (run_epochs_none _ _ _ _ _ _ _ w1 Hn)).
    pose proof (resolve_save_path_new_dirs save_ckpt_path num_epochs augment w1)
      as Hdirs.
    assert (only_new_dirs w w1) as Hw1.
    { intros path. left. rewrite Hframe. simpl. by rewrite Hfs0. }
    rewrite bind_run.
    destruct (resolve_save_path save_ckpt_path num_epochs augment w1)
      as [w2 [path|e]] eqn:Hpath; simpl in Hdirs.
    + rewrite save_checkpoint_unbound by done. simpl.
      split; [by eexists|]. split; [by etrans|]. done.
    + simpl. split; [by eexists|]. split; [by etrans|].
      intros _ Hlr.
      destruct (resolve_save_path_returns save_ckpt_path num_epochs augment w1)
        as (w' & path & Hret).
      { rewrite Hframe. simpl. by rewrite Hopt0. }
      congruence.
  - simpl. split; [by eexists|]. split; [|done].
    intros path. left. rewrite Hframe. simpl. by rewrite Hfs0.
Qed.

(** C10. With [num_epochs = 0] the loop body never runs, so building the
    checkpoint dict reads [train_loss] before any assignment: [train]
    raises, and writes no file (it may have made the directories of a
    synthesized save path).  The exception is the unbound-variable error
    unless loading the checkpoint or synthesizing the path has raised
    before.  Hence a call that returns has [num_epochs >= 1]. *)
Theorem train_zero_epochs_unbound (train_loader val_loader : option DataLoader)
    (loss_fun : Tensor -> Tensor -> Tensor) (num_classes : Z)
    (device : string) (augment : bool)
    (save_ckpt_path load_ckpt_path : option string)
    (logger run : option string) (w : World) :
  (exists e,
      snd (train train_loader val_loader loss_fun 0 num_classes device
             augment save_ckpt_path load_ckpt_path logger run w) = Raise e) /\
  (forall path,
      w_fs (fst (train train_loader val_loader loss_fun 0 num_classes device
                   augment save_ckpt_path load_ckpt_path logger run w)) !! path
      = w_fs w !! path \/
      (w_fs w !! path = None /\
       w_fs (fst (train train_loader val_loader loss_fun 0 num_classes device
                    augment save_ckpt_path load_ckpt_path logger run w)) !! path
       = Some Dir)) /\
  (snd (start_from_checkpoint load_ckpt_path (fst (prepare_model w))) = Ok tt ->
   (save_ckpt_path = None ->
    is_Some (PyStr.split "." (str_float (opt_lr (w_optimizer w))) !! 1%nat)) ->
   snd (train train_loader val_loader loss_fun 0 num_classes device
          augment save_ckpt_path load_ckpt_path logger run w)
   = Raise (UnboundLocalError "train_loss")) /\
  (forall num_epochs metrics,
      snd (train train_loader val_loader loss_fun num_epochs num_classes device
             augment save_ckpt_path load_ckpt_path logger run w) = Ok metrics ->
      1 <= num_epochs).
Proof.
  destruct (train_no_epochs train_loader val_loader loss_fun 0 num_classes
              device augment save_ckpt_path load_ckpt_path logger run w)
    as (Hraise & Hdirs & Hunbound); [lia|].
  split; [done|]. split; [exact Hdirs|]. split; [done|].
  intros num_epochs metrics Hok.
  destruct (decide (1 <= num_epochs)) as [|Hn]; [done|]. exfalso.
  destruct (train_no_epochs train_loader val_loader loss_fun num_epochs
              num_classes device augment save_ckpt_path load_ckpt_path
              logger run w) as ([e He] & _); [lia|].
  congruence.
Qed.

End NoEpochs.
#[local] Existing Instance only_new_dirs_preorder.

(** ** State dicts *)

Section StateDictFacts.
Context {Tensor : Type}.
Implicit Types (m : Module Tensor).

Lemma named_tensors_assign (f : list string -> Tensor -> Tensor) m :
  named_tensors (assign f m)
  = map (fun pt => (fst pt, f (fst pt) (snd pt))) (named_tensors m).
Proof.
  revert f. induction m as [k a ps b ch IH] using Module_ind'. intros f.
  simpl. rewrite !map_app, !map_map. do 2 f_equal.
  induction IH as [|[n c] ch Hc _ IHch]; simpl; [done|].
  rewrite map_app, IHch. f_equal. simpl in Hc. rewrite Hc, !map_map. done.
Qed.

Lemma named_parameters_assign (f : list string -> Tensor -> Tensor) m :
  named_parameters (assign f m)
  = map (fun pp => (fst pp,
                    mkParam (f (fst pp) (data (snd pp)))
                            (requires_grad (snd pp)) (grad (snd pp))))
        (named_parameters m).
Proof.
  revert f. induction m as [k a ps b ch IH] using Module_ind'. intros f.
  simpl. rewrite !map_app, !map_map. f_equal.
  induction IH as [|[n c] ch Hc _ IHch]; simpl; [done|].
  rewrite map_app, IHch. f_equal. simpl in Hc. rewrite Hc, !map_map. done.
Qed.

Lemma param_values_assign (f : list string -> Tensor -> Tensor) m :
  param_values (assign f m)
  = map (fun pv => (fst pv, f (fst pv) (snd pv))) (param_values m).
Proof.
  unfold param_values. by rewrite named_parameters_assign, !map_map.
Qed.

(** The parameters are among the entries of the state dict. *)
Lemma param_values_named_tensors m (path : list string) (t : Tensor) :
  (path, t) ∈ param_values m -> (path, t) ∈ named_tensors m.
Proof.
  revert path. induction m as [k a ps b ch IH] using Module_ind'.
  intros path. unfold param_values. simpl.
  rewrite map_app, !elem_of_app, !map_map. simpl. intros [Hin|Hin].
  - left. exact Hin.
  - right. right.
    apply list_elem_of_fmap in Hin as ([path' p] & [= -> ->] & Hin).
    apply list_elem_of_In, in_flat_map in Hin as ([n c] & Hc & Hin).
    apply list_elem_of_In in Hin.
    apply list_elem_of_fmap in Hin as ([rest q] & [= -> ->] & Hin).
    apply list_elem_of_In, in_flat_map. exists (n, c). split; [done|].
    apply list_elem_of_In, list_elem_of_fmap. exists (rest, data q).
    split; [done|]. rewrite Forall_forall in IH.
    apply (IH (n, c)); [by apply list_elem_of_In|].
    unfold param_values. apply list_elem_of_fmap. by exists (rest, q).
Qed.

Lemma state_dict_lookup m (path : list string) (t : Tensor) :
  distinct_keys m -> (path, t) ∈ named_tensors m ->
  state_dict m !! dotted path = Some t.
Proof.
  intros Hnd Hin. unfold state_dict. apply elem_of_list_to_map_1.
  - by rewrite map_map.
  - apply list_elem_of_fmap. by exists (path, t).
Qed.

Lemma dom_state_dict m :
  dom (state_dict m)
  = list_to_set (map (fun pt => dotted (fst pt)) (named_tensors m)).
Proof.
  unfold state_dict. rewrite dom_list_to_map_L. by rewrite map_map.
Qed.

(** Overwriting the entries of [l2] with what [sd] holds gives [l1] when
    the two lists have the same paths and [sd] holds [l1]. *)
Lemma overwrite_entries (sd : gmap string Tensor)
    (l2 l1 : list (list string * Tensor)) :
  map fst l2 = map fst l1 ->
  (forall pt, pt ∈ l1 -> sd !! dotted (fst pt) = Some (snd pt)) ->
  map (fun pt => (fst pt, default (snd pt) (sd !! dotted (fst pt)))) l2 = l1.
Proof.
  revert l1. induction l2 as [|[p2 t2] l2 IH]; intros [|[p1 t1] l1];
    simpl; intros Hpaths Hsd; try done.
  injection Hpaths as -> Hpaths.
  pose proof (Hsd (p1, t1) ltac:(left)) as Hhead. simpl in Hhead.
  rewrite Hhead. simpl. f_equal.
  apply IH; [done|]. intros pt Hpt. apply Hsd. by right.
Qed.

End StateDictFacts.

(** ** Saving and loading a checkpoint *)

Section RoundTrip.
Context `{FW : Framework}.
Implicit Types (m : Module Tensor).

Lemma shapes_checked (sd : gmap string Tensor)
    (l2 l1 : list (list string * Tensor)) :
  map (fun pt => (fst pt, shape (snd pt))) l2
  = map (fun pt => (fst pt, shape (snd pt))) l1 ->
  (forall pt, pt ∈ l1 -> sd !! dotted (fst pt) = Some (snd pt)) ->
  forallb (fun pt => match sd !! dotted (fst pt) with
                     | Some t => bool_decide (shape t = shape (snd pt))
                     | None => false
                     end) l2 = true.
Proof.
  revert l1. induction l2 as [|[p2 t2] l2 IH]; intros [|[p1 t1] l1];
    simpl; intros Hlayout Hsd; try done.
  injection Hlayout as -> Hshape Hlayout.
  pose proof (Hsd (p1, t1) ltac:(left)) as Hhead. simpl in Hhead.
  rewrite Hhead. rewrite bool_decide_eq_true_2 by done. simpl.
  apply (IH l1); [done|]. intros pt Hpt. apply Hsd. by right.
Qed.

Lemma layout_paths (l2 l1 : list (list string * Tensor)) :
  map (fun pt => (fst pt, shape (snd pt))) l2
  = map (fun pt => (fst pt, shape (snd pt))) l1 ->
  map fst l2 = map fst l1.
Proof.
  intros H. apply (f_equal (map fst)) in H. by rewrite !map_map in H.
Qed.

(** Loading the state dict of [m1] into a model of the same architecture
    succeeds and gives that model the tensors of [m1]. *)
Lemma load_state_dict_round_trip m1 m2 :
  same_architecture m2 m1 -> distinct_keys m1 ->
  exists m2', load_state_dict (state_dict m1) m2 = Ok m2' /\
              named_tensors m2' = named_tensors m1 /\
              param_values m2' = param_values m1.
Proof.
  intros Harch Hkeys. unfold same_architecture, layout in Harch.
  injection Harch as Hparams Htensors.
  pose proof (layout_paths _ _ Htensors) as Hpaths.
  assert (forall pt, pt ∈ named_tensors m1 ->
                     state_dict m1 !! dotted (fst pt) = Some (snd pt)) as Hsd.
  { intros [path t] Hin. by apply state_dict_lookup. }
  eexists. split; [|split].
  - unfold load_state_dict.
    rewrite (shapes_checked _ _ (named_tensors m1)) by done.
    rewrite bool_decide_eq_true_2; [reflexivity|].
    rewrite !dom_state_dict.
    replace (map (fun pt => dotted (fst pt)) (named_tensors m2))
      with (map (fun pt => dotted (fst pt)) (named_tensors m1)); [done|].
    rewrite <- (map_map fst dotted (named_tensors m1)),
      <- (map_map fst dotted (named_tensors m2)). by rewrite Hpaths.
  - rewrite named_tensors_assign. by apply overwrite_entries.
  - rewrite param_values_assign. apply overwrite_entries.
    + by apply layout_paths.
    + intros [path t] Hin. apply Hsd. by apply param_values_named_tensors.
Qed.

(** What [save_checkpoint] has written when it returns. *)
Lemma save_checkpoint_inv (num_epochs : Z) (l : Locals) (path : string)
    (w w' : World) (metrics : EpochMetrics) :
  save_checkpoint num_epochs l path w = (w', Ok metrics) ->
  exists ckpt,
    w' = with_fs (<[path := File (Pickle ckpt)]> (w_fs w)) w /\
    ckpt !! "model_state_dict" = Some (VStateDict (state_dict (w_model w))).
Proof.
  unfold save_checkpoint. do 2 (rewrite bind_run; simpl).
  destruct l as [[tl|] [ta|] [tu|] [vl|] [va|] [vu|] ? ?]; simpl;
    try (intros [= _ _]; done); try done.
  intros [= <- _]. eexists. split; [reflexivity|].
  rewrite lookup_insert_ne by done. by rewrite lookup_insert_eq.
Qed.

Lemma resolve_save_path_given (path : string) (num_epochs : Z)
    (augment : bool) (w : World) :
  resolve_save_path (Some path) num_epochs augment w = (w, Ok path).
Proof. reflexivity. Qed.

(** A returning call of [train] ends with the checkpoint written. *)
Lemma train_inv (train_loader val_loader : option DataLoader)
    (loss_fun : Tensor -> Tensor -> Tensor) (num_epochs num_classes : Z)
    (device : string) (augment : bool)
    (save_ckpt_path load_ckpt_path : option string)
    (logger run : option string) (w w1 : World) (metrics : EpochMetrics) :
  train train_loader val_loader loss_fun num_epochs num_classes device augment
        save_ckpt_path load_ckpt_path logger run w = (w1, Ok metrics) ->
  exists path ckpt,
    (forall given, save_ckpt_path = Some given -> path = given) /\
    w_fs w1 !! path = Some (File (Pickle ckpt)) /\
    ckpt !! "model_state_dict" = Some (VStateDict (state_dict (w_model w1))).
Proof.
  unfold train. intros Hrun.
  apply bind_ok_inv in Hrun as (wa & [] & _ & Hrun).
  apply bind_ok_inv in Hrun as (wb & [] & _ & Hrun).
  apply bind_ok_inv in Hrun as (wc & l & _ & Hrun).
  apply bind_ok_inv in Hrun as (wd & path & Hpath & Hsave).
  apply save_checkpoint_inv in Hsave as (ckpt & -> & Hckpt).
  exists path, ckpt. split; [|split].
  - intros given ->. rewrite resolve_save_path_given in Hpath. congruence.
  - simpl. by rewrite lookup_insert_eq.
  - exact Hckpt.
Qed.

Lemma load_checkpoint_round_trip (path : string)
    (ckpt : gmap string PyVal) m1 (w2 : World) :
  w_fs w2 !! path = Some (File (Pickle ckpt)) ->
  ckpt !! "model_state_dict" = Some (VStateDict (state_dict m1)) ->
  same_architecture (w_model w2) m1 -> distinct_keys m1 ->
  exists w2',
    load_checkpoint path w2 = (w2', Ok tt) /\
    state_dict (w_model w2') = state_dict m1 /\
    param_values (w_model w2') = param_values m1.
Proof.
  intros Hfile Hckpt Harch Hkeys.
  destruct (load_state_dict_round_trip m1 (w_model w2) Harch Hkeys)
    as (m2' & Hload & Htensors & Hvalues).
  exists (with_model m2' w2). split; [|split].
  - unfold load_checkpoint, torch_load. rewrite bind_run, Hfile, Hckpt.
    do 2 (rewrite bind_run; simpl). by rewrite Hload.
  - simpl. unfold state_dict. by rewrite Htensors.
  - exact Hvalues.
Qed.

(** *** The rest of test keeps the parameters *)

Lemma test_pass_keeps (test_loader : option DataLoader)
    (loss_fun : Tensor -> Tensor -> Tensor) (num_classes : Z) (dropout : bool) :
  preserves keeps_parameters (test_pass test_loader loss_fun num_classes dropout).
Proof.
  unfold test_pass.
  apply preserves_bind; [apply _ | |]; [|intros _].
  { intros w. apply evaluates_only_keeps, model_eval_evaluates. }
  apply preserves_bind; [apply _ | |]; [|intros _].
  { destruct dropout; [|apply preserves_ret; apply _].
    intros w. apply named_parameters_enable_dropout. }
  intros w.
  set (body := iterate test_loader ≫= _).
  assert (preserves evaluates_only body) as Hbody.
  { apply preserves_bind; [apply _ | apply preserves_iterate; apply _ |].
    intros bs. apply preserves_for_each; [apply _|].
    intros a s. apply test_step_evaluates. }
  by destruct (no_grad_evaluates body w Hbody) as [Hp _].
Qed.

Lemma to_csv_keeps (content : FileContent) (path : string) :
  preserves keeps_parameters (to_csv content path).
Proof. by intros w. Qed.

Lemma ensure_dir_keeps (path : string) : preserves keeps_parameters (ensure_dir path).
Proof. intros w. simpl. by destruct (exists_ (w_fs w) path). Qed.

Lemma run_uniquify_keeps (path : string) :
  preserves keeps_parameters (run_uniquify path).
Proof. intros w. by destruct (run_uniquify_run path w) as [r ->]. Qed.

Lemma resolve_csv_paths_keeps (load_ckpt_path : option string) :
  preserves keeps_parameters (resolve_csv_paths load_ckpt_path).
Proof.
  destruct load_ckpt_path as [path|]; simpl.
  - apply preserves_bind; [apply _ | apply preserves_lift; apply _ |].
    intros p1.
    apply preserves_bind; [apply _ | apply preserves_lift; apply _ |].
    intros p2. apply preserves_ret; apply _.
  - apply preserves_bind; [apply _ | apply preserves_gets; apply _ |].
    intros m.
    apply preserves_bind; [apply _ | apply run_uniquify_keeps |]. intros p1.
    apply preserves_bind; [apply _ | apply run_uniquify_keeps |]. intros p2.
    apply preserves_bind; [apply _ | apply ensure_dir_keeps |]. intros _.
    apply preserves_bind; [apply _ | apply ensure_dir_keeps |]. intros _.
    apply preserves_ret; apply _.
Qed.

Lemma first_image_size_keeps (test_loader : option DataLoader) :
  preserves keeps_parameters (first_image_size test_loader).
Proof.
  unfold first_image_size.
  apply preserves_bind; [apply _ | apply preserves_iterate; apply _ |].
  intros [|[inputs labels] bs]; [apply preserves_raise | apply preserves_ret];
    apply _.
Qed.

(** The analyzer runs the model; it assigns no parameter. *)
Lemma get_model_complexity_info_keeps (image_size : list Z) :
  preserves keeps_parameters (get_model_complexity_info image_size).
Proof.
  intros w. unfold get_model_complexity_info, keeps_parameters.
  pose proof (forward_parameters (set_training false (w_model w))
                (new_empty (1 :: image_size))) as Hfwd.
  destruct (forward _ _) as [outputs m']. simpl in *.
  rewrite Hfwd. apply named_parameters_set_training.
Qed.

(** Everything [test] does after the load step. *)
Lemma test_after_load_keeps (test_loader : option DataLoader)
    (loss_fun : Tensor -> Tensor -> Tensor) (num_classes : Z)
    (device : string) (dropout : bool) (load_ckpt_path : option string)
    (w w0 : World) :
  start_from_checkpoint load_ckpt_path w = (w0, Ok tt) ->
  keeps_parameters w0
    (fst (test test_loader loss_fun num_classes device dropout load_ckpt_path w)).
Proof.
  intros Hload. unfold test. rewrite (bind_ok _ _ _ _ _ Hload).
  clear Hload. revert w0.
  apply (preserves_bind keeps_parameters); [apply test_pass_keeps |].
  intros [r [preds labs]].
  apply preserves_bind; [apply _ | apply first_image_size_keeps |].
  intros image_size.
  apply preserves_bind; [apply _ | apply get_model_complexity_info_keeps |].
  intros macs.
  apply preserves_bind; [apply _ | apply preserves_gets; apply _ |]. intros m.
  apply preserves_bind; [apply _ | apply resolve_csv_paths_keeps |].
  intros paths.
  apply preserves_bind; [apply _ | apply to_csv_keeps |]. intros _.
  apply preserves_bind; [apply _ | apply to_csv_keeps |]. intros _.
  apply preserves_ret; apply _.
Qed.

(** C3. When [train] returns, the checkpoint it wrote holds the state dict
    of the trained model.  Loading that file into any model of the same
    architecture succeeds and gives it that state dict, parameter for
    parameter, and a [test] run started from that file ends with those
    parameter values. *)
Theorem checkpoint_round_trip (train_loader val_loader : option DataLoader)
    (loss_fun : Tensor -> Tensor -> Tensor) (num_epochs num_classes : Z)
    (device : string) (augment : bool)
    (save_ckpt_path load_ckpt_path : option string)
    (logger run : option string) (w w1 : World) (metrics : EpochMetrics) :
  train train_loader val_loader loss_fun num_epochs num_classes device augment
        save_ckpt_path load_ckpt_path logger run w = (w1, Ok metrics) ->
  distinct_keys (w_model w1) ->
  exists path,
    (forall given, save_ckpt_path = Some given -> path = given) /\
    forall w2,
      w_fs w2 !! path = w_fs w1 !! path ->
      same_architecture (w_model w2) (w_model w1) ->
      (exists w2',
          load_checkpoint path w2 = (w2', Ok tt) /\
          state_dict (w_model w2') = state_dict (w_model w1) /\
          param_values (w_model w2') = param_values (w_model w1)) /\
      (forall test_loader loss_fun' num_classes' device' dropout,
          param_values
            (w_model (fst (test test_loader loss_fun' num_classes' device'
                             dropout (Some path) w2)))
          = param_values (w_model w1)).
Proof.
  intros Htrain Hkeys.
  apply train_inv in Htrain as (path & ckpt & Hgiven & Hfile & Hckpt).
  exists path. split; [exact Hgiven|]. intros w2 Hfs Harch.
  rewrite Hfile in Hfs.
  destruct (load_checkpoint_round_trip path ckpt (w_model w1) w2 Hfs Hckpt
              Harch Hkeys) as (w2' & Hload & Hsd & Hvalues).
  split; [by exists w2'|].
  intros test_loader loss_fun' num_classes' device' dropout.
  pose proof (test_after_load_keeps test_loader loss_fun' num_classes' device'
                dropout (Some path) w2 w2' Hload) as Hkeep.
  unfold keeps_parameters in Hkeep. unfold param_values at 1.
  rewrite Hkeep. exact Hvalues.
Qed.

End RoundTrip.

(** ** The architecture of a model *)

Section ArchitectureFacts.
Context `{FW : Framework}.
Implicit Types (m : Module Tensor).

Lemma assoc_del_set {V : Type} (k : string) (v : V) (l : list (string * V)) :
  assoc_del k (assoc_set k v l) = assoc_del k l.
Proof.
  unfold assoc_del.
  assert (forall x : V, ~ negb (String.eqb (fst (k, x)) k)) as Hk.
  { intros x. simpl. rewrite String.eqb_refl. simpl. exact id. }
  induction l as [|[k' v'] l IH]; simpl.
  - by rewrite filter_cons_False by apply Hk.
  - destruct (String.eqb k' k) eqn:E.
    + rewrite filter_cons_False by apply Hk.
      rewrite filter_cons_False; [done|]. simpl. rewrite E. simpl. exact id.
    + rewrite !filter_cons_True by (simpl; rewrite E; exact I). by rewrite IH.
Qed.

(** The mode is not part of the architecture. *)
Lemma architecture_set_training (flag : bool) m :
  architecture shape (set_training flag m) = architecture shape m.
Proof.
  induction m as [k a ps b ch IH] using Module_ind'. simpl.
  rewrite assoc_del_set. f_equal. rewrite map_map. simpl.
  induction IH as [|[n c] ch Hc _ IHch]; simpl; [done|].
  simpl in Hc. by rewrite Hc, IHch.
Qed.

Lemma architecture_enable_dropout m :
  architecture shape (enable_dropout m) = architecture shape m.
Proof.
  induction m as [k a ps b ch IH] using Module_ind'. simpl.
  destruct (PyStr.contains "Dropout" k).
  - apply (architecture_set_training true (Mod k a ps b ch)).
  - simpl. f_equal. rewrite map_map. simpl.
    induction IH as [|[n c] ch Hc _ IHch]; simpl; [done|].
    simpl in Hc. by rewrite Hc, IHch.
Qed.

(** Assigning tensors of the same shapes keeps the architecture. *)
Lemma architecture_assign m :
  forall f : list string -> Tensor -> Tensor,
    (forall path t, (path, t) ∈ named_tensors m ->
                    shape (f path t) = shape t) ->
    architecture shape (assign f m) = architecture shape m.
Proof.
  induction m as [k a ps b ch IH] using Module_ind'. intros f Hf. simpl.
  f_equal.
  - rewrite map_map. simpl. apply map_ext_in. intros [n p] Hin. simpl.
    do 2 f_equal. apply Hf. simpl. rewrite elem_of_app. left.
    apply list_elem_of_fmap. exists (n, p). split; [done|].
    by apply list_elem_of_In.
  - rewrite map_map. simpl. apply map_ext_in. intros [n t] Hin. simpl.
    f_equal. apply Hf. simpl. rewrite !elem_of_app. right. left.
    apply list_elem_of_fmap. exists (n, t). split; [done|].
    by apply list_elem_of_In.
  - rewrite map_map. simpl.
    assert (forall n c path t,
               (n, c) ∈ ch -> (path, t) ∈ named_tensors c ->
               shape (f (n :: path) t) = shape t) as Hch.
    { intros n c path t Hc Ht. apply Hf. simpl. rewrite !elem_of_app.
      right. right. apply list_elem_of_In, in_flat_map. exists (n, c).
      split; [by apply list_elem_of_In|].
      apply list_elem_of_In, list_elem_of_fmap. by exists (path, t). }
    clear Hf. induction IH as [|[n c] ch Hc _ IHch]; simpl; [done|].
    simpl in Hc. f_equal.
    + f_equal. apply Hc. intros path t Ht. apply (Hch n c); [left | done].
    + apply IHch. intros n' c' path t Hc' Ht.
      apply (Hch n' c'); [by right | done].
Qed.

(** A state dict that loads has the shapes of the model. *)
Lemma load_state_dict_architecture (sd : gmap string Tensor) m m' :
  load_state_dict sd m = Ok m' ->
  architecture shape m' = architecture shape m.
Proof.
  unfold load_state_dict.
  destruct (forallb _ (named_tensors m)) eqn:Hshapes; simpl; [|done].
  destruct (bool_decide _); [|done]. intros [= <-].
  apply architecture_assign. intros path t Hin.
  rewrite forallb_forall in Hshapes.
  specialize (Hshapes (path, t) (proj1 (list_elem_of_In _ _) Hin)).
  simpl in Hshapes.
  destruct (sd !! dotted path) as [t'|]; [|done]. simpl.
  by apply bool_decide_eq_true in Hshapes.
Qed.

Lemma keeps_architecture_preorder : PreOrder keeps_architecture.
Proof.
  split.
  - by intros w.
  - intros w1 w2 w3 H12 H23. unfold keeps_architecture in *. congruence.
Qed.
#[local] Existing Instance keeps_architecture_preorder.

Lemma load_checkpoint_architecture (path : string) :
  preserves keeps_architecture (load_checkpoint path).
Proof.
  intros w. unfold load_checkpoint, torch_load, keeps_architecture.
  rewrite bind_run.
  destruct (w_fs w !! path) as [[|[ck| |]]|]; simpl; try done.
  destruct (ck !! "model_state_dict") as [[| | |sd|]|]; simpl; try done.
  rewrite !bind_run. simpl.
  destruct (load_state_dict sd (w_model w)) as [m'|e] eqn:Hload; simpl;
    [|done].
  by apply load_state_dict_architecture in Hload.
Qed.

Lemma start_from_checkpoint_architecture (load_ckpt_path : option string) :
  preserves keeps_architecture (start_from_checkpoint load_ckpt_path).
Proof.
  destruct load_ckpt_path as [path|]; simpl.
  - apply load_checkpoint_architecture.
  - apply preserves_ret; apply _.
Qed.

Lemma call_model_architecture (inputs : Tensor) :
  preserves keeps_architecture (call_model inputs).
Proof.
  intros w. unfold call_model, keeps_architecture.
  pose proof (forward_architecture (w_model w) inputs) as Hfwd.
  by destruct (forward (w_model w) inputs).
Qed.

Lemma test_pass_architecture (test_loader : option DataLoader)
    (loss_fun : Tensor -> Tensor -> Tensor) (num_classes : Z) (dropout : bool) :
  preserves keeps_architecture
    (test_pass test_loader loss_fun num_classes dropout).
Proof.
  unfold test_pass.
  apply preserves_bind; [apply _ | |]; [|intros _].
  { intros w. apply architecture_set_training. }
  apply preserves_bind; [apply _ | |]; [|intros _].
  { destruct dropout; [|apply preserves_ret; apply _].
    intros w. apply architecture_enable_dropout. }
  intros w. unfold no_grad.
  set (body := iterate test_loader ≫= _).
  assert (preserves keeps_architecture body) as Hbody.
  { apply preserves_bind; [apply _ | apply preserves_iterate; apply _ |].
    intros bs. apply preserves_for_each; [apply _|].
    intros [inputs labels] [r [preds labs]]. unfold test_step.
    apply preserves_bind; [apply _ | apply call_model_architecture |].
    intros outputs. apply preserves_ret; apply _. }
  specialize (Hbody (with_grad_enabled false w)).
  by destruct (body (with_grad_enabled false w)).
Qed.

(** The analyzer call: it returns the count for the model in evaluation
    mode, after one forward pass in the gradient mode of the caller. *)
Lemma get_model_complexity_info_run (image_size : list Z) (w : World) :
  exists m',
    get_model_complexity_info image_size w
    = (with_event (EvForward (w_grad_enabled w)) (with_model m' w),
       Ok (complexity_macs (set_training false (w_model w)) image_size)) /\
    named_parameters m' = named_parameters (w_model w) /\
    architecture shape m' = architecture shape (w_model w).
Proof.
  unfold get_model_complexity_info.
  pose proof (forward_parameters (set_training false (w_model w))
                (new_empty (1 :: image_size))) as Hp.
  pose proof (forward_architecture (set_training false (w_model w))
                (new_empty (1 :: image_size))) as Ha.
  destruct (forward _ _) as [outputs m']. simpl in *. exists m'.
  split; [done|]. split.
  - rewrite Hp. apply named_parameters_set_training.
  - rewrite Ha. apply architecture_set_training.
Qed.

End ArchitectureFacts.

(** ** GFLOPs *)

Section Gflops.
Context `{FW : Framework}.

Lemma touches_fs_only_preorder : PreOrder touches_fs_only.
Proof.
  split.
  - intros w. by destruct w.
  - intros w1 w2 w3 H12 H23. unfold touches_fs_only in *.
    rewrite H23, H12. by destruct w1.
Qed.
#[local] Existing Instance touches_fs_only_preorder.

Lemma to_csv_fs_only (content : FileContent) (path : string) :
  preserves touches_fs_only (to_csv content path).
Proof. intros w. by destruct w. Qed.

Lemma ensure_dir_fs_only (path : string) :
  preserves touches_fs_only (ensure_dir path).
Proof. intros w. simpl. destruct (exists_ (w_fs w) path); by destruct w. Qed.

Lemma run_uniquify_fs_only (path : string) :
  preserves touches_fs_only (run_uniquify path).
Proof.
  intros w. destruct (run_uniquify_run path w) as [r ->]. by destruct w.
Qed.

Lemma resolve_csv_paths_fs_only (load_ckpt_path : option string) :
  preserves touches_fs_only (resolve_csv_paths load_ckpt_path).
Proof.
  destruct load_ckpt_path as [path|]; simpl.
  - apply preserves_bind; [apply _ | apply preserves_lift; apply _ |].
    intros p1.
    apply preserves_bind; [apply _ | apply preserves_lift; apply _ |].
    intros p2. apply preserves_ret; apply _.
  - apply preserves_bind; [apply _ | apply preserves_gets; apply _ |].
    intros m.
    apply preserves_bind; [apply _ | apply run_uniquify_fs_only |]. intros p1.
    apply preserves_bind; [apply _ | apply run_uniquify_fs_only |]. intros p2.
    apply preserves_bind; [apply _ | apply ensure_dir_fs_only |]. intros _.
    apply preserves_bind; [apply _ | apply ensure_dir_fs_only |]. intros _.
    apply preserves_ret; apply _.
Qed.

Lemma first_image_size_inv (test_loader : option DataLoader) (w w' : World)
    (image_size : list Z) :
  first_image_size test_loader w = (w', Ok image_size) ->
  w' = w /\
  exists d inputs labels bs,
    test_loader = Some d /\ batches d = (inputs, labels) :: bs /\
    image_size = tail (shape inputs).
Proof.
  unfold first_image_size. rewrite bind_run.
  destruct test_loader as [d|]; simpl; [|done].
  destruct (batches d) as [|[inputs labels] bs] eqn:Hb; simpl; [done|].
  intros [= <- <-]. split; [done|]. by exists d, inputs, labels, bs.
Qed.

(** What a returning [test] has computed as GFLOPs. *)
Lemma test_gflops_inv (test_loader : option DataLoader)
    (loss_fun : Tensor -> Tensor -> Tensor) (num_classes : Z)
    (device : string) (dropout : bool) (load_ckpt_path : option string)
    (w w' : World) (res : TestResult) :
  test test_loader loss_fun num_classes device dropout load_ckpt_path w
  = (w', Ok res) ->
  exists image_size m,
    image_size_of test_loader = Some image_size /\
    architecture shape m = architecture shape (w_model w) /\
    gflops res = gflops_of_macs (complexity_macs m image_size).
Proof.
  unfold test. intros Hrun.
  apply bind_ok_inv in Hrun as (wa & [] & Hload & Hrun).
  pose proof (start_from_checkpoint_architecture load_ckpt_path w) as Ha.
  rewrite Hload in Ha. simpl in Ha.
  apply bind_ok_inv in Hrun as (wb & [r [preds labs]] & Hpass & Hrun).
  pose proof (test_pass_architecture test_loader loss_fun num_classes dropout
                wa) as Hb.
  rewrite Hpass in Hb. simpl in Hb.
  apply bind_ok_inv in Hrun as (wc & image_size & Hsize & Hrun).
  apply first_image_size_inv in Hsize
    as (-> & d & inputs & labels & bs & -> & Hbatches & ->).
  apply bind_ok_inv in Hrun as (wd & macs & Hmacs & Hrun).
  destruct (get_model_complexity_info_run (tail (shape inputs)) wb)
    as (m' & Hinfo & _ & _).
  rewrite Hinfo in Hmacs. injection Hmacs as <- <-.
  apply bind_ok_inv in Hrun as (we & m & _ & Hrun).
  apply bind_ok_inv in Hrun as (wf & paths & _ & Hrun).
  apply bind_ok_inv in Hrun as (wg & [] & _ & Hrun).
  apply bind_ok_inv in Hrun as (wh & [] & _ & Hrun).
  injection Hrun as _ <-.
  exists (tail (shape inputs)), (set_training false (w_model wb)).
  split; [simpl; by rewrite Hbatches|]. split; [|done].
  rewrite architecture_set_training. unfold keeps_architecture in *.
  congruence.
Qed.

(** C5. The GFLOPs value that [test] returns is the float
    [2 * MACs / 1000000000], for the count the analyzer gives at the
    image size of the test batches for a model with the architecture of
    the tested one.  With an analyzer whose count is a function of the
    architecture and the image size, the value is the one for the tested
    model itself, and every returning run on a model of the same
    architecture and on batches of the same image size returns the same
    value: the weights, a loaded checkpoint, the dropout switch, the
    loss and the data do not matter. *)
Theorem test_gflops_from_macs (test_loader : option DataLoader)
    (loss_fun : Tensor -> Tensor -> Tensor) (num_classes : Z)
    (device : string) (dropout : bool) (load_ckpt_path : option string)
    (w w' : World) (res : TestResult) :
  test test_loader loss_fun num_classes device dropout load_ckpt_path w
  = (w', Ok res) ->
  exists image_size m,
    image_size_of test_loader = Some image_size /\
    architecture shape m = architecture shape (w_model w) /\
    gflops res
    = PyNum.truediv (2 * complexity_macs m image_size) 1000000000 /\
    (analyzer_by_architecture ->
     gflops res
     = PyNum.truediv (2 * complexity_macs (w_model w) image_size) 1000000000 /\
     forall test_loader2 loss_fun2 num_classes2 device2 dropout2
            load_ckpt_path2 w2 w2' res2,
       test test_loader2 loss_fun2 num_classes2 device2 dropout2
            load_ckpt_path2 w2 = (w2', Ok res2) ->
       architecture shape (w_model w2) = architecture shape (w_model w) ->
       image_size_of test_loader2 = Some image_size ->
       gflops res2 = gflops res).
Proof.
  intros Hrun.
  apply test_gflops_inv in Hrun as (image_size & m & Hsize & Harch & Hg).
  exists image_size, m. split; [done|]. split; [done|]. split; [done|].
  intros Hanalyzer. split.
  - rewrite Hg. unfold gflops_of_macs. by rewrite (Hanalyzer _ _ _ Harch).
  - intros ????????? Hrun2 Harch2 Hsize2.
    apply test_gflops_inv in Hrun2 as (image_size2 & m2 & Hsize2' & Hm2 & Hg2).
    assert (image_size2 = image_size) as -> by congruence.
    rewrite Hg, Hg2. unfold gflops_of_macs. f_equal. f_equal.
    apply Hanalyzer. congruence.
Qed.

End Gflops.
#[local] Existing Instance touches_fs_only_preorder.

(** ** What a resumed run reads of its checkpoint *)

Section Resume.
Context `{FW : Framework}.

Lemma alike_refl (w : World) : alike w w.
Proof. by repeat split. Qed.

Lemma respects_ret {A : Type} (a : A) : respects (mret a).
Proof. by intros w1 w2 H. Qed.

Lemma respects_raise {A : Type} (e : Exn) : respects (raise (A := A) e).
Proof. by intros w1 w2 H. Qed.

Lemma respects_lift {A : Type} (r : result A) : respects (lift r).
Proof. by intros w1 w2 H. Qed.

Lemma respects_bind {A B : Type} (c : M A) (k : A -> M B) :
  respects c -> (forall a, respects (k a)) -> respects (c ≫= k).
Proof.
  intros Hc Hk w1 w2 H. rewrite !bind_run.
  destruct (Hc w1 w2 H) as [Hw Hr].
  destruct (c w1) as [w1' r1], (c w2) as [w2' r2]. simpl in *. subst r2.
  destruct r1 as [a|e]; [by apply Hk | done].
Qed.

Lemma respects_for_each {A S : Type} (l : list A) (body : A -> S -> M S) :
  (forall a s, respects (body a s)) -> forall s, respects (for_each l body s).
Proof.
  intros Hbody. induction l as [|a l IH]; intros s; simpl.
  - apply respects_ret.
  - apply respects_bind; [apply Hbody | apply IH].
Qed.

Lemma respects_no_grad {A : Type} (body : M A) :
  respects body -> respects (no_grad body).
Proof.
  intros Hbody w1 w2 H. unfold no_grad.
  destruct H as (Hd & Hm & Ho & Hs & Hg & He).
  destruct (Hbody (with_grad_enabled false w1) (with_grad_enabled false w2))
    as [Hw Hr]; [by repeat split|].
  destruct (body (with_grad_enabled false w1)) as [w1' r1],
           (body (with_grad_enabled false w2)) as [w2' r2]. simpl in *.
  destruct Hw as (Hd' & Hm' & Ho' & Hs' & _ & He').
  split; [|done]. by repeat split.
Qed.

(** Reading and writing the objects of the run other than files. *)
Lemma respects_gets_model : respects (gets w_model).
Proof. intros w1 w2 H. split; [done|]. simpl. f_equal. apply H. Qed.

Lemma respects_gets_optimizer : respects (gets w_optimizer).
Proof. intros w1 w2 H. split; [done|]. simpl. f_equal. apply H. Qed.

Ltac respects_step :=
  intros w1 w2 (Hd & Hm & Ho & Hs & Hg & He); simpl;
  rewrite <- ?Hm, <- ?Ho, <- ?Hs, <- ?Hg, <- ?He.

Lemma respects_with_model (f : World -> Module Tensor) :
  (forall w1 w2, alike w1 w2 -> f w1 = f w2) ->
  respects (modify (fun w => with_model (f w) w)).
Proof.
  intros Hf w1 w2 H. pose proof (Hf w1 w2 H) as Hfw.
  destruct H as (Hd & Hm & Ho & Hs & Hg & He). simpl.
  split; [|done]. by repeat split.
Qed.

Lemma respects_call_model (inputs : Tensor) : respects (call_model inputs).
Proof.
  respects_step. unfold call_model. rewrite <- Hm, <- Hg.
  destruct (forward (w_model w1) inputs) as [outputs m']. simpl.
  split; [|done]. repeat split; simpl; congruence.
Qed.

Lemma respects_optimizer_zero_grad : respects optimizer_zero_grad.
Proof.
  respects_step. unfold optimizer_zero_grad. simpl.
  split; [|done]. repeat split; simpl; congruence.
Qed.

Lemma respects_loss_backward (loss : Tensor) : respects (loss_backward loss).
Proof.
  respects_step. unfold loss_backward. simpl.
  split; [|done]. repeat split; simpl; congruence.
Qed.

Lemma respects_optimizer_step : respects optimizer_step.
Proof.
  respects_step. unfold optimizer_step. rewrite <- Hm, <- Ho.
  destruct (opt_step (w_optimizer w1) (w_model w1)) as [o' m']. simpl.
  split; [|done]. repeat split; simpl; congruence.
Qed.

Lemma respects_scheduler_step : respects scheduler_step.
Proof.
  respects_step. unfold scheduler_step. rewrite <- Hs, <- Ho.
  destruct (sched_step (w_scheduler w1) (w_optimizer w1)) as [sc' o']. simpl.
  split; [|done]. repeat split; simpl; congruence.
Qed.

Lemma respects_model_train : respects model_train.
Proof. apply respects_with_model. intros w1 w2 H. f_equal. apply H. Qed.

Lemma respects_model_eval : respects model_eval.
Proof. apply respects_with_model. intros w1 w2 H. f_equal. apply H. Qed.

Lemma respects_run_append (logger : option string) (key : string) (v : PyVal) :
  respects (run_append logger key v).
Proof.
  destruct logger as [ns|]; [|apply respects_raise].
  respects_step. split; [|done]. repeat split; simpl; congruence.
Qed.

Lemma respects_iterate (loader : option DataLoader) : respects (iterate loader).
Proof. destruct loader; [apply respects_ret | apply respects_raise]. Qed.

(** *** The file system is read for existence only *)

Lemma exists_alike (fs1 fs2 : gmap string (Node FileContent)) (path : string) :
  dom fs1 = dom fs2 -> exists_ fs1 path = exists_ fs2 path.
Proof.
  intros Hd. destruct (exists_ fs2 path) eqn:E.
  - apply exists_true. rewrite Hd. by apply exists_true.
  - apply exists_false. rewrite Hd. by apply exists_false.
Qed.

Lemma uniquify_loop_alike (fs1 fs2 : gmap string (Node FileContent))
    (filename extension : string) (fuel : nat) :
  dom fs1 = dom fs2 ->
  forall path counter,
    uniquify_loop fuel fs1 filename extension path counter
    = uniquify_loop fuel fs2 filename extension path counter.
Proof.
  intros Hd. induction fuel as [|fuel IH]; intros path counter; simpl; [done|].
  rewrite (exists_alike fs1 fs2 path Hd). by rewrite IH.
Qed.

Lemma uniquify_alike (fs1 fs2 : gmap string (Node FileContent)) (path : string) :
  dom fs1 = dom fs2 -> uniquify fs1 path = uniquify fs2 path.
Proof.
  intros Hd. unfold uniquify, uniquify_fuel.
  destruct (OsPath.splitext path) as [filename extension].
  rewrite <- !size_dom, Hd. by apply uniquify_loop_alike.
Qed.

Lemma respects_run_uniquify (path : string) : respects (run_uniquify path).
Proof.
  intros w1 w2 H. unfold run_uniquify. rewrite !bind_run. simpl.
  rewrite (uniquify_alike (w_fs w1) (w_fs w2) path) by apply H.
  by destruct (uniquify (w_fs w2) path).
Qed.

Lemma alike_insert (w1 w2 : World) (path : string) (n1 n2 : Node FileContent) :
  alike w1 w2 ->
  alike (with_fs (<[path := n1]> (w_fs w1)) w1)
        (with_fs (<[path := n2]> (w_fs w2)) w2).
Proof.
  intros (Hd & Hrest). split; [|exact Hrest]. simpl.
  by rewrite !dom_insert_L, Hd.
Qed.

Lemma respects_ensure_dir (path : string) : respects (ensure_dir path).
Proof.
  intros w1 w2 H. simpl. split; [|done].
  rewrite (exists_alike (w_fs w1) (w_fs w2) path) by apply H.
  destruct (exists_ (w_fs w2) path); [done|]. by apply alike_insert.
Qed.

Lemma respects_torch_save (obj : gmap string PyVal) (path : string) :
  respects (torch_save obj path).
Proof. intros w1 w2 H. split; [|done]. by apply alike_insert. Qed.

Lemma respects_to_csv (content : FileContent) (path : string) :
  respects (to_csv content path).
Proof. intros w1 w2 H. split; [|done]. by apply alike_insert. Qed.

(** *** The passes, and everything after the load step *)

Lemma respects_train_step (loss_fun : Tensor -> Tensor -> Tensor)
    (logger run : option string) (batch : Tensor * Tensor) (s : Running * Z) :
  respects (train_step loss_fun logger run batch s).
Proof.
  destruct batch as [inputs labels], s as [r i]. unfold train_step.
  apply respects_bind; [apply respects_optimizer_zero_grad | intros _].
  apply respects_bind; [apply respects_call_model | intros outputs].
  apply respects_bind; [apply respects_loss_backward | intros _].
  apply respects_bind; [apply respects_optimizer_step | intros _].
  apply respects_bind; [|intros _; apply respects_ret].
  destruct ((i `mod` 100 =? 0) && bool_decide (is_Some run));
    [|apply respects_ret].
  apply respects_bind; [apply respects_run_append | intros _].
  apply respects_bind; [apply respects_run_append | intros _].
  apply respects_run_append.
Qed.

Lemma respects_eval_step (loss_fun : Tensor -> Tensor -> Tensor)
    (batch : Tensor * Tensor) (r : Running) :
  respects (eval_step loss_fun batch r).
Proof.
  destruct batch as [inputs labels]. unfold eval_step.
  apply respects_bind; [apply respects_call_model | intros outputs].
  apply respects_ret.
Qed.

Lemma respects_test_step (loss_fun : Tensor -> Tensor -> Tensor)
    (batch : Tensor * Tensor) (s : Running * (list Z * list Z)) :
  respects (test_step loss_fun batch s).
Proof.
  destruct batch as [inputs labels], s as [r [preds labs]]. unfold test_step.
  apply respects_bind; [apply respects_call_model | intros outputs].
  apply respects_ret.
Qed.

Lemma respects_train_pass (train_loader : option DataLoader)
    (loss_fun : Tensor -> Tensor -> Tensor) (logger run : option string)
    (l : Locals) :
  respects (train_pass train_loader loss_fun logger run l).
Proof.
  unfold train_pass.
  apply respects_bind; [apply respects_model_train | intros _].
  apply respects_bind; [apply respects_iterate | intros bs].
  apply respects_bind;
    [apply respects_for_each; intros; apply respects_train_step | intros s].
  apply respects_bind; [apply respects_scheduler_step | intros _].
  apply respects_ret.
Qed.

Lemma respects_validation_pass (val_loader : option DataLoader)
    (loss_fun : Tensor -> Tensor -> Tensor) (l : Locals) :
  respects (validation_pass val_loader loss_fun l).
Proof.
  unfold validation_pass.
  apply respects_bind; [apply respects_model_eval | intros _].
  apply respects_bind; [|intros r; apply respects_ret].
  apply respects_no_grad.
  apply respects_bind; [apply respects_iterate | intros bs].
  apply respects_for_each. intros. apply respects_eval_step.
Qed.

Lemma respects_run_epochs (train_loader val_loader : option DataLoader)
    (loss_fun : Tensor -> Tensor -> Tensor) (num_epochs num_classes : Z)
    (logger run : option string) :
  respects (run_epochs train_loader val_loader loss_fun num_epochs num_classes
              logger run).
Proof.
  unfold run_epochs. apply respects_for_each. intros epoch l.
  unfold epoch_body.
  apply respects_bind; [apply respects_train_pass | intros l'].
  apply respects_validation_pass.
Qed.

Lemma respects_resolve_save_path (save_ckpt_path : option string)
    (num_epochs : Z) (augment : bool) :
  respects (resolve_save_path save_ckpt_path num_epochs augment).
Proof.
  destruct save_ckpt_path as [path|]; simpl; [apply respects_ret|].
  apply respects_bind; [apply respects_gets_model | intros m].
  apply respects_bind; [apply respects_gets_optimizer | intros o].
  apply respects_bind; [apply respects_lift | intros folder].
  apply respects_bind; [apply respects_run_uniquify | intros folder'].
  apply respects_bind; [apply respects_ensure_dir | intros _].
  apply respects_bind; [apply respects_ensure_dir | intros _].
  apply respects_ret.
Qed.

Lemma respects_save_checkpoint (num_epochs : Z) (l : Locals) (path : string) :
  respects (save_checkpoint num_epochs l path).
Proof.
  unfold save_checkpoint.
  apply respects_bind; [apply respects_gets_model | intros m].
  apply respects_bind; [apply respects_gets_optimizer | intros o].
  do 6 (apply respects_bind; [apply respects_lift | intros ?]).
  apply respects_bind; [apply respects_torch_save | intros _].
  apply respects_ret.
Qed.

Lemma respects_prepare_model : respects prepare_model.
Proof.
  unfold prepare_model.
  apply respects_bind; [apply respects_gets_model | intros m].
  destruct (PyStr.contains "Inception" (cls m)); [|apply respects_ret].
  intros w1 w2 (Hd & Hm & Ho & Hs & Hg & He). split; [|done].
  repeat split; simpl; congruence.
Qed.

Lemma respects_test_pass (test_loader : option DataLoader)
    (loss_fun : Tensor -> Tensor -> Tensor) (num_classes : Z) (dropout : bool) :
  respects (test_pass test_loader loss_fun num_classes dropout).
Proof.
  unfold test_pass.
  apply respects_bind; [apply respects_model_eval | intros _].
  apply respects_bind; [|intros _].
  { destruct dropout; [|apply respects_ret].
    apply respects_with_model. intros w1 w2 H. f_equal. apply H. }
  apply respects_no_grad.
  apply respects_bind; [apply respects_iterate | intros bs].
  apply respects_for_each. intros. apply respects_test_step.
Qed.

Lemma respects_resolve_csv_paths (load_ckpt_path : option string) :
  respects (resolve_csv_paths load_ckpt_path).
Proof.
  destruct load_ckpt_path as [path|]; simpl.
  - apply respects_bind; [apply respects_lift | intros p1].
    apply respects_bind; [apply respects_lift | intros p2].
    apply respects_ret.
  - apply respects_bind; [apply respects_gets_model | intros m].
    apply respects_bind; [apply respects_run_uniquify | intros p1].
    apply respects_bind; [apply respects_run_uniquify | intros p2].
    apply respects_bind; [apply respects_ensure_dir | intros _].
    apply respects_bind; [apply respects_ensure_dir | intros _].
    apply respects_ret.
Qed.

(** *** The load step *)

(** Two checkpoints with the same ['model_state_dict'] entry load alike. *)
Lemma load_checkpoint_agree (path : string) (ck1 ck2 : gmap string PyVal)
    (w1 w2 : World) :
  alike w1 w2 ->
  w_fs w1 !! path = Some (File (Pickle ck1)) ->
  w_fs w2 !! path = Some (File (Pickle ck2)) ->
  ck1 !! "model_state_dict" = ck2 !! "model_state_dict" ->
  alike (fst (load_checkpoint path w1)) (fst (load_checkpoint path w2)) /\
  snd (load_checkpoint path w1) = snd (load_checkpoint path w2).
Proof.
  intros H Hf1 Hf2 Hsd. unfold load_checkpoint, torch_load.
  rewrite !bind_run, Hf1, Hf2, <- Hsd.
  destruct (ck1 !! "model_state_dict") as [[| | |sd|]|]; simpl; try done.
  rewrite !bind_run. simpl.
  destruct H as (Hd & Hm & Ho & Hs & Hg & He). rewrite <- Hm.
  destruct (load_state_dict sd (w_model w1)) as [m'|e]; simpl.
  - split; [|done]. repeat split; simpl; congruence.
  - split; [|done]. repeat split; simpl; congruence.
Qed.

Lemma respects_after_load_train (train_loader val_loader : option DataLoader)
    (loss_fun : Tensor -> Tensor -> Tensor) (num_epochs num_classes : Z)
    (augment : bool) (save_ckpt_path : option string)
    (logger run : option string) :
  respects
    (l ← run_epochs train_loader val_loader loss_fun num_epochs num_classes
           logger run;
     save_ckpt_path ← resolve_save_path save_ckpt_path num_epochs augment;
     save_checkpoint num_epochs l save_ckpt_path).
Proof.
  apply respects_bind; [apply respects_run_epochs | intros l].
  apply respects_bind; [apply respects_resolve_save_path | intros path].
  apply respects_save_checkpoint.
Qed.

Lemma respects_get_model_complexity_info (image_size : list Z) :
  respects (get_model_complexity_info image_size).
Proof.
  intros w1 w2 (Hd & Hm & Ho & Hs & Hg & He).
  unfold get_model_complexity_info. rewrite <- Hm, <- Hg.
  destruct (forward _ _) as [outputs m']. simpl.
  split; [|done]. repeat split; simpl; congruence.
Qed.

Lemma respects_after_load_test (test_loader : option DataLoader)
    (loss_fun : Tensor -> Tensor -> Tensor) (num_classes : Z) (dropout : bool)
    (load_ckpt_path : option string) :
  respects
    (s ← test_pass test_loader loss_fun num_classes dropout;
     let '(r, (preds_list, labels_list)) := s in
     let test_loss := np_average (loss_arr r) in
     let test_acc := metric_compute (r_accuracy r) in
     let test_auc := metric_compute (r_auc r) in
     image_size ← first_image_size test_loader;
     macs ← get_model_complexity_info image_size;
     let gflops := gflops_of_macs macs in
     m ← gets w_model;
     paths ← resolve_csv_paths load_ckpt_path;
     _ ← to_csv (CsvOutputs preds_list labels_list) (fst paths);
     _ ← to_csv (CsvMetrics (cls m) gflops test_loss test_acc test_auc)
           (snd paths);
     mret (mkTestResult gflops test_loss test_acc test_auc)).
Proof.
  apply respects_bind; [apply respects_test_pass | intros [r [preds labs]]].
  apply respects_bind; [|intros image_size].
  { unfold first_image_size.
    apply respects_bind; [apply respects_iterate | intros bs].
    destruct bs as [|[inputs labels] bs];
      [apply respects_raise | apply respects_ret]. }
  apply respects_bind; [apply respects_get_model_complexity_info | intros macs].
  apply respects_bind; [apply respects_gets_model | intros m].
  apply respects_bind; [apply respects_resolve_csv_paths | intros paths].
  apply respects_bind; [apply respects_to_csv | intros _].
  apply respects_bind; [apply respects_to_csv | intros _].
  apply respects_ret.
Qed.

(** C9. Of the checkpoint at [load_ckpt_path], [train] and [test] read the
    ['model_state_dict'] entry and nothing else.  The load step changes
    the model only: optimizer, scheduler, gradient mode and file system
    are as before.  Two checkpoints with the same ['model_state_dict']
    entry, whatever their ['epochs'] and ['optimizer_state_dict'], give
    runs that end in the same model, optimizer state, scheduler state and
    sequence of framework calls, with the same result: a resumed run does
    all its [num_epochs] epochs with the optimizer it was given. *)
Theorem resume_reads_model_state_only (path : string)
    (ck1 ck2 : gmap string PyVal) (w : World)
    (train_loader val_loader test_loader : option DataLoader)
    (loss_fun : Tensor -> Tensor -> Tensor) (num_epochs num_classes : Z)
    (device : string) (augment dropout : bool)
    (save_ckpt_path : option string) (logger run : option string) :
  ck1 !! "model_state_dict" = ck2 !! "model_state_dict" ->
  let w1 := with_fs (<[path := File (Pickle ck1)]> (w_fs w)) w in
  let w2 := with_fs (<[path := File (Pickle ck2)]> (w_fs w)) w in
  fst (load_checkpoint path w1)
  = with_model (w_model (fst (load_checkpoint path w1))) w1 /\
  (alike
     (fst (train train_loader val_loader loss_fun num_epochs num_classes device
             augment save_ckpt_path (Some path) logger run w1))
     (fst (train train_loader val_loader loss_fun num_epochs num_classes device
             augment save_ckpt_path (Some path) logger run w2)) /\
   snd (train train_loader val_loader loss_fun num_epochs num_classes device
          augment save_ckpt_path (Some path) logger run w1)
   = snd (train train_loader val_loader loss_fun num_epochs num_classes device
            augment save_ckpt_path (Some path) logger run w2)) /\
  (alike
     (fst (test test_loader loss_fun num_classes device dropout (Some path) w1))
     (fst (test test_loader loss_fun num_classes device dropout (Some path) w2)) /\
   snd (test test_loader loss_fun num_classes device dropout (Some path) w1)
   = snd (test test_loader loss_fun num_classes device dropout (Some path) w2)).
Proof.
  intros Hsd w1 w2.
  assert (alike w1 w2) as Hw.
  { unfold w1, w2. apply alike_insert, alike_refl. }
  assert (w_fs w1 !! path = Some (File (Pickle ck1))) as Hf1
    by apply lookup_insert_eq.
  assert (w_fs w2 !! path = Some (File (Pickle ck2))) as Hf2
    by apply lookup_insert_eq.
  split; [apply load_checkpoint_frame|]. split.
  - unfold train. rewrite !(bind_run prepare_model).
    destruct (respects_prepare_model w1 w2 Hw) as [Hw0 Hr0].
    destruct (prepare_model_run w1) as (w10 & Hp1 & Hfs1 & _).
    destruct (prepare_model_run w2) as (w20 & Hp2 & Hfs2 & _).
    rewrite Hp1, Hp2 in *. simpl in Hw0.
    rewrite <- Hfs1 in Hf1. rewrite <- Hfs2 in Hf2.
    destruct (load_checkpoint_agree path ck1 ck2 w10 w20 Hw0 Hf1 Hf2 Hsd)
      as [Hw' Hr'].
    rewrite !(bind_run (start_from_checkpoint (Some path))). simpl.
    destruct (load_checkpoint path w10) as [w1' r1],
             (load_checkpoint path w20) as [w2' r2]. simpl in *. subst r2.
    destruct r1 as [[]|e]; [|done].
    exact (respects_after_load_train train_loader val_loader loss_fun
             num_epochs num_classes augment save_ckpt_path logger run
             w1' w2' Hw').
  - unfold test. rewrite !(bind_run (start_from_checkpoint (Some path))).
    simpl.
    destruct (load_checkpoint_agree path ck1 ck2 w1 w2 Hw Hf1 Hf2 Hsd)
      as [Hw' Hr'].
    destruct (load_checkpoint path w1) as [w1' r1],
             (load_checkpoint path w2) as [w2' r2]. simpl in *. subst r2.
    destruct r1 as [[]|e]; [|done].
    exact (respects_after_load_test test_loader loss_fun num_classes dropout
             (Some path) w1' w2' Hw').
Qed.

End Resume.

(** ** The remaining theorems at the small framework instance *)



(** A run of no epochs with a synthesized save path. *)
Lemma train_zero_epochs_unbound_witness :
  snd (train (FW := Toy.framework) (Toy.loader "train") (Toy.loader "val")
         Toy.loss_fun 0 2 "cpu" false None None None None Toy.start)
  = Raise (UnboundLocalError "train_loss").
Proof.
  apply (proj1 (proj2 (proj2 (train_zero_epochs_unbound
           (FW := Toy.framework) (Toy.loader "train") (Toy.loader "val")
           Toy.loss_fun 2 "cpu" false None None None None Toy.start)))).
  - reflexivity.
  - intros _. eexists. vm_compute. reflexivity.
Defined.

Lemma w_fs_world (m : Module Toy.tensor) (lr : Q)
    (fs : gmap string (Node (FileContent (FW := Toy.framework)))) :
  w_fs (Toy.world m lr fs) = fs.
Proof. reflexivity. Qed.

(** One epoch of training, then the checkpoint loaded into the same
    network with other values. *)
Lemma checkpoint_round_trip_witness :
  snd Toy.trained = Ok Toy.trained_metrics /\
  param_values (w_model Toy.fresh) <> param_values (w_model (fst Toy.trained)) /\
  exists w2',
    load_checkpoint (FW := Toy.framework) "run.pt" Toy.fresh = (w2', Ok tt) /\
    param_values (w_model w2') = param_values (w_model (fst Toy.trained)).
Proof.
  assert (snd Toy.trained = Ok Toy.trained_metrics) as Hrun
    by (vm_compute; reflexivity).
  split; [exact Hrun|]. split; [vm_compute; discriminate|].
  destruct (checkpoint_round_trip (FW := Toy.framework)
              (Toy.loader "train") (Toy.loader "val") Toy.loss_fun 1 2 "cpu"
              false (Some "run.pt") None None None Toy.start
              (fst Toy.trained) Toy.trained_metrics)
    as (path & Hgiven & Hload).
  - exact (run_outcome _ _ _ Hrun).
  - apply (bool_decide_unpack _). vm_compute. exact I.
  - rewrite (Hgiven "run.pt" eq_refl) in Hload.
    destruct (Hload Toy.fresh) as [(w2' & Hload' & _ & Hvalues) _].
    + unfold Toy.fresh. rewrite w_fs_world. reflexivity.
    + vm_compute. reflexivity.
    + exists w2'. split; assumption.
Defined.

(** The analyzer of the small instance counts by architecture. *)
Lemma toy_analyzer_by_architecture :
  analyzer_by_architecture (FW := Toy.framework).
Proof.
  intros m1 m2 image_size Harch.
  change (Toy.toy_macs (architecture fst m1) image_size
          = Toy.toy_macs (architecture fst m2) image_size).
  change (architecture fst m1 = architecture fst m2) in Harch.
  by rewrite Harch.
Qed.

(** A test run from the saved checkpoint: 293787648 multiply-accumulates
    at 3 x 96 x 96 give the float 0.587575296.  The count 1814073344
    gives 3.628146688, the float next to the exact quotient. *)
Lemma test_gflops_from_macs_witness :
  snd Toy.tested = Ok Toy.tested_result /\
  image_size_of (FW := Toy.framework) (Toy.loader "test") = Some [3; 96; 96] /\
  complexity_macs (Framework := Toy.framework) (w_model Toy.fresh) [3; 96; 96]
  = 293787648 /\
  gflops Toy.tested_result = PyNum.truediv (2 * 293787648) 1000000000 /\
  PyNum.truediv (2 * 293787648) 1000000000
  = S754_finite false 5292407768235418 (-53) /\
  PyNum.truediv (2 * 1814073344) 1000000000
  = S754_finite false 8169860036061150 (-51) /\
  ((2 * 1814073344 # 1000000000) * (1 - (1 # 2 ^ 53))
   <= PyNum.to_Q (PyNum.truediv (2 * 1814073344) 1000000000))%Q /\
  (PyNum.to_Q (PyNum.truediv (2 * 1814073344) 1000000000)
   <= (2 * 1814073344 # 1000000000) * (1 + (1 # 2 ^ 53)))%Q.
Proof.
  assert (snd Toy.tested = Ok Toy.tested_result) as Hrun
    by (vm_compute; reflexivity).
  split; [exact Hrun|].
  destruct (test_gflops_from_macs (FW := Toy.framework)
              (Toy.loader "test") Toy.loss_fun 2 "cpu" false (Some "run.pt")
              Toy.fresh (fst Toy.tested) Toy.tested_result
              (run_outcome _ _ _ Hrun))
    as (image_size & m & Hsize & _ & _ & Hdet).
  destruct (Hdet toy_analyzer_by_architecture) as [Hg _].
  assert (image_size_of (FW := Toy.framework) (Toy.loader "test")
          = Some [3; 96; 96]) as Hsize' by reflexivity.
  rewrite Hsize' in Hsize. injection Hsize as <-.
  assert (complexity_macs (Framework := Toy.framework) (w_model Toy.fresh)
            [3; 96; 96] = 293787648) as Hmacs by (vm_compute; reflexivity).
  rewrite Hmacs in Hg.
  split; [exact Hsize'|]. split; [exact Hmacs|]. split; [exact Hg|].
  split; [vm_compute; reflexivity|]. split; [vm_compute; reflexivity|].
  split; vm_compute; discriminate.
Defined.

(** Resuming from a checkpoint with and without its ['epochs'] and
    ['optimizer_state_dict'] entries. *)
Lemma resume_reads_model_state_only_witness :
  Toy.checkpoint_full !! "epochs" <> Toy.checkpoint_bare !! "epochs" /\
  snd (train (FW := Toy.framework) (Toy.loader "train") (Toy.loader "val")
         Toy.loss_fun 1 2 "cpu" false None (Some "run.pt") None None
         (with_fs (<["run.pt" := File (Pickle Toy.checkpoint_full)]>
                     (w_fs Toy.start)) Toy.start))
  = snd (train (FW := Toy.framework) (Toy.loader "train") (Toy.loader "val")
           Toy.loss_fun 1 2 "cpu" false None (Some "run.pt") None None
           (with_fs (<["run.pt" := File (Pickle Toy.checkpoint_bare)]>
                       (w_fs Toy.start)) Toy.start)).
Proof.
  split; [vm_compute; discriminate|].
  apply (resume_reads_model_state_only (FW := Toy.framework) "run.pt"
           Toy.checkpoint_full Toy.checkpoint_bare Toy.start
           (Toy.loader "train") (Toy.loader "val") (Toy.loader "test")
           Toy.loss_fun 1 2 "cpu" false false None None None).
  vm_compute. reflexivity.
Defined.

(** * Further properties of the code *)

(** ** The framework calls of a run *)

Section CallFacts.
Context `{FW : Framework}.

Lemma adds_calls_nil (w : World) : adds_calls [] w w.
Proof. split; [by rewrite app_nil_r | done]. Qed.

Lemma adds_calls_trans (cs1 cs2 : list Call) (w w1 w2 : World) :
  adds_calls cs1 w w1 -> adds_calls cs2 w1 w2 -> adds_calls (cs1 ++ cs2) w w2.
Proof.
  intros [He1 Hg1] [He2 Hg2]. split; [|congruence].
  by rewrite He2, He1, app_assoc.
Qed.

Lemma adds_calls_event (e : Event) (w : World) :
  adds_calls [call_of e] w (with_event e w).
Proof. split; [|done]. simpl. by rewrite map_app. Qed.

Lemma call_model_calls (inputs : Tensor) (w : World) :
  exists outputs,
    snd (call_model inputs w) = Ok outputs /\
    adds_calls [CForward (w_grad_enabled w)] w (fst (call_model inputs w)).
Proof.
  unfold call_model. destruct (forward (w_model w) inputs) as [outputs m'].
  exists outputs. split; [done|]. split; [|done]. simpl. by rewrite map_app.
Qed.

Lemma optimizer_zero_grad_calls (w : World) :
  snd (optimizer_zero_grad w) = Ok tt /\
  adds_calls [CZeroGrad] w (fst (optimizer_zero_grad w)).
Proof. split; [done|]. split; [|done]. simpl. by rewrite map_app. Qed.

Lemma loss_backward_calls (loss : Tensor) (w : World) :
  snd (loss_backward loss w) = Ok tt /\
  adds_calls [CBackward] w (fst (loss_backward loss w)).
Proof. split; [done|]. split; [|done]. simpl. by rewrite map_app. Qed.

Lemma optimizer_step_calls (w : World) :
  snd (optimizer_step w) = Ok tt /\
  adds_calls [COptimizerStep] w (fst (optimizer_step w)).
Proof.
  unfold optimizer_step.
  destruct (opt_step (w_optimizer w) (w_model w)) as [o' m'].
  split; [done|]. split; [|done]. simpl. by rewrite map_app.
Qed.

Lemma scheduler_step_calls (w : World) :
  snd (scheduler_step w) = Ok tt /\
  adds_calls [CSchedulerStep] w (fst (scheduler_step w)).
Proof.
  unfold scheduler_step.
  destruct (sched_step (w_scheduler w) (w_optimizer w)) as [sc' o'].
  split; [done|]. split; [|done]. simpl. by rewrite map_app.
Qed.

(** The three appends of a logged batch: they need the logger. *)
Lemma log_batch_calls (logger : option string) (v1 v2 v3 : PyVal) (w w' : World) :
  (_ ← run_append logger "batch/loss" v1;
   _ ← run_append logger "batch/acc" v2;
   run_append logger "batch/auc" v3) w = (w', Ok tt) ->
  exists namespace,
    logger = Some namespace /\
    adds_calls [CAppend namespace "batch/loss"; CAppend namespace "batch/acc";
                CAppend namespace "batch/auc"] w w'.
Proof.
  destruct logger as [namespace|]; [|done].
  intros [= <-]. exists namespace. split; [done|]. split; [|done].
  simpl. rewrite !map_app. simpl. by rewrite <- !app_assoc.
Qed.

(** One batch of training that returns. *)
Lemma train_step_calls (loss_fun : Tensor -> Tensor -> Tensor)
    (logger run : option string) (batch : Tensor * Tensor)
    (r : Running) (i : Z) (w w' : World) (s' : Running * Z) :
  train_step loss_fun logger run batch (r, i) w = (w', Ok s') ->
  snd s' = i + 1 /\
  adds_calls (step_calls (w_grad_enabled w) logger run i) w w'.
Proof.
  destruct batch as [inputs labels]. unfold train_step. intros Hrun.
  apply bind_ok_inv in Hrun as (w1 & [] & H1 & Hrun).
  destruct (optimizer_zero_grad_calls w) as [_ A1]. rewrite H1 in A1.
  apply bind_ok_inv in Hrun as (w2 & outputs & H2 & Hrun).
  destruct (call_model_calls inputs w1) as (? & _ & A2). rewrite H2 in A2.
  apply bind_ok_inv in Hrun as (w3 & [] & H3 & Hrun).
  destruct (loss_backward_calls (loss_fun outputs labels) w2) as [_ A3].
  rewrite H3 in A3.
  apply bind_ok_inv in Hrun as (w4 & [] & H4 & Hrun).
  destruct (optimizer_step_calls w3) as [_ A4]. rewrite H4 in A4.
  apply bind_ok_inv in Hrun as (w5 & [] & H5 & Hrun).
  injection Hrun as <- <-. simpl in *. split; [done|].
  assert (adds_calls [CZeroGrad; CForward (w_grad_enabled w); CBackward;
                      COptimizerStep] w w4) as A.
  { destruct A1 as [E1 G1]. rewrite G1 in A2.
    apply (adds_calls_trans [CZeroGrad] _ w w1 w4); [by split|].
    apply (adds_calls_trans [CForward _] _ w1 w2 w4); [done|].
    apply (adds_calls_trans [CBackward] [COptimizerStep] w2 w3 w4); done. }
  unfold step_calls, logged.
  destruct ((i `mod` 100 =? 0) && bool_decide (is_Some run)).
  - apply log_batch_calls in H5 as (namespace & -> & A5).
    by apply (adds_calls_trans _ _ w w4 w5).
  - injection H5 as <-. rewrite app_nil_r. exact A.
Qed.

(** The batches of a training pass, from counter [i] on. *)
Lemma train_steps_calls (loss_fun : Tensor -> Tensor -> Tensor)
    (logger run : option string) (bs : list (Tensor * Tensor)) :
  forall (r : Running) (i : Z) (w w' : World) (s' : Running * Z),
    for_each bs (train_step loss_fun logger run) (r, i) w = (w', Ok s') ->
    adds_calls
      (flat_map (step_calls (w_grad_enabled w) logger run)
                ((fun k => i + Z.of_nat k) <$> seq 0 (length bs)))
      w w'.
Proof.
  induction bs as [|b bs IH]; intros r i w w' s' Hrun; simpl in Hrun.
  - injection Hrun as <- <-. apply adds_calls_nil.
  - apply bind_ok_inv in Hrun as (w1 & [r1 i1] & Hstep & Hrun).
    apply train_step_calls in Hstep as [Hi A1]. simpl in Hi. subst i1.
    apply IH in Hrun. destruct A1 as [E1 G1]. rewrite G1 in Hrun.
    assert (((fun k => i + Z.of_nat k) <$> seq 0 (length (b :: bs)))
            = i :: ((fun k => i + 1 + Z.of_nat k) <$> seq 0 (length bs)))
      as ->.
    { simpl. f_equal; [lia|].
      rewrite <- fmap_S_seq, <- list_fmap_compose.
      apply list_fmap_ext. intros _ k _. simpl. lia. }
    change (flat_map ?f (i :: ?l)) with (f i ++ flat_map f l).
    apply (adds_calls_trans _ _ w w1 w'); [by split | done].
Qed.

Lemma range_of_nat (n : nat) :
  range (Z.of_nat n) = (fun k => 0 + Z.of_nat k) <$> seq 0 n.
Proof. unfold range. by rewrite Nat2Z.id. Qed.

Lemma touches_fs_only_calls (w w' : World) :
  touches_fs_only w w' -> adds_calls [] w w'.
Proof. intros ->. split; [by rewrite app_nil_r | done]. Qed.

(** The training half of an epoch that returns. *)
Lemma train_pass_calls (train_loader : option DataLoader)
    (loss_fun : Tensor -> Tensor -> Tensor) (logger run : option string)
    (l l' : Locals) (w w' : World) :
  train_pass train_loader loss_fun logger run l w = (w', Ok l') ->
  adds_calls
    (flat_map (step_calls (w_grad_enabled w) logger run)
              (range (Z.of_nat (batch_count train_loader)))
     ++ [CSchedulerStep]) w w'.
Proof.
  unfold train_pass. intros Hrun.
  apply bind_ok_inv in Hrun as (w1 & [] & [= <-] & Hrun).
  apply bind_ok_inv in Hrun as (w2 & bs & Hbs & Hrun).
  destruct train_loader as [d|]; [|done]. injection Hbs as <- <-.
  apply bind_ok_inv in Hrun as (w3 & s & Hsteps & Hrun).
  apply train_steps_calls in Hsteps. simpl in Hsteps.
  apply bind_ok_inv in Hrun as (w4 & [] & Hsched & Hrun).
  injection Hrun as <- _.
  destruct (scheduler_step_calls w3) as [_ A]. rewrite Hsched in A.
  simpl batch_count. rewrite range_of_nat. simpl in A.
  destruct (adds_calls_trans _ _ _ _ _ Hsteps A) as [E G].
  split; [exact E | exact G].
Qed.

Lemma eval_step_run (loss_fun : Tensor -> Tensor -> Tensor)
    (batch : Tensor * Tensor) (r : Running) (w : World) :
  eval_step loss_fun batch r w
  = (with_event (EvForward (w_grad_enabled w))
       (with_model (snd (forward (w_model w) (fst batch))) w),
     Ok (update_running r
           (loss_fun (fst (forward (w_model w) (fst batch))) (snd batch))
           (fst (forward (w_model w) (fst batch))) (snd batch))).
Proof.
  destruct batch as [inputs labels]. unfold eval_step. rewrite bind_run.
  unfold call_model. simpl. by destruct (forward (w_model w) inputs).
Qed.

Lemma test_step_run (loss_fun : Tensor -> Tensor -> Tensor)
    (batch : Tensor * Tensor) (r : Running) (preds labs : list Z) (w : World) :
  test_step loss_fun batch (r, (preds, labs)) w
  = (with_event (EvForward (w_grad_enabled w))
       (with_model (snd (forward (w_model w) (fst batch))) w),
     Ok (update_running r
           (loss_fun (fst (forward (w_model w) (fst batch))) (snd batch))
           (fst (forward (w_model w) (fst batch))) (snd batch),
         (preds ++ tolist (argmax (fst (forward (w_model w) (fst batch)))),
          labs ++ tolist (snd batch)))).
Proof.
  destruct batch as [inputs labels]. unfold test_step. rewrite bind_run.
  unfold call_model. simpl. by destruct (forward (w_model w) inputs).
Qed.

(** Evaluation steps always return; each is one forward pass. *)
Lemma eval_steps_run (loss_fun : Tensor -> Tensor -> Tensor)
    (bs : list (Tensor * Tensor)) :
  forall (r : Running) (w : World),
    exists w' r',
      for_each bs (eval_step loss_fun) r w = (w', Ok r') /\
      w_events w'
      = w_events w ++ replicate (length bs) (EvForward (w_grad_enabled w)) /\
      w_grad_enabled w' = w_grad_enabled w.
Proof.
  induction bs as [|b bs IH]; intros r w.
  - exists w, r. by rewrite app_nil_r.
  - change (for_each (b :: bs) (eval_step loss_fun) r w)
      with ((s ← eval_step loss_fun b r; for_each bs (eval_step loss_fun) s) w).
    rewrite bind_run, eval_step_run.
    match goal with |- context [for_each bs _ ?r1 ?w1] =>
      destruct (IH r1 w1) as (w' & r' & Hrun & He & Hg) end.
    exists w', r'. split; [exact Hrun|]. rewrite He, Hg. simpl.
    split; [|done]. by rewrite <- app_assoc.
Qed.

(** The steps of the test loop always return; they also collect the
    labels, batch after batch. *)
Lemma test_steps_run (loss_fun : Tensor -> Tensor -> Tensor)
    (bs : list (Tensor * Tensor)) :
  forall (r : Running) (preds labs : list Z) (w : World),
    exists w' r' preds',
      for_each bs (test_step loss_fun) (r, (preds, labs)) w
      = (w', Ok (r', (preds', labs ++ flat_map (fun b => tolist (snd b)) bs))) /\
      length (loss_arr r') = (length (loss_arr r) + length bs)%nat /\
      w_events w'
      = w_events w ++ replicate (length bs) (EvForward (w_grad_enabled w)) /\
      w_grad_enabled w' = w_grad_enabled w.
Proof.
  induction bs as [|b bs IH]; intros r preds labs w.
  - exists w, r, preds. by rewrite !app_nil_r, Nat.add_0_r.
  - change (for_each (b :: bs) (test_step loss_fun) (r, (preds, labs)) w)
      with ((s ← test_step loss_fun b (r, (preds, labs));
             for_each bs (test_step loss_fun) s) w).
    rewrite bind_run, test_step_run.
    match goal with |- context [for_each bs _ (?r1, (?p1, ?l1)) ?w1] =>
      destruct (IH r1 p1 l1 w1) as (w' & r' & preds' & Hrun & Hlen & He & Hg)
    end.
    exists w', r', preds'. rewrite Hrun, He, Hg, Hlen. simpl.
    rewrite length_app. simpl.
    split; [by rewrite <- app_assoc|]. split; [lia|].
    split; [|done]. by rewrite <- app_assoc.
Qed.

(** The validation half of an epoch that returns. *)
Lemma validation_pass_calls (val_loader : option DataLoader)
    (loss_fun : Tensor -> Tensor -> Tensor) (l l' : Locals) (w w' : World) :
  validation_pass val_loader loss_fun l w = (w', Ok l') ->
  adds_calls (replicate (batch_count val_loader) (CForward false)) w w'.
Proof.
  unfold validation_pass. intros Hrun.
  apply bind_ok_inv in Hrun as (w1 & [] & [= <-] & Hrun).
  apply bind_ok_inv in Hrun as (w2 & r & Hbody & Hrun).
  injection Hrun as <- _.
  unfold no_grad in Hbody. destruct val_loader as [d|]; [|done].
  rewrite bind_run in Hbody. simpl in Hbody.
  set (w0 := with_grad_enabled false _) in Hbody.
  destruct (eval_steps_run loss_fun (batches d)
              (mkRunning [] (metric_reset (l_auc l))
                         (metric_reset (l_accuracy l))) w0)
    as (w3 & r' & Hr & He & Hg).
  rewrite Hr in Hbody. injection Hbody as <- _. split; [|done]. simpl.
  rewrite He. unfold w0. simpl. rewrite map_app. f_equal.
  generalize (length (batches d)). intros n.
  induction n as [|n IHn]; [done | simpl; by rewrite IHn].
Qed.

Lemma epochs_calls (train_loader val_loader : option DataLoader)
    (loss_fun : Tensor -> Tensor -> Tensor) (logger run : option string)
    (epochs : list Z) :
  forall (l l' : Locals) (w w' : World),
    for_each epochs (epoch_body train_loader val_loader loss_fun logger run) l w
    = (w', Ok l') ->
    adds_calls
      (concat (replicate (length epochs)
                 (epoch_calls (w_grad_enabled w) logger run
                    (batch_count train_loader) (batch_count val_loader))))
      w w'.
Proof.
  induction epochs as [|epoch epochs IH]; intros l l' w w' Hrun; simpl in Hrun.
  - injection Hrun as <- _. apply adds_calls_nil.
  - apply bind_ok_inv in Hrun as (w2 & l2 & Hepoch & Hrun).
    unfold epoch_body in Hepoch.
    apply bind_ok_inv in Hepoch as (w1 & l1 & Htrain & Hval).
    apply train_pass_calls in Htrain. apply validation_pass_calls in Hval.
    apply IH in Hrun.
    pose proof (adds_calls_trans _ _ _ _ _ Htrain Hval) as Hone.
    destruct Hone as [E G]. rewrite G in Hrun.
    change (length (epoch :: epochs)) with (S (length epochs)).
    change (concat (replicate (S ?n) ?x)) with (x ++ concat (replicate n x)).
    apply (adds_calls_trans _ _ w w2 w'); [|done]. split; [|done].
    rewrite E. unfold epoch_calls. by rewrite <- app_assoc.
Qed.

Lemma resolve_save_path_fs_only (save_ckpt_path : option string)
    (num_epochs : Z) (augment : bool) :
  preserves touches_fs_only
    (resolve_save_path save_ckpt_path num_epochs augment).
Proof.
  destruct save_ckpt_path as [path|]; simpl; [apply preserves_ret; apply _|].
  apply preserves_bind; [apply _ | apply preserves_gets; apply _ |]. intros m.
  apply preserves_bind; [apply _ | apply preserves_gets; apply _ |]. intros o.
  apply preserves_bind; [apply _ | apply preserves_lift; apply _ |].
  intros folder.
  apply preserves_bind; [apply _ | apply run_uniquify_fs_only |].
  intros folder'.
  apply preserves_bind; [apply _ | apply ensure_dir_fs_only |]. intros _.
  apply preserves_bind; [apply _ | apply ensure_dir_fs_only |]. intros _.
  apply preserves_ret; apply _.
Qed.

Lemma save_checkpoint_fs_only (num_epochs : Z) (l : Locals) (path : string) :
  preserves touches_fs_only (save_checkpoint num_epochs l path).
Proof.
  unfold save_checkpoint.
  apply preserves_bind; [apply _ | apply preserves_gets; apply _ |]. intros m.
  apply preserves_bind; [apply _ | apply preserves_gets; apply _ |]. intros o.
  do 6 (apply preserves_bind; [apply _ | apply preserves_lift; apply _ |];
        intros ?).
  apply preserves_bind; [apply _ | | intros _; apply preserves_ret; apply _].
  intros w. by destruct w.
Qed.

(** X1. The framework calls of a call of [train] that returns: for each of
    the [num_epochs] epochs, per training batch a zero-grad, a forward
    pass, a backward pass and an optimizer step, with the three appends to
    the run at batches 0, 100, 200, ... when a run is attached; then one
    scheduler step; then one forward pass without gradients per
    validation batch.  Loading, path synthesis and saving call nothing. *)
Theorem train_calls (train_loader val_loader : option DataLoader)
    (loss_fun : Tensor -> Tensor -> Tensor) (num_epochs num_classes : Z)
    (device : string) (augment : bool)
    (save_ckpt_path load_ckpt_path : option string)
    (logger run : option string) (w w' : World) (metrics : EpochMetrics) :
  train train_loader val_loader loss_fun num_epochs num_classes device augment
        save_ckpt_path load_ckpt_path logger run w = (w', Ok metrics) ->
  map call_of (w_events w')
  = map call_of (w_events w)
    ++ concat (replicate (Z.to_nat num_epochs)
                 (epoch_calls (w_grad_enabled w) logger run
                    (batch_count train_loader) (batch_count val_loader))).
Proof.
  unfold train. intros Hrun.
  apply bind_ok_inv in Hrun as (wa & [] & Hprep & Hrun).
  destruct (prepare_model_run w) as (w0 & Hprep' & _ & _ & _ & He0 & Hg0).
  rewrite Hprep' in Hprep. injection Hprep as ->.
  apply bind_ok_inv in Hrun as (wb & [] & Hload & Hrun).
  pose proof (start_from_checkpoint_frame load_ckpt_path wa) as Hframe.
  rewrite Hload in Hframe. simpl in Hframe.
  apply bind_ok_inv in Hrun as (wc & l & Hepochs & Hrun).
  unfold run_epochs in Hepochs. apply epochs_calls in Hepochs.
  apply bind_ok_inv in Hrun as (wd & path & Hpath & Hsave).
  pose proof (resolve_save_path_fs_only save_ckpt_path num_epochs augment wc)
    as Hp. rewrite Hpath in Hp. simpl in Hp.
  pose proof (save_checkpoint_fs_only num_epochs l path wd) as Hs.
  rewrite Hsave in Hs. simpl in Hs.
  destruct Hepochs as [E G]. rewrite Hs, Hp. simpl. rewrite E.
  rewrite Hframe. simpl. rewrite He0, Hg0. f_equal. f_equal. f_equal.
  unfold range. by rewrite length_fmap, length_seq.
Qed.

End CallFacts.

(** ** Where [test] writes its tables *)

Section SplitFacts.

Lemma rev_app_rev_app (s cur t : string) :
  String.rev_app (String.rev_app s cur) t = String.rev_app cur (s +:+ t).
Proof.
  revert cur t. induction s as [|a s IH]; intros cur t; [done|].
  simpl. by rewrite IH.
Qed.

Lemma rev_rev_app (s : string) : String.rev (String.rev_app s "") = s.
Proof.
  unfold String.rev. rewrite rev_app_rev_app. simpl. apply string_app_nil_r.
Qed.

(** Splitting stops collecting the first piece at the first separator. *)
Lemma split_go_first (c : ascii) (stem rest cur : string) :
  PyStr.forallb_string (fun a => negb (Ascii.eqb a c)) stem = true ->
  PyStr.split_go c cur (stem +:+ String c rest)
  = String.rev (String.rev_app stem cur) :: PyStr.split_go c "" rest.
Proof.
  revert cur. induction stem as [|a stem IH]; intros cur Hstem.
  - simpl. by rewrite Ascii.eqb_refl.
  - simpl in Hstem. apply andb_prop in Hstem as [Ha Hstem].
    rewrite string_app_cons. simpl.
    destruct (Ascii.eqb a c); [done|]. by apply IH.
Qed.

Lemma split_go_whole (c : ascii) (s cur : string) :
  PyStr.forallb_string (fun a => negb (Ascii.eqb a c)) s = true ->
  PyStr.split_go c cur s = [String.rev (String.rev_app s cur)].
Proof.
  revert cur. induction s as [|a s IH]; intros cur Hs; [done|].
  simpl in Hs. apply andb_prop in Hs as [Ha Hs]. simpl.
  destruct (Ascii.eqb a c); [done|]. by apply IH.
Qed.

Lemma split_go_head (c : ascii) (s cur : string) :
  is_Some (PyStr.split_go c cur s !! 0%nat).
Proof.
  revert cur. induction s as [|a s IH]; intros cur; simpl; [by eexists|].
  destruct (Ascii.eqb a c); [by eexists | apply IH].
Qed.

Lemma split_first (c : ascii) (stem rest : string) :
  PyStr.forallb_string (fun a => negb (Ascii.eqb a c)) stem = true ->
  PyStr.split c (stem +:+ String c rest) !! 0%nat = Some stem.
Proof.
  intros Hstem. unfold PyStr.split. rewrite split_go_first by done.
  simpl. by rewrite rev_rev_app.
Qed.

Lemma split_whole (c : ascii) (s : string) :
  PyStr.forallb_string (fun a => negb (Ascii.eqb a c)) s = true ->
  PyStr.split c s = [s].
Proof.
  intros Hs. unfold PyStr.split. rewrite split_go_whole by done.
  by rewrite rev_rev_app.
Qed.

Lemma string_app_inj_l (s t1 t2 : string) : s +:+ t1 = s +:+ t2 -> t1 = t2.
Proof.
  induction s as [|a s IH]; [done|]. rewrite !string_app_cons.
  intros [= H]. by apply IH.
Qed.

End SplitFacts.

Section TestFacts.
Context `{FW : Framework}.

#[local] Existing Instance touches_fs_only_preorder.

(** X2. The two tables of a test run from a checkpoint are named after
    the checkpoint path cut at its first dot, wherever that dot is: in the
    file name or in a folder name before it.  A path without a dot is
    kept whole. *)
Theorem beside_checkpoint_first_dot (stem rest suffix : string) :
  no_dot stem = true ->
  beside_checkpoint (stem +:+ "." +:+ rest) suffix = Ok (stem +:+ suffix) /\
  beside_checkpoint stem suffix = Ok (stem +:+ suffix).
Proof.
  intros Hstem. unfold beside_checkpoint, index_. split.
  - change ("." +:+ rest) with (String "."%char rest).
    by rewrite (split_first "." stem rest Hstem).
  - by rewrite (split_whole "." stem Hstem).
Qed.

Lemma beside_checkpoint_returns (path suffix : string) :
  exists stem,
    PyStr.split "." path !! 0%nat = Some stem /\
    beside_checkpoint path suffix = Ok (stem +:+ suffix).
Proof.
  destruct (split_go_head "." path "") as [stem Hstem].
  exists stem. split; [done|]. unfold beside_checkpoint, index_.
  unfold PyStr.split. by rewrite Hstem.
Qed.

Lemma resolve_csv_paths_given (path : string) (w : World) :
  exists stem,
    PyStr.split "." path !! 0%nat = Some stem /\
    resolve_csv_paths (Some path) w
    = (w, Ok (stem +:+ "_outputs.csv", stem +:+ "_metrics.csv")).
Proof.
  destruct (beside_checkpoint_returns path "_outputs.csv") as (stem & Hs & Ho).
  destruct (beside_checkpoint_returns path "_metrics.csv") as (stem' & Hs' & Hm).
  assert (stem' = stem) as -> by congruence.
  exists stem. split; [done|]. unfold resolve_csv_paths.
  rewrite bind_run. unfold lift at 1. rewrite Ho. simpl.
  rewrite bind_run. unfold lift at 1. rewrite Hm. done.
Qed.

(** The test loop on a loader: it returns, after one forward pass per
    batch with gradients off, with the labels of the batches in order. *)
Lemma test_pass_run (d : DataLoader) (loss_fun : Tensor -> Tensor -> Tensor)
    (num_classes : Z) (dropout : bool) (w : World) :
  exists w1 r preds,
    test_pass (Some d) loss_fun num_classes dropout w
    = (w1, Ok (r, (preds, flat_map (fun b => tolist (snd b)) (batches d)))) /\
    length (loss_arr r) = length (batches d) /\
    w_fs w1 = w_fs w /\ w_optimizer w1 = w_optimizer w /\
    w_scheduler w1 = w_scheduler w /\ w_grad_enabled w1 = w_grad_enabled w /\
    w_events w1
    = w_events w ++ replicate (length (batches d)) (EvForward false).
Proof.
  unfold test_pass. rewrite bind_run. simpl.
  set (w0 := with_model (set_training false (w_model w)) w).
  rewrite bind_run.
  set (wd := fst ((if dropout
                   then modify (fun w => with_model (enable_dropout (w_model w)) w)
                   else mret tt) w0)).
  assert ((if dropout
           then modify (fun w => with_model (enable_dropout (w_model w)) w)
           else mret tt) w0 = (wd, Ok tt)) as ->.
  { unfold wd. by destruct dropout. }
  assert (w_fs wd = w_fs w /\ w_optimizer wd = w_optimizer w /\
          w_scheduler wd = w_scheduler w /\
          w_grad_enabled wd = w_grad_enabled w /\ w_events wd = w_events w)
    as (Hf & Ho & Hs & Hg & He).
  { unfold wd. by destruct dropout. }
  clearbody wd. unfold no_grad. rewrite bind_run. simpl.
  set (w2 := with_grad_enabled false wd).
  destruct (test_steps_run loss_fun (batches d)
              (mkRunning [] (metric_reset (MulticlassAUROC num_classes))
                         (metric_reset MulticlassAccuracy)) [] [] w2)
    as (w3 & r & preds & Hrun & Hlen & He3 & Hg3).
  rewrite Hrun. exists (with_grad_enabled (w_grad_enabled wd) w3), r, preds.
  split; [done|]. split; [exact Hlen|]. simpl.
  assert (touches_events : w_fs w3 = w_fs w2 /\ w_optimizer w3 = w_optimizer w2
                           /\ w_scheduler w3 = w_scheduler w2).
  { assert (preserves evaluates_only
              (for_each (batches d) (test_step loss_fun)
                 (mkRunning [] (metric_reset (MulticlassAUROC num_classes))
                            (metric_reset MulticlassAccuracy), ([], [])))) as Hp.
    { apply preserves_for_each; [apply _|]. intros a s.
      apply test_step_evaluates. }
    specialize (Hp w2). rewrite Hrun in Hp.
    by destruct Hp as (_ & Ho3 & Hs3 & Hf3 & _). }
  destruct touches_events as (Hf3 & Ho3 & Hs3).
  rewrite Hf3, Ho3, Hs3, He3. unfold w2. simpl. by rewrite Hf, Ho, Hs, Hg, He.
Qed.

Lemma test_pass_none (loss_fun : Tensor -> Tensor -> Tensor)
    (num_classes : Z) (dropout : bool) (w : World) :
  exists w1,
    test_pass None loss_fun num_classes dropout w = (w1, Raise TypeError) /\
    w_fs w1 = w_fs w /\ w_optimizer w1 = w_optimizer w /\
    w_scheduler w1 = w_scheduler w /\ w_grad_enabled w1 = w_grad_enabled w /\
    w_events w1 = w_events w.
Proof.
  unfold test_pass. rewrite bind_run. simpl. rewrite bind_run.
  destruct dropout; simpl; by eexists.
Qed.

Lemma first_image_size_fs_only (test_loader : option DataLoader) :
  preserves touches_fs_only (first_image_size test_loader).
Proof.
  unfold first_image_size.
  apply preserves_bind; [apply _ | apply preserves_iterate; apply _ |].
  intros [|[inputs labels] bs]; [apply preserves_raise | apply preserves_ret];
    apply _.
Qed.

(** What [test] does after the analyzer has run touches the file system
    only. *)
Lemma test_write_fs_only (load_ckpt_path : option string) (r : Running)
    (preds labs : list Z) (macs : Z) :
  preserves touches_fs_only
    (m ← gets w_model;
     paths ← resolve_csv_paths load_ckpt_path;
     _ ← to_csv (CsvOutputs preds labs) (fst paths);
     _ ← to_csv (CsvMetrics (cls m) (gflops_of_macs macs)
                   (np_average (loss_arr r))
                   (metric_compute (r_accuracy r))
                   (metric_compute (r_auc r))) (snd paths);
     mret (mkTestResult (gflops_of_macs macs)
             (np_average (loss_arr r))
             (metric_compute (r_accuracy r))
             (metric_compute (r_auc r)))).
Proof.
  apply preserves_bind; [apply _ | apply preserves_gets; apply _ |]. intros m.
  apply preserves_bind; [apply _ | apply resolve_csv_paths_fs_only |].
  intros paths.
  apply preserves_bind; [apply _ | apply to_csv_fs_only |]. intros _.
  apply preserves_bind; [apply _ | apply to_csv_fs_only |]. intros _.
  apply preserves_ret; apply _.
Qed.

(** What [test] does after its loop: the image size is read off the
    first batch, the analyzer runs the model once, and the rest touches
    the file system only. *)
Lemma test_tail_run (d : DataLoader) (load_ckpt_path : option string)
    (r : Running) (preds labs : list Z) (w1 : World) :
  (batches d = [] /\
   (image_size ← first_image_size (Some d);
    macs ← get_model_complexity_info image_size;
    m ← gets w_model;
    paths ← resolve_csv_paths load_ckpt_path;
    _ ← to_csv (CsvOutputs preds labs) (fst paths);
    _ ← to_csv (CsvMetrics (cls m) (gflops_of_macs macs)
                  (np_average (loss_arr r))
                  (metric_compute (r_accuracy r))
                  (metric_compute (r_auc r))) (snd paths);
    mret (mkTestResult (gflops_of_macs macs)
            (np_average (loss_arr r))
            (metric_compute (r_accuracy r))
            (metric_compute (r_auc r)))) w1
   = (w1, Raise StopIteration)) \/
  (exists m',
      touches_fs_only
        (with_event (EvForward (w_grad_enabled w1)) (with_model m' w1))
        (fst ((image_size ← first_image_size (Some d);
               macs ← get_model_complexity_info image_size;
               m ← gets w_model;
               paths ← resolve_csv_paths load_ckpt_path;
               _ ← to_csv (CsvOutputs preds labs) (fst paths);
               _ ← to_csv (CsvMetrics (cls m) (gflops_of_macs macs)
                             (np_average (loss_arr r))
                             (metric_compute (r_accuracy r))
                             (metric_compute (r_auc r))) (snd paths);
               mret (mkTestResult (gflops_of_macs macs)
                       (np_average (loss_arr r))
                       (metric_compute (r_accuracy r))
                       (metric_compute (r_auc r)))) w1))).
Proof.
  rewrite !bind_run. unfold first_image_size. rewrite !bind_run. simpl iterate.
  change ((mret (batches d) : M _) w1) with (w1, Ok (batches d)).
  cbv beta iota.
  destruct (batches d) as [|[inputs labels] bs]; [by left|]. right.
  change ((mret (tail (shape inputs)) : M _) w1)
    with (w1, Ok (tail (shape inputs))).
  cbv beta iota. rewrite bind_run.
  destruct (get_model_complexity_info_run (tail (shape inputs)) w1)
    as (m' & -> & _ & _).
  exists m'. cbv beta iota.
  apply (test_write_fs_only load_ckpt_path r preds labs).
Qed.

(** X3. [test] never trains: whatever its outcome, the optimizer and the
    scheduler are as before and the gradient mode is restored.  The only
    framework calls are forward passes: at most one per batch of the
    loader, with gradients off, and after them at most one more, which
    the complexity analyzer makes in the gradient mode of the caller.  A
    run that returns made one per batch and the one of the analyzer. *)
Theorem test_calls (test_loader : option DataLoader)
    (loss_fun : Tensor -> Tensor -> Tensor) (num_classes : Z)
    (device : string) (dropout : bool) (load_ckpt_path : option string)
    (w : World) :
  let out :=
    test test_loader loss_fun num_classes device dropout load_ckpt_path w in
  w_optimizer (fst out) = w_optimizer w /\
  w_scheduler (fst out) = w_scheduler w /\
  w_grad_enabled (fst out) = w_grad_enabled w /\
  exists (k : nat) (analysis : list Event),
    w_events (fst out)
    = w_events w ++ replicate k (EvForward false) ++ analysis /\
    (k <= batch_count test_loader)%nat /\
    (analysis = [] \/
     k = batch_count test_loader /\
     analysis = [EvForward (w_grad_enabled w)]) /\
    (forall res,
        snd out = Ok res ->
        k = batch_count test_loader /\
        analysis = [EvForward (w_grad_enabled w)]).
Proof.
  intros out. unfold out, test. clear out. rewrite bind_run.
  pose proof (start_from_checkpoint_frame load_ckpt_path w) as Hframe.
  destruct (start_from_checkpoint load_ckpt_path w) as [wa [[]|e]];
    simpl in Hframe.
  2:{ rewrite Hframe. simpl. repeat split. exists 0%nat, [].
      rewrite !app_nil_r. split; [done|]. split; [lia|].
      split; [by left | done]. }
  rewrite bind_run. destruct test_loader as [d|].
  2:{ destruct (test_pass_none loss_fun num_classes dropout wa)
        as (w1 & -> & Hf & Ho & Hs & Hg & He).
      simpl. rewrite Ho, Hs, Hg, He, Hframe. simpl. repeat split.
      exists 0%nat, []. rewrite !app_nil_r. split; [done|]. split; [lia|].
      split; [by left | done]. }
  destruct (test_pass_run d loss_fun num_classes dropout wa)
    as (w1 & r & preds & -> & Hlen & Hf & Ho & Hs & Hg & He).
  cbv beta iota.
  destruct (test_tail_run d load_ckpt_path r preds
              (flat_map (fun b => tolist (snd b)) (batches d)) w1)
    as [[Hnone Htail]|[m' Htail]].
  - match goal with |- context [fst ?run] =>
      change (run = (w1, Raise StopIteration)) in Htail end.
    rewrite Htail. simpl. rewrite Ho, Hs, Hg, He, Hframe. simpl.
    repeat split. exists (length (batches d)), [].
    rewrite app_nil_r. split; [done|]. split; [done|].
    split; [by left | done].
  - match goal with |- context [fst ?run] =>
      change (touches_fs_only
                (with_event (EvForward (w_grad_enabled w1)) (with_model m' w1))
                (fst run)) in Htail;
      set (out := run) in * end.
    rewrite Htail. simpl. rewrite Ho, Hs, Hg, He, Hframe. simpl.
    repeat split.
    exists (length (batches d)), [EvForward (w_grad_enabled w)].
    split; [by rewrite <- app_assoc|]. split; [done|].
    split; [by right | done].
Qed.

End TestFacts.

Section Tables.
Context `{FW : Framework}.

#[local] Existing Instance touches_fs_only_preorder.

Lemma uniquify_free (fs : gmap string (Node FileContent)) (path r : string) :
  uniquify fs path = Some r -> fs !! r = None.
Proof.
  unfold uniquify, uniquify_fuel.
  destruct (OsPath.splitext path) as [filename extension]. intros Hr.
  apply uniquify_loop_sound in Hr as [Hfree _].
  apply exists_false in Hfree. by apply not_elem_of_dom.
Qed.

Lemma run_uniquify_inv (path r : string) (w w' : World) :
  run_uniquify path w = (w', Ok r) ->
  w' = w /\ uniquify (w_fs w) path = Some r.
Proof.
  unfold run_uniquify. rewrite bind_run. simpl.
  destruct (uniquify (w_fs w) path); [|done]. by intros [= <- <-].
Qed.

Lemma keeps_existing_refl (w : World) : keeps_existing w w.
Proof. by intros path. Qed.

Lemma keeps_existing_trans (w1 w2 w3 : World) :
  keeps_existing w1 w2 -> keeps_existing w2 w3 -> keeps_existing w1 w3.
Proof.
  intros H12 H23 path Hpath. rewrite <- (H12 path Hpath).
  apply H23. by rewrite (H12 path Hpath).
Qed.

Lemma ensure_dir_run (path : string) (w : World) :
  exists w',
    ensure_dir path w = (w', Ok tt) /\ touches_fs_only w w' /\
    keeps_existing w w' /\ is_Some (w_fs w' !! path) /\
    (w_fs w !! path = None -> w_fs w' !! path = Some Dir).
Proof.
  unfold ensure_dir, modify. destruct (exists_ (w_fs w) path) eqn:Hex.
  - exists w. split; [done|]. split; [by destruct w|].
    split; [apply keeps_existing_refl|].
    apply exists_true, elem_of_dom in Hex. split; [done|].
    intros Hnone. rewrite Hnone in Hex. by destruct Hex.
  - exists (with_fs (makedirs path (w_fs w)) w).
    split; [done|]. split; [done|].
    apply exists_false, not_elem_of_dom in Hex. unfold makedirs.
    split; [|split].
    + intros p [x Hp]. simpl. rewrite lookup_insert_ne; [done|]. congruence.
    + simpl. rewrite lookup_insert_eq. by eexists.
    + intros _. simpl. by rewrite lookup_insert_eq.
Qed.

(** What a returning [test] has done, step by step. *)
Lemma test_inv (test_loader : option DataLoader)
    (loss_fun : Tensor -> Tensor -> Tensor) (num_classes : Z)
    (device : string) (dropout : bool) (load_ckpt_path : option string)
    (w w' : World) (res : TestResult) :
  test test_loader loss_fun num_classes device dropout load_ckpt_path w
  = (w', Ok res) ->
  exists d w1 we preds paths,
    test_loader = Some d /\
    w_fs w1 = w_fs w /\
    resolve_csv_paths load_ckpt_path w1 = (we, Ok paths) /\
    w' = with_fs
           (<[snd paths :=
                File (CsvMetrics (cls (w_model w1)) (gflops res) (test_loss res)
                        (test_acc res) (test_auc res))]>
              (<[fst paths :=
                   File (CsvOutputs preds
                           (flat_map (fun b => tolist (snd b)) (batches d)))]>
                 (w_fs we))) w1.
Proof.
  unfold test. intros Hrun.
  apply bind_ok_inv in Hrun as (wa & [] & Hload & Hrun).
  pose proof (start_from_checkpoint_frame load_ckpt_path w) as Hframe.
  rewrite Hload in Hframe. simpl in Hframe.
  apply bind_ok_inv in Hrun as (wb & [r [preds labs]] & Hpass & Hrun).
  destruct test_loader as [d|].
  2:{ destruct (test_pass_none loss_fun num_classes dropout wa) as (? & E & _).
      rewrite E in Hpass. done. }
  destruct (test_pass_run d loss_fun num_classes dropout wa)
    as (w1' & r' & preds' & E & _ & Hf & _).
  rewrite E in Hpass. injection Hpass as -> -> -> <-.
  apply bind_ok_inv in Hrun as (wc & image_size & Hsize & Hrun).
  apply first_image_size_inv in Hsize as (-> & _).
  apply bind_ok_inv in Hrun as (w1 & macs & Hmacs & Hrun).
  destruct (get_model_complexity_info_run image_size wb) as (m' & Hinfo & _).
  rewrite Hinfo in Hmacs. injection Hmacs as <- <-.
  set (w1 := with_event _ _) in *.
  apply bind_ok_inv in Hrun as (wd & m & [= <- <-] & Hrun).
  apply bind_ok_inv in Hrun as (we & paths & Hpaths & Hrun).
  apply bind_ok_inv in Hrun as (wf & [] & [= <-] & Hrun).
  injection Hrun as <- <-.
  exists d, w1, we, preds, paths. split; [done|].
  split; [unfold w1; simpl; by rewrite Hf, Hframe|]. split; [exact Hpaths|].
  pose proof (resolve_csv_paths_fs_only load_ckpt_path w1) as Hfs.
  rewrite Hpaths in Hfs. simpl in Hfs. rewrite Hfs. done.
Qed.

(** X4. A test run from a checkpoint that returns has written its two
    tables beside the checkpoint, at the path cut at its first dot with
    [_outputs.csv] and [_metrics.csv] appended, over whatever was there,
    and has changed nothing else in the file system.  The outputs table
    holds the labels of the batches in the order of the loader; the
    metrics table holds the class name of the model and the four values
    that are returned. *)
Theorem test_tables_beside_checkpoint (test_loader : option DataLoader)
    (loss_fun : Tensor -> Tensor -> Tensor) (num_classes : Z)
    (device : string) (dropout : bool) (path : string)
    (w w' : World) (res : TestResult) :
  test test_loader loss_fun num_classes device dropout (Some path) w
  = (w', Ok res) ->
  exists d stem preds,
    test_loader = Some d /\
    PyStr.split "." path !! 0%nat = Some stem /\
    w_fs w'
    = <[stem +:+ "_metrics.csv" :=
          File (CsvMetrics (cls (w_model w')) (gflops res) (test_loss res)
                  (test_acc res) (test_auc res))]>
        (<[stem +:+ "_outputs.csv" :=
             File (CsvOutputs preds
                     (flat_map (fun b => tolist (snd b)) (batches d)))]>
           (w_fs w)).
Proof.
  intros Hrun.
  apply test_inv in Hrun as (d & w1 & we & preds & paths & -> & Hf & Hp & ->).
  destruct (resolve_csv_paths_given path w1) as (stem & Hstem & Hpaths).
  rewrite Hpaths in Hp. injection Hp as <- <-.
  exists d, stem, preds. split; [done|]. split; [done|]. simpl.
  by rewrite Hf.
Qed.

(** X5. A test run without a checkpoint never overwrites: whatever its
    outcome, every entry of the file system that was there is there
    unchanged.  When it returns, the metrics table is at a path that was
    free, under [models/<class name>], and so is the outputs table. *)
Theorem test_tables_fresh (test_loader : option DataLoader)
    (loss_fun : Tensor -> Tensor -> Tensor) (num_classes : Z)
    (device : string) (dropout : bool) (w : World) :
  let out := test test_loader loss_fun num_classes device dropout None w in
  keeps_existing w (fst out) /\
  forall res,
    snd out = Ok res ->
    exists d preds save_outputs_path save_metrics_path,
      test_loader = Some d /\
      uniquify (w_fs w)
        (OsPath.join (OsPath.join "models" (cls (w_model (fst out))))
                     (cls (w_model (fst out)) +:+ "_outputs.csv"))
      = Some save_outputs_path /\
      uniquify (w_fs w)
        (OsPath.join (OsPath.join "models" (cls (w_model (fst out))))
                     (cls (w_model (fst out)) +:+ "_metrics.csv"))
      = Some save_metrics_path /\
      w_fs w !! save_outputs_path = None /\
      w_fs w !! save_metrics_path = None /\
      w_fs (fst out) !! save_metrics_path
      = Some (File (CsvMetrics (cls (w_model (fst out))) (gflops res)
                      (test_loss res) (test_acc res) (test_auc res))) /\
      (save_outputs_path <> save_metrics_path ->
       w_fs (fst out) !! save_outputs_path
       = Some (File (CsvOutputs preds
                       (flat_map (fun b => tolist (snd b)) (batches d))))) /\
      is_Some (w_fs (fst out) !! "models") /\
      is_Some (w_fs (fst out)
               !! OsPath.join "models" (cls (w_model (fst out)))).
Proof.
  intros out.
  assert (forall w1 we paths,
             w_fs w1 = w_fs w ->
             resolve_csv_paths None w1 = (we, Ok paths) ->
             keeps_existing w we /\
             uniquify (w_fs w)
               (OsPath.join (OsPath.join "models" (cls (w_model w1)))
                            (cls (w_model w1) +:+ "_outputs.csv"))
             = Some (fst paths) /\
             uniquify (w_fs w)
               (OsPath.join (OsPath.join "models" (cls (w_model w1)))
                            (cls (w_model w1) +:+ "_metrics.csv"))
             = Some (snd paths) /\
             is_Some (w_fs we !! "models") /\
             is_Some (w_fs we !! OsPath.join "models" (cls (w_model w1))))
    as Hresolve.
  { intros w1 we paths Hf Hp. unfold resolve_csv_paths in Hp.
    apply bind_ok_inv in Hp as (? & m & [= <- <-] & Hp).
    apply bind_ok_inv in Hp as (? & po & Hpo & Hp).
    apply run_uniquify_inv in Hpo as [-> Hpo].
    apply bind_ok_inv in Hp as (? & pm & Hpm & Hp).
    apply run_uniquify_inv in Hpm as [-> Hpm].
    apply bind_ok_inv in Hp as (w2 & [] & Hd1 & Hp).
    apply bind_ok_inv in Hp as (w3 & [] & Hd2 & Hp).
    injection Hp as <- <-.
    destruct (ensure_dir_run "models" w1) as (? & E1 & _ & K1 & S1 & _).
    rewrite E1 in Hd1. injection Hd1 as ->.
    destruct (ensure_dir_run (OsPath.join "models" (cls (w_model w1))) w2)
      as (? & E2 & _ & K2 & S2 & _).
    rewrite E2 in Hd2. injection Hd2 as ->.
    rewrite Hf in Hpo, Hpm. simpl.
    split; [|split; [done|split; [done|split; [|done]]]].
    - intros p Hp. rewrite <- Hf in Hp |- *.
      exact (keeps_existing_trans _ _ _ K1 K2 p Hp).
    - destruct S1 as [x Hx]. rewrite (K2 "models"); by eexists. }
  split.
  - unfold out, test. set (rc := resolve_csv_paths None).
    rewrite bind_run. simpl. rewrite bind_run.
    destruct test_loader as [d|].
    2:{ destruct (test_pass_none loss_fun num_classes dropout w)
          as (w1 & -> & Hf & _). simpl. intros p _. by rewrite Hf. }
    destruct (test_pass_run d loss_fun num_classes dropout w)
      as (w1 & r & preds & -> & _ & Hf & _).
    rewrite bind_run. unfold first_image_size. rewrite bind_run. simpl.
    destruct (batches d) as [|[inputs labels] bs]; simpl.
    { intros p _. by rewrite Hf. }
    rewrite bind_run.
    destruct (get_model_complexity_info_run (tail (shape inputs)) w1)
      as (m' & -> & _).
    cbv beta iota. set (wi := with_event _ _).
    assert (w_fs wi = w_fs w) as Hfi by exact Hf.
    clearbody wi.
    rewrite bind_run. simpl. rewrite bind_run. unfold rc.
    destruct (resolve_csv_paths None wi) as [we [paths|e]] eqn:Hp.
    2:{ exfalso. unfold resolve_csv_paths in Hp. rewrite bind_run in Hp.
        simpl in Hp. rewrite bind_run in Hp.
        edestruct run_uniquify_run as [po ->] in Hp. simpl in Hp.
        rewrite bind_run in Hp.
        edestruct run_uniquify_run as [pm ->] in Hp. simpl in Hp.
        rewrite bind_run in Hp.
        edestruct (ensure_dir_run "models" wi) as (w2 & -> & _) in Hp.
        simpl in Hp. rewrite bind_run in Hp.
        edestruct (ensure_dir_run (OsPath.join "models" (cls (w_model wi))) w2)
          as (w3 & -> & _) in Hp.
        done. }
    destruct (Hresolve wi we paths Hfi Hp) as (K & Ho & Hm & _).
    simpl. intros p Hex. rewrite <- (K p Hex). simpl.
    apply uniquify_free in Ho, Hm.
    rewrite !lookup_insert_ne; [done | |]; intros <-.
    + rewrite Ho in Hex. by destruct Hex.
    + rewrite Hm in Hex. by destruct Hex.
  - intros res Hres. unfold out in *. clear out.
    apply (run_outcome _ _ _) in Hres.
    set (w' := fst (test test_loader loss_fun num_classes device dropout None w))
      in *.
    clearbody w'.
    apply test_inv in Hres as (d & w1 & we & preds & paths & -> & Hf & Hp & ->).
    destruct (Hresolve w1 we paths Hf Hp) as (K & Ho & Hm & S1 & S2).
    exists d, preds, (fst paths), (snd paths). simpl.
    split; [done|]. split; [done|]. split; [done|].
    pose proof (uniquify_free _ _ _ Ho) as Fo.
    pose proof (uniquify_free _ _ _ Hm) as Fm.
    split; [done|]. split; [done|].
    split; [by rewrite lookup_insert_eq|]. split.
    + intros Hne. rewrite lookup_insert_ne by done.
      by rewrite lookup_insert_eq.
    + assert (forall p, is_Some (w_fs we !! p) ->
                        is_Some (<[snd paths := File (CsvMetrics (cls (w_model w1)) (gflops res) (test_loss res) (test_acc res) (test_auc res))]>
                                   (<[fst paths := File (CsvOutputs preds (flat_map (fun b => tolist (snd b)) (batches d)))]> (w_fs we)) !! p)) as Hkeep.
      { intros p Hsome. rewrite !lookup_insert_is_Some'. tauto. }
      split; by apply Hkeep.
Qed.

End Tables.

(** ** What [train] leaves in the file system *)

Section Saving.
Context `{FW : Framework}.

Lemma keeps_fs_preorder : PreOrder keeps_fs.
Proof.
  split.
  - by intros w.
  - intros w1 w2 w3 H12 H23. unfold keeps_fs in *. congruence.
Qed.
#[local] Existing Instance keeps_fs_preorder.

Lemma train_step_keeps_fs (loss_fun : Tensor -> Tensor -> Tensor)
    (logger run : option string) (batch : Tensor * Tensor) (s : Running * Z) :
  preserves keeps_fs (train_step loss_fun logger run batch s).
Proof.
  destruct batch as [inputs labels], s as [r i]. unfold train_step.
  apply preserves_bind; [apply _ | by intros w |]. intros _.
  apply preserves_bind; [apply _ | |].
  { intros w. unfold call_model. by destruct (forward _ _). }
  intros outputs.
  apply preserves_bind; [apply _ | by intros w |]. intros _.
  apply preserves_bind; [apply _ | |].
  { intros w. unfold optimizer_step. by destruct (opt_step _ _). }
  intros _.
  apply preserves_bind; [apply _ | | intros _; apply preserves_ret; apply _].
  destruct ((i `mod` 100 =? 0) && bool_decide (is_Some run));
    [|apply preserves_ret; apply _].
  destruct logger as [namespace|]; [|by intros w].
  by intros w.
Qed.

Lemma eval_step_keeps_fs (loss_fun : Tensor -> Tensor -> Tensor)
    (batch : Tensor * Tensor) (r : Running) :
  preserves keeps_fs (eval_step loss_fun batch r).
Proof. intros w. by rewrite eval_step_run. Qed.

Lemma no_grad_keeps_fs {A : Type} (body : M A) :
  preserves keeps_fs body -> preserves keeps_fs (no_grad body).
Proof.
  intros Hbody w. unfold no_grad. specialize (Hbody (with_grad_enabled false w)).
  by destruct (body (with_grad_enabled false w)).
Qed.

Lemma epoch_body_keeps_fs (train_loader val_loader : option DataLoader)
    (loss_fun : Tensor -> Tensor -> Tensor) (logger run : option string)
    (epoch : Z) (l : Locals) :
  preserves keeps_fs
    (epoch_body train_loader val_loader loss_fun logger run epoch l).
Proof.
  unfold epoch_body, train_pass, validation_pass.
  apply preserves_bind; [apply _ | | intros l1].
  - apply preserves_bind; [apply _ | by intros w |]. intros _.
    apply preserves_bind; [apply _ | apply preserves_iterate; apply _ |].
    intros bs.
    apply preserves_bind; [apply _ | |].
    { apply preserves_for_each; [apply _|]. intros a s.
      apply train_step_keeps_fs. }
    intros s.
    apply preserves_bind; [apply _ | | intros _; apply preserves_ret; apply _].
    intros w. unfold scheduler_step. by destruct (sched_step _ _).
  - apply preserves_bind; [apply _ | by intros w |]. intros _.
    apply preserves_bind; [apply _ | | intros r; apply preserves_ret; apply _].
    apply no_grad_keeps_fs.
    apply preserves_bind; [apply _ | apply preserves_iterate; apply _ |].
    intros bs. apply preserves_for_each; [apply _|]. intros a s.
    apply eval_step_keeps_fs.
Qed.

(** Everything [train] does before it resolves the save path keeps the
    file system. *)
Lemma train_head_keeps_fs (train_loader val_loader : option DataLoader)
    (loss_fun : Tensor -> Tensor -> Tensor) (num_epochs num_classes : Z)
    (load_ckpt_path : option string) (logger run : option string) :
  preserves keeps_fs
    (_ ← prepare_model;
     _ ← start_from_checkpoint load_ckpt_path;
     run_epochs train_loader val_loader loss_fun num_epochs num_classes
       logger run).
Proof.
  apply preserves_bind; [apply _ | |]; [|intros _].
  { intros w. by destruct (prepare_model_run w) as (w0 & -> & Hf & _). }
  apply preserves_bind; [apply _ | |]; [|intros _].
  { intros w. by rewrite start_from_checkpoint_frame. }
  unfold run_epochs. apply preserves_for_each; [apply _|]. intros a s.
  apply epoch_body_keeps_fs.
Qed.

Lemma train_assoc (train_loader val_loader : option DataLoader)
    (loss_fun : Tensor -> Tensor -> Tensor) (num_epochs num_classes : Z)
    (device : string) (augment : bool)
    (save_ckpt_path load_ckpt_path : option string)
    (logger run : option string) (w : World) :
  train train_loader val_loader loss_fun num_epochs num_classes device augment
        save_ckpt_path load_ckpt_path logger run w
  = (l ← (_ ← prepare_model;
          _ ← start_from_checkpoint load_ckpt_path;
          run_epochs train_loader val_loader loss_fun num_epochs num_classes
            logger run);
     save_ckpt_path ← resolve_save_path save_ckpt_path num_epochs augment;
     save_checkpoint num_epochs l save_ckpt_path) w.
Proof.
  unfold train. rewrite !bind_run.
  destruct (prepare_model w) as [w0 [[]|e]]; [|done]. rewrite !bind_run.
  destruct (start_from_checkpoint load_ckpt_path w0) as [w1 [[]|e]]; [|done].
  rewrite !bind_run.
  by destruct (run_epochs train_loader val_loader loss_fun num_epochs
                 num_classes logger run w1) as [w2 [l|e]].
Qed.

Lemma save_checkpoint_run (num_epochs : Z) (l : Locals) (path : string)
    (w w' : World) (metrics : EpochMetrics) :
  save_checkpoint num_epochs l path w = (w', Ok metrics) ->
  w' = with_fs
         (<[path :=
              File (Pickle
                      (list_to_map
                         [("epochs", VInt num_epochs);
                          ("model_state_dict", VStateDict (state_dict (w_model w)));
                          ("optimizer_state_dict", VOptState (w_optimizer w));
                          ("train_loss", VFloat (train_loss metrics));
                          ("train_acc", VTensor (train_acc metrics));
                          ("train_auc", VTensor (train_auc metrics));
                          ("val_loss", VFloat (val_loss metrics));
                          ("val_acc", VTensor (val_acc metrics));
                          ("val_auc", VTensor (val_auc metrics))]))]>
            (w_fs w)) w.
Proof.
  unfold save_checkpoint. do 2 (rewrite bind_run; simpl).
  destruct l as [[tl|] [ta|] [tu|] [vl|] [va|] [vu|] ? ?]; simpl;
    try (intros [= _ _]; done); try done.
  by intros [= <- <-].
Qed.

(** X6. The checkpoint of a call of [train] that returns: a dict with nine
    entries, holding the state dict of the model and the state of the
    optimizer as they are at the end, the six metrics that are returned,
    and under ["epochs"] the number of epochs of this call, also when the
    run was started from a checkpoint.  It is at the given path when one
    is given. *)
Theorem train_checkpoint_contents (train_loader val_loader : option DataLoader)
    (loss_fun : Tensor -> Tensor -> Tensor) (num_epochs num_classes : Z)
    (device : string) (augment : bool)
    (save_ckpt_path load_ckpt_path : option string)
    (logger run : option string) (w w' : World) (metrics : EpochMetrics) :
  train train_loader val_loader loss_fun num_epochs num_classes device augment
        save_ckpt_path load_ckpt_path logger run w = (w', Ok metrics) ->
  exists path,
    (forall given, save_ckpt_path = Some given ->
                   path = given /\
                   forall p, p <> given -> w_fs w' !! p = w_fs w !! p) /\
    w_fs w' !! path
    = Some (File (Pickle
                    (list_to_map
                       [("epochs", VInt num_epochs);
                        ("model_state_dict", VStateDict (state_dict (w_model w')));
                        ("optimizer_state_dict", VOptState (w_optimizer w'));
                        ("train_loss", VFloat (train_loss metrics));
                        ("train_acc", VTensor (train_acc metrics));
                        ("train_auc", VTensor (train_auc metrics));
                        ("val_loss", VFloat (val_loss metrics));
                        ("val_acc", VTensor (val_acc metrics));
                        ("val_auc", VTensor (val_auc metrics))]))).
Proof.
  rewrite train_assoc. intros Hrun.
  apply bind_ok_inv in Hrun as (wc & l & Hhead & Hrun).
  pose proof (train_head_keeps_fs train_loader val_loader loss_fun num_epochs
                num_classes load_ckpt_path logger run w) as Hfs.
  rewrite Hhead in Hfs. simpl in Hfs.
  apply bind_ok_inv in Hrun as (wd & path & Hpath & Hsave).
  apply save_checkpoint_run in Hsave as ->.
  exists path. split.
  - intros given ->. rewrite resolve_save_path_given in Hpath.
    injection Hpath as <- <-. split; [done|]. intros p Hp. simpl.
    rewrite lookup_insert_ne by done. by rewrite Hfs.
  - simpl. by rewrite lookup_insert_eq.
Qed.

Lemma synthesize_folder_inv (class_name lr_repr : string) (num_epochs : Z)
    (augment : bool) (folder : string) :
  synthesize_folder class_name lr_repr num_epochs augment = Ok folder ->
  is_Some (PyStr.split "." lr_repr !! 1%nat).
Proof.
  unfold synthesize_folder, index_.
  destruct (PyStr.split "." lr_repr !! 1%nat); [by eexists | done].
Qed.

Lemma resolve_save_path_none_inv (num_epochs : Z) (augment : bool)
    (w w' : World) (path : string) :
  resolve_save_path None num_epochs augment w = (w', Ok path) ->
  exists synthesized folder,
    synthesize_folder (cls (w_model w)) (str_float (opt_lr (w_optimizer w)))
                      num_epochs augment = Ok synthesized /\
    uniquify (w_fs w) synthesized = Some folder /\
    path = OsPath.join folder (cls (w_model w) +:+ ".pt") /\
    w' = with_fs
           (<[folder := Dir]>
              (if exists_ (w_fs w) "models" then w_fs w
               else <["models" := Dir]> (w_fs w))) w.
Proof.
  unfold resolve_save_path. intros Hrun.
  apply bind_ok_inv in Hrun as (? & m & [= <- <-] & Hrun).
  apply bind_ok_inv in Hrun as (? & o & [= <- <-] & Hrun).
  apply bind_ok_inv in Hrun as (? & synthesized & Hsyn & Hrun).
  unfold lift in Hsyn. injection Hsyn as <- Hsyn.
  apply bind_ok_inv in Hrun as (? & folder & Hfolder & Hrun).
  apply run_uniquify_inv in Hfolder as [-> Hfolder].
  exists synthesized, folder. split; [done|]. split; [done|].
  pose proof (uniquify_free _ _ _ Hfolder) as Hfree.
  unfold ensure_dir, modify in Hrun. rewrite !bind_run in Hrun.
  unfold makedirs in Hrun.
  destruct (exists_ (w_fs w) "models") eqn:Hmodels.
  - destruct (exists_ (w_fs w) folder) eqn:Hex.
    { apply exists_true, elem_of_dom in Hex. rewrite Hfree in Hex.
      by destruct Hex. }
    by injection Hrun as <- <-.
  - simpl in Hrun.
    destruct (exists_ (<["models" := Dir]> (w_fs w)) folder) eqn:Hex.
    + injection Hrun as <- <-. split; [done|]. f_equal.
      apply exists_true, elem_of_dom in Hex as [x Hx].
      destruct (decide (folder = "models")) as [->|Hne].
      * by rewrite insert_insert_eq.
      * rewrite lookup_insert_ne in Hx by done. congruence.
    + by injection Hrun as <- <-.
Qed.

Lemma resolve_save_path_no_digits (num_epochs : Z) (augment : bool) (w : World) :
  PyStr.split "." (str_float (opt_lr (w_optimizer w))) !! 1%nat = None ->
  resolve_save_path None num_epochs augment w = (w, Raise IndexError).
Proof.
  intros Hdigits.
  unfold resolve_save_path, mbind, M_bind, gets, lift, synthesize_folder, index_.
  cbv beta iota. rewrite Hdigits. reflexivity.
Qed.

(** X7. Without a save path, a call of [train] that returns has saved into
    a folder that was not there: the synthesized folder, or the first free
    name that [uniquify] finds for it.  The file system afterwards is the
    one before with [models] made if it was missing, that folder made, and
    the checkpoint written in it under [<class name>.pt]: no entry that
    was there is touched unless it has the path of the checkpoint. *)
Theorem train_saves_in_new_folder (train_loader val_loader : option DataLoader)
    (loss_fun : Tensor -> Tensor -> Tensor) (num_epochs num_classes : Z)
    (device : string) (augment : bool) (load_ckpt_path : option string)
    (logger run : option string) (w w' : World) (metrics : EpochMetrics) :
  train train_loader val_loader loss_fun num_epochs num_classes device augment
        None load_ckpt_path logger run w = (w', Ok metrics) ->
  exists synthesized folder checkpoint,
    synthesize_folder (cls (w_model w')) (str_float (opt_lr (w_optimizer w')))
                      num_epochs augment = Ok synthesized /\
    uniquify (w_fs w) synthesized = Some folder /\
    w_fs w !! folder = None /\
    w_fs w'
    = <[OsPath.join folder (cls (w_model w') +:+ ".pt") := File (Pickle checkpoint)]>
        (<[folder := Dir]>
           (if exists_ (w_fs w) "models" then w_fs w
            else <["models" := Dir]> (w_fs w))).
Proof.
  rewrite train_assoc. intros Hrun.
  apply bind_ok_inv in Hrun as (wc & l & Hhead & Hrun).
  pose proof (train_head_keeps_fs train_loader val_loader loss_fun num_epochs
                num_classes load_ckpt_path logger run w) as Hfs.
  rewrite Hhead in Hfs. simpl in Hfs. unfold keeps_fs in Hfs.
  apply bind_ok_inv in Hrun as (wd & path & Hpath & Hsave).
  apply save_checkpoint_run in Hsave as ->.
  apply resolve_save_path_none_inv in Hpath
    as (synthesized & folder & Hsyn & Hfolder & -> & ->).
  rewrite Hfs in Hfolder.
  exists synthesized, folder. eexists. simpl.
  split; [exact Hsyn|]. split; [exact Hfolder|].
  split; [by apply uniquify_free in Hfolder|]. by rewrite Hfs.
Qed.

(** X8. A learning rate whose [str] has no dot, such as [1e-05], makes a
    call of [train] without a save path fail when the epochs are over:
    nothing is saved, and the file system is as before.  When the epochs
    have returned the exception is the [IndexError] of
    [str(lr).split(".")[1]]. *)
Theorem train_lr_without_point (train_loader val_loader : option DataLoader)
    (loss_fun : Tensor -> Tensor -> Tensor) (num_epochs num_classes : Z)
    (device : string) (augment : bool) (load_ckpt_path : option string)
    (logger run : option string) (w : World) :
  let out :=
    train train_loader val_loader loss_fun num_epochs num_classes device
          augment None load_ckpt_path logger run w in
  no_dot (str_float (opt_lr (w_optimizer (fst out)))) = true ->
  w_fs (fst out) = w_fs w /\
  (exists e, snd out = Raise e) /\
  forall w1 l,
    (_ ← prepare_model;
     _ ← start_from_checkpoint load_ckpt_path;
     run_epochs train_loader val_loader loss_fun num_epochs num_classes
       logger run) w = (w1, Ok l) ->
    out = (w1, Raise IndexError).
Proof.
  intros out. unfold out. clear out. rewrite train_assoc. rewrite bind_run.
  pose proof (train_head_keeps_fs train_loader val_loader loss_fun num_epochs
                num_classes load_ckpt_path logger run w) as Hfs.
  unfold keeps_fs in Hfs.
  destruct ((prepare_model ≫= _) w) as [wc [l|e]]; simpl in Hfs.
  2:{ intros _. split; [done|]. split; [by eexists | done]. }
  rewrite bind_run.
  destruct (resolve_save_path None num_epochs augment wc)
    as [wd [path|e]] eqn:Hpath.
  - intros Hdot. exfalso.
    apply resolve_save_path_none_inv in Hpath
      as (synthesized & folder & Hsyn & _ & _ & ->).
    apply synthesize_folder_inv in Hsyn as [digits Hdigits].
    pose proof (save_checkpoint_fs_only num_epochs l path
                  (with_fs
                     (<[folder := Dir]>
                        (if exists_ (w_fs wc) "models" then w_fs wc
                         else <["models" := Dir]> (w_fs wc))) wc)) as Hsave.
    rewrite Hsave in Hdot. simpl in Hdot.
    rewrite (split_whole "." _ Hdot) in Hdigits. done.
  - simpl. intros Hdot.
    assert (wd = wc /\ e = IndexError) as [-> ->].
    { destruct (PyStr.split "." (str_float (opt_lr (w_optimizer wc))) !! 1%nat)
        as [digits|] eqn:Hdigits.
      - destruct (resolve_save_path_returns None num_epochs augment wc)
          as (w2 & path & Hret); [by eexists | congruence].
      - rewrite (resolve_save_path_no_digits _ _ _ Hdigits) in Hpath.
        by injection Hpath as <- <-. }
    split; [done|]. split; [by eexists|].
    intros w1 l1 [= <- <-]. done.
Qed.

End Saving.

(** ** Runs that stop early *)

Section EarlyExits.
Context `{FW : Framework}.

Lemma range_positive (n : Z) : 0 < n -> exists rest, range n = 0 :: rest.
Proof.
  intros Hn. unfold range. destruct (Z.to_nat n) as [|k] eqn:Hk; [lia|].
  by eexists.
Qed.

Lemma start_from_checkpoint_none (w : World) :
  start_from_checkpoint None w = (w, Ok tt).
Proof. reflexivity. Qed.

Lemma model_train_run (w : World) :
  model_train w = (with_model (set_training true (w_model w)) w, Ok tt).
Proof. reflexivity. Qed.

Lemma iterate_some (d : DataLoader) (w : World) :
  iterate (Some d) w = (w, Ok (batches d)).
Proof. reflexivity. Qed.

Lemma named_parameters_set_attr (m : Module Tensor) (name : string)
    (v : AttrVal) :
  named_parameters (set_attr m name v) = named_parameters m.
Proof. by destruct m. Qed.

Lemma prepare_model_parameters (w : World) :
  named_parameters (w_model (fst (prepare_model w)))
  = named_parameters (w_model w).
Proof.
  unfold prepare_model. rewrite bind_run. simpl.
  destruct (PyStr.contains "Inception" (cls (w_model w))); simpl; [|done].
  apply named_parameters_set_attr.
Qed.

(** The first epoch on a train loader that is [None]. *)
Lemma run_epochs_no_loader (val_loader : option DataLoader)
    (loss_fun : Tensor -> Tensor -> Tensor) (num_epochs num_classes : Z)
    (logger run : option string) (w : World) :
  0 < num_epochs ->
  run_epochs None val_loader loss_fun num_epochs num_classes logger run w
  = (with_model (set_training true (w_model w)) w, Raise TypeError).
Proof.
  intros Hn. unfold run_epochs. destruct (range_positive _ Hn) as [rest ->].
  reflexivity.
Qed.

(** X9. The loaders that [get_dataloaders] returns with [train] off cannot
    be trained on: with at least one epoch to run, [train] raises the
    [TypeError] of iterating [None] before it asks anything of the
    framework.  No parameter, optimizer state or file has changed. *)
Theorem train_without_train_loader (data_path : string) (batch_size : Z)
    (shuffle download : bool) (resize : Z) (augmented : bool)
    (train_loader val_loader test_loader : option DataLoader)
    (loss_fun : Tensor -> Tensor -> Tensor) (num_epochs num_classes : Z)
    (device : string) (augment : bool) (save_ckpt_path : option string)
    (logger run : option string) (w : World) :
  get_dataloaders data_path batch_size false shuffle download resize augmented
  = Ok (train_loader, val_loader, test_loader) ->
  0 < num_epochs ->
  let out :=
    train train_loader val_loader loss_fun num_epochs num_classes device
          augment save_ckpt_path None logger run w in
  snd out = Raise TypeError /\
  w_events (fst out) = w_events w /\
  w_fs (fst out) = w_fs w /\
  w_optimizer (fst out) = w_optimizer w /\
  w_scheduler (fst out) = w_scheduler w /\
  named_parameters (w_model (fst out)) = named_parameters (w_model w).
Proof.
  intros Hget Hn out. unfold out. clear out.
  apply get_dataloaders_inv in Hget as (_ & Hoff & _).
  destruct (Hoff eq_refl) as [-> ->]. unfold train.
  pose proof (prepare_model_parameters w) as Hparams.
  destruct (prepare_model_run w) as (w0 & Hprep & Hf & Ho & Hs & He & Hg).
  rewrite Hprep in Hparams. rewrite (bind_ok _ _ _ _ _ Hprep).
  rewrite (bind_ok _ _ _ _ _ (start_from_checkpoint_none w0)).
  rewrite bind_run, run_epochs_no_loader by done. simpl.
  rewrite named_parameters_set_training. done.
Qed.

(** The first batch of training when a run is attached and no logger:
    the step is taken, then the first append fails. *)
Lemma train_step_no_logger (loss_fun : Tensor -> Tensor -> Tensor)
    (name : string) (batch : Tensor * Tensor) (r : Running) (w : World) :
  exists w',
    train_step loss_fun None (Some name) batch (r, 0) w
    = (w', Raise (AttributeError "NoneType" "base_namespace")) /\
    adds_calls [CZeroGrad; CForward (w_grad_enabled w); CBackward;
                COptimizerStep] w w' /\
    keeps_fs w w'.
Proof.
  destruct batch as [inputs labels]. unfold train_step.
  rewrite bind_run.
  destruct (optimizer_zero_grad_calls w) as [Hz Cz].
  rewrite (run_outcome _ _ _ Hz).
  set (w1 := fst (optimizer_zero_grad w)) in *.
  rewrite bind_run.
  destruct (call_model_calls inputs w1) as (outputs & Hc & Cc).
  rewrite (run_outcome _ _ _ Hc).
  set (w2 := fst (call_model inputs w1)) in *.
  rewrite bind_run.
  destruct (loss_backward_calls (loss_fun outputs labels) w2) as [Hb Cb].
  rewrite (run_outcome _ _ _ Hb).
  set (w3 := fst (loss_backward (loss_fun outputs labels) w2)) in *.
  rewrite bind_run.
  destruct (optimizer_step_calls w3) as [Hs Cs].
  rewrite (run_outcome _ _ _ Hs).
  set (w4 := fst (optimizer_step w3)) in *.
  exists w4. split; [reflexivity|]. split.
  - pose proof (adds_calls_trans _ _ _ _ _
                  (adds_calls_trans _ _ _ _ _
                     (adds_calls_trans _ _ _ _ _ Cz Cc) Cb) Cs) as Hall.
    destruct Cz as [_ Gz]. rewrite Gz in Hall. exact Hall.
  - unfold keeps_fs, w4, w3, w2, w1, optimizer_step, call_model.
    destruct (opt_step _ _). simpl. by destruct (forward _ _).
Qed.

(** X10. A run attached without a logger stops [train] in its first
    batch: the batch is trained on (one zero-grad, forward pass, backward
    pass and optimizer step), then reading [logger.base_namespace] raises.
    Nothing is saved. *)
Theorem train_run_without_logger (d : DataLoader)
    (val_loader : option DataLoader)
    (loss_fun : Tensor -> Tensor -> Tensor) (num_epochs num_classes : Z)
    (device : string) (augment : bool) (save_ckpt_path : option string)
    (name : string) (w : World) :
  0 < num_epochs ->
  batches d <> [] ->
  let out :=
    train (Some d) val_loader loss_fun num_epochs num_classes device augment
          save_ckpt_path None None (Some name) w in
  snd out = Raise (AttributeError "NoneType" "base_namespace") /\
  map call_of (w_events (fst out))
  = map call_of (w_events w)
    ++ [CZeroGrad; CForward (w_grad_enabled w); CBackward; COptimizerStep] /\
  w_fs (fst out) = w_fs w.
Proof.
  intros Hn Hbs out. unfold out. clear out. unfold train.
  destruct (prepare_model_run w) as (w0 & Hprep & Hf & Ho & Hs & He & Hg).
  rewrite (bind_ok _ _ _ _ _ Hprep).
  rewrite (bind_ok _ _ _ _ _ (start_from_checkpoint_none w0)).
  rewrite bind_run. unfold run_epochs.
  destruct (range_positive _ Hn) as [rest ->].
  destruct (batches d) as [|b bs] eqn:Hb; [done|].
  set (l0 := mkLocals None None None None None None _ _).
  set (w0' := with_model (set_training true (w_model w0)) w0).
  destruct (train_step_no_logger loss_fun name b
              (mkRunning [] (metric_reset (l_auc l0))
                         (metric_reset (l_accuracy l0))) w0')
    as (w' & Hstep & [Hcalls Hgrad] & Hfs).
  assert (for_each (0 :: rest)
            (epoch_body (Some d) val_loader loss_fun None (Some name)) l0 w0
          = (w', Raise (AttributeError "NoneType" "base_namespace"))) as ->.
  { change (for_each (0 :: rest) ?f l0 w0)
      with ((s ← f 0 l0; for_each rest f s) w0).
    apply bind_raise. unfold epoch_body. apply bind_raise.
    unfold train_pass. rewrite (bind_ok _ _ _ _ _ (model_train_run w0)).
    fold w0'. rewrite (bind_ok _ _ _ _ _ (iterate_some d w0')).
    apply bind_raise. rewrite Hb.
    change (for_each (b :: bs) ?f ?s w0')
      with ((s' ← f b s; for_each bs f s') w0').
    by apply bind_raise. }
  simpl. rewrite Hcalls, Hfs. unfold w0'. simpl.
  by rewrite He, Hg, Hf.
Qed.

(** X11. A checkpoint path that holds no file, or a checkpoint without a
    ["model_state_dict"] entry, stops [test] and [train] at the load
    step, with the error of [torch.load] or the [KeyError]: no pass is
    run, and nothing is written. *)
Theorem checkpoint_unreadable (path : string) (e : Exn)
    (train_loader val_loader test_loader : option DataLoader)
    (loss_fun : Tensor -> Tensor -> Tensor) (num_epochs num_classes : Z)
    (device : string) (augment dropout : bool)
    (save_ckpt_path : option string) (logger run : option string) (w : World) :
  (w_fs w !! path = None /\ e = FileNotFoundError path) \/
  (exists checkpoint,
      w_fs w !! path = Some (File (Pickle checkpoint)) /\
      checkpoint !! "model_state_dict" = None /\
      e = KeyError "model_state_dict") ->
  test test_loader loss_fun num_classes device dropout (Some path) w
  = (w, Raise e) /\
  train train_loader val_loader loss_fun num_epochs num_classes device augment
        save_ckpt_path (Some path) logger run w
  = (fst (prepare_model w), Raise e) /\
  w_fs (fst (prepare_model w)) = w_fs w /\
  w_events (fst (prepare_model w)) = w_events w.
Proof.
  intros Hcase.
  assert (forall w0, w_fs w0 = w_fs w ->
                     load_checkpoint path w0 = (w0, Raise e)) as Hload.
  { intros w0 Hf. unfold load_checkpoint, torch_load. rewrite bind_run, Hf.
    destruct Hcase as [[-> ->]|(ck & -> & Hkey & ->)]; [done|].
    by rewrite Hkey. }
  destruct (prepare_model_run w) as (w0 & Hprep & Hf & _ & _ & He & _).
  rewrite Hprep. simpl. split; [|split; [|done]].
  - unfold test. apply bind_raise. by apply Hload.
  - unfold train. rewrite (bind_ok _ _ _ _ _ Hprep). apply bind_raise.
    by apply Hload.
Qed.

End EarlyExits.

(** ** What [get_model] keeps of the pretrained network *)

Section Pretrained.
Context `{FW : Framework}.
Implicit Types (m c : Module Tensor) (p : Param Tensor).

Lemma replace_linear_inv m (name : string) m' :
  replace_linear m name = Ok m' ->
  exists n, m' = set_child m name (Linear n 2).
Proof.
  unfold replace_linear, get_child.
  destruct (assoc_get name (children m)) as [old|]; [|done]. simpl.
  destruct (get_int old "in_features") as [n|]; [|done]. simpl.
  intros [= <-]. by exists n.
Qed.

Lemma replace_last_linear_inv m m' :
  replace_last_linear m = Ok m' ->
  exists ca k n,
    assoc_get "classifier" (children m) = Some ca /\
    m' = set_child m "classifier" (set_child ca k (Linear n 2)).
Proof.
  unfold replace_last_linear, get_child, get_last, set_last.
  destruct (assoc_get "classifier" (children m)) as [ca|]; [|done]. simpl.
  destruct (String.eqb (cls ca) "Sequential"); [|done].
  destruct (last (children ca)) as [[k old]|]; [|done]. simpl.
  destruct (get_int old "in_features") as [n|]; [|done]. simpl.
  intros [= <-]. by exists ca, k, n.
Qed.

Lemma replace_heads_head_inv m m' :
  (heads ← get_child m "heads";
   heads' ← replace_linear heads "head";
   Ok (set_child m "heads" heads')) = Ok m' ->
  exists heads n,
    assoc_get "heads" (children m) = Some heads /\
    m' = set_child m "heads" (set_child heads "head" (Linear n 2)).
Proof.
  unfold get_child.
  destruct (assoc_get "heads" (children m)) as [heads|]; [|done]. simpl.
  destruct (replace_linear heads "head") as [heads'|] eqn:Hh; [|done]. simpl.
  apply replace_linear_inv in Hh as [n ->]. intros [= <-]. by exists heads, n.
Qed.

(** The result of [get_model] is the frozen network with one module
    attached, at the top or one level down, whose parameters are all
    trainable. *)
Lemma get_model_shape (name device : string) (all_linears : bool)
    (ctor : bool -> Module Tensor) m :
  model_dir !! name = Some ctor ->
  get_model name device all_linears = Ok m ->
  (exists a c,
      m = set_child (freeze (ctor true)) a c /\
      forall path p, (path, p) ∈ named_parameters c -> requires_grad p = true) \/
  (exists a ca b c,
      assoc_get a (children (freeze (ctor true))) = Some ca /\
      m = set_child (freeze (ctor true)) a (set_child ca b c) /\
      forall path p, (path, p) ∈ named_parameters c -> requires_grad p = true).
Proof.
  intros Hctor. unfold get_model. rewrite Hctor. cbv zeta.
  set (fm := freeze (ctor true)). clearbody fm.
  assert (forall a, replace_linear fm a = Ok m ->
                    exists a c, m = set_child fm a c /\
                                forall path p, (path, p) ∈ named_parameters c ->
                                               requires_grad p = true) as Hone.
  { intros a Hr. apply replace_linear_inv in Hr as [n ->].
    exists a, (Linear n 2). split; [done|]. apply Linear_trainable. }
  assert (replace_last_linear fm = Ok m ->
          exists a ca b c,
            assoc_get a (children fm) = Some ca /\
            m = set_child fm a (set_child ca b c) /\
            forall path p, (path, p) ∈ named_parameters c ->
                           requires_grad p = true) as Hlast.
  { intros Hr. apply replace_last_linear_inv in Hr as (ca & k & n & Hca & ->).
    exists "classifier", ca, k, (Linear n 2). split; [done|].
    split; [done|]. apply Linear_trainable. }
  assert ((heads ← get_child fm "heads";
           heads' ← replace_linear heads "head";
           Ok (set_child fm "heads" heads')) = Ok m ->
          exists a ca b c,
            assoc_get a (children fm) = Some ca /\
            m = set_child fm a (set_child ca b c) /\
            forall path p, (path, p) ∈ named_parameters c ->
                           requires_grad p = true) as Hheads.
  { intros Hr. apply replace_heads_head_inv in Hr as (heads & n & Hh & ->).
    exists "heads", heads, "head", (Linear n 2). split; [done|].
    split; [done|]. apply Linear_trainable. }
  destruct all_linears.
  - destruct (String.eqb (cls fm) "AlexNet").
    { intros [= <-]. left. eexists _, _. split; [done|].
      apply alexnet_classifier_trainable. }
    destruct (String.eqb (cls fm) "VGG").
    { intros [= <-]. left. eexists _, _. split; [done|].
      apply vgg_classifier_trainable. }
    destruct (String.eqb (cls fm) "DenseNet"); [left; by eapply Hone|].
    destruct (String.eqb (cls fm) "VisionTransformer"); [right; by apply Hheads|].
    destruct (String.eqb (cls fm) "SwinTransformer"); left; by eapply Hone.
  - destruct (String.eqb (cls fm) "AlexNet"); [right; by apply Hlast|].
    destruct (String.eqb (cls fm) "VGG"); [right; by apply Hlast|].
    destruct (String.eqb (cls fm) "DenseNet"); [left; by eapply Hone|].
    destruct (String.eqb (cls fm) "VisionTransformer"); [right; by apply Hheads|].
    destruct (String.eqb (cls fm) "SwinTransformer"); left; by eapply Hone.
Qed.

(** X12. [get_model] keeps what was learned: the class of the network is
    the one the constructor gave, and every parameter of the result that
    is frozen is a parameter of the pretrained network, at the same path
    and with the same value. *)
Theorem get_model_keeps_pretrained (model_name device : string)
    (all_linears : bool) (ctor : bool -> Module Tensor) m :
  model_dir !! model_name = Some ctor ->
  distinct_names (ctor true) = true ->
  get_model model_name device all_linears = Ok m ->
  cls m = cls (ctor true) /\
  forall path p,
    (path, p) ∈ named_parameters m ->
    requires_grad p = false ->
    exists p0,
      (path, p0) ∈ named_parameters (ctor true) /\
      data p = data p0 /\ grad p = grad p0.
Proof.
  intros Hctor Hdn Hget.
  assert (forall path p,
             (path, p) ∈ named_parameters (freeze (ctor true)) ->
             exists p0, (path, p0) ∈ named_parameters (ctor true) /\
                        data p = data p0 /\ grad p = grad p0) as Hfrozen.
  { intros path p. unfold freeze. rewrite named_parameters_map_parameters.
    intros Hin. apply list_elem_of_fmap in Hin as ([path' q] & [= -> ->] & Hin).
    by exists q. }
  assert (distinct_names (freeze (ctor true)) = true) as Hdn'
    by (unfold freeze; by rewrite distinct_names_map_parameters).
  pose proof (distinct_names_children _ Hdn') as Hnd.
  destruct (get_model_shape _ _ _ _ _ Hctor Hget)
    as [(a & c & -> & Hc)|(a & ca & b & c & Hca & -> & Hc)].
  - split; [by rewrite cls_set_child; unfold freeze; rewrite cls_map_parameters|].
    intros path p Hin Hflag.
    apply named_parameters_set_child in Hin
      as [(rest & -> & Hin)|(n & rest & -> & Hne & Hin)]; [| |done].
    + rewrite (Hc _ _ Hin) in Hflag. done.
    + by apply Hfrozen.
  - split; [by rewrite cls_set_child; unfold freeze; rewrite cls_map_parameters|].
    intros path p Hin Hflag.
    assert (NoDup (map fst (children ca))) as Hnda.
    { apply distinct_names_children.
      eapply distinct_names_child; [exact Hdn' | by apply assoc_get_elem]. }
    apply named_parameters_set_child in Hin
      as [(rest & -> & Hin)|(n & rest & -> & Hne & Hin)]; [| |done].
    + apply named_parameters_set_child in Hin
        as [(rest' & -> & Hin)|(n & rest' & -> & Hne & Hin)]; [| |done].
      * rewrite (Hc _ _ Hin) in Hflag. done.
      * apply Hfrozen. apply elem_of_named_parameters. right.
        exists a, ca, (n :: rest'). split; [done|].
        split; [by apply assoc_get_elem | done].
    + by apply Hfrozen.
Qed.

(** X13. [all_linears] matters for AlexNet and VGG only: for a network
    of any other class the two settings give the same model. *)
Theorem get_model_all_linears_elsewhere (model_name device : string)
    (ctor : bool -> Module Tensor) :
  model_dir !! model_name = Some ctor ->
  sequential_family (cls (ctor true)) = false ->
  get_model model_name device true = get_model model_name device false.
Proof.
  intros Hctor Hfam. unfold get_model. rewrite Hctor. cbv zeta.
  unfold freeze. rewrite cls_map_parameters.
  unfold sequential_family in Hfam.
  apply orb_false_elim in Hfam as [-> ->]. done.
Qed.

(** X14. When [get_dataloaders] fails it is on the first split, in the
    order train, validation, test, whose files are not available; with
    [train] off only the test split is asked for. *)
Theorem get_dataloaders_first_missing (data_path : string) (batch_size : Z)
    (train shuffle download : bool) (resize : Z) (augment : bool) (e : Exn) :
  get_dataloaders data_path batch_size train shuffle download resize augment
  = Raise e ->
  exists split,
    e = DataAccessError split /\
    pcam_available data_path split download = false /\
    (split = "train" /\ train = true \/
     split = "val" /\ train = true /\
       pcam_available data_path "train" download = true \/
     split = "test" /\
       (train = true ->
        pcam_available data_path "train" download = true /\
        pcam_available data_path "val" download = true)).
Proof.
  unfold get_dataloaders, when_, PCAM, mbind, result_bind.
  destruct train.
  - destruct (pcam_available data_path "train" download) eqn:Htr.
    2:{ intros [= <-]. exists "train". split; [done|]. split; [done|].
        by left. }
    destruct (pcam_available data_path "val" download) eqn:Hva.
    2:{ intros [= <-]. exists "val". split; [done|]. split; [done|].
        right. by left. }
    destruct (pcam_available data_path "test" download) eqn:Hte; [done|].
    intros [= <-]. exists "test". split; [done|]. split; [done|].
    right. right. done.
  - destruct (pcam_available data_path "test" download) eqn:Hte; [done|].
    intros [= <-]. exists "test". split; [done|]. split; [done|].
    right. right. done.
Qed.

End Pretrained.

(** ** The mode of the modules during a test *)

Section DropoutMode.
Context {Tensor : Type}.
Implicit Types (m c : Module Tensor).

Lemma cls_set_training (flag : bool) m : cls (set_training flag m) = cls m.
Proof. by destruct m. Qed.

Lemma training_set_training (flag : bool) m :
  assoc_get "training" (attrs (set_training flag m)) = Some (ABool flag).
Proof. destruct m. simpl. apply assoc_get_set_eq. Qed.

Lemma get_path_set_training (flag : bool) (path : list string) :
  forall m, get_path (set_training flag m) path
            = set_training flag <$> get_path m path.
Proof.
  induction path as [|n path IH]; intros m; [done|].
  destruct m as [k a p b ch]. simpl. rewrite assoc_get_fmap.
  destruct (assoc_get n ch); simpl; [apply IH | done].
Qed.

Lemma enable_dropout_eq m :
  enable_dropout m
  = if PyStr.contains "Dropout" (cls m) then set_training true m
    else Mod (cls m) (attrs m) (params m) (buffers m)
             (map (fun nc => (fst nc, enable_dropout (snd nc))) (children m)).
Proof. by destruct m. Qed.

Lemma training_at_enable_dropout (path : list string) :
  forall m c,
    get_path m path = Some c ->
    training_at (enable_dropout (set_training false m)) path
    = Some (ABool (under_dropout m path)).
Proof.
  induction path as [|n path IH]; intros m c Hc.
  - rewrite enable_dropout_eq, cls_set_training. unfold training_at. simpl.
    destruct (PyStr.contains "Dropout" (cls m)); simpl.
    + apply training_set_training.
    + apply training_set_training.
  - rewrite enable_dropout_eq, cls_set_training.
    destruct (PyStr.contains "Dropout" (cls m)) eqn:Hd.
    + unfold training_at. rewrite !get_path_set_training, Hc. simpl.
      rewrite training_set_training, Hd. done.
    + destruct m as [k a p b ch]. simpl in Hc, Hd. unfold training_at. simpl.
      rewrite Hd. simpl. rewrite !assoc_get_fmap.
      destruct (assoc_get n ch) as [c'|]; [|done]. simpl.
      apply (IH c' c Hc).
Qed.

(** The mode after [model.eval()] and the loop over the dropout
    modules. *)
Lemma training_at_test_mode (m c : Module Tensor) (dropout : bool)
    (path : list string) :
  get_path m path = Some c ->
  training_at (if dropout then enable_dropout (set_training false m)
               else set_training false m) path
  = Some (ABool (dropout && under_dropout m path)).
Proof.
  intros Hc. destruct dropout; simpl.
  - by apply (training_at_enable_dropout path m c).
  - unfold training_at. rewrite get_path_set_training, Hc. simpl.
    apply training_set_training.
Qed.

End DropoutMode.

Section TestMode.
Context `{FW : Framework}.

(** X15. The mode [test] puts the modules in: [test_pass], the part of
    [test] from [model.eval()] to the end of its loop, is that loop run on
    a model with the parameters of the given one in which every module
    has [training] off, except that with [dropout] set the modules whose
    class name contains ["Dropout"], and the modules below them, are in
    training mode. *)
Theorem test_mode_of_modules (test_loader : option DataLoader)
    (loss_fun : Tensor -> Tensor -> Tensor) (num_classes : Z) (dropout : bool)
    (w : World) :
  exists m0,
    test_pass test_loader loss_fun num_classes dropout w
    = no_grad (bs ← iterate test_loader;
               for_each bs (test_step loss_fun)
                 (mkRunning [] (metric_reset (MulticlassAUROC num_classes))
                            (metric_reset MulticlassAccuracy), ([], [])))
              (with_model m0 w) /\
    named_parameters m0 = named_parameters (w_model w) /\
    forall path c,
      get_path (w_model w) path = Some c ->
      training_at m0 path
      = Some (ABool (dropout && under_dropout (w_model w) path)).
Proof.
  exists (if dropout then enable_dropout (set_training false (w_model w))
          else set_training false (w_model w)).
  split; [|split].
  - unfold test_pass. rewrite bind_run. simpl. rewrite bind_run.
    by destruct dropout.
  - destruct dropout.
    + by rewrite named_parameters_enable_dropout, named_parameters_set_training.
    + apply named_parameters_set_training.
  - intros path c Hc. by apply (training_at_test_mode (w_model w) c).
Qed.

End TestMode.

(** ** Free paths *)

Section FreePaths.
Context {C : Type}.

Lemma uniquify_of_free (fs : gmap string (Node C)) (path : string) :
  fs !! path = None -> uniquify fs path = Some path.
Proof.
  intros Hfree. unfold uniquify, uniquify_fuel.
  destruct (OsPath.splitext path) as [filename extension].
  replace (size fs + 2)%nat with (S (size fs + 1)) by lia. simpl.
  assert (exists_ fs path = false) as ->; [|done].
  apply exists_false. by apply not_elem_of_dom.
Qed.

(** X16. [uniquify] returns the path it is given exactly when that path
    is free, so what it returns is left as it is by a second call. *)
Theorem uniquify_fixed_point (fs : gmap string (Node C)) (path : string) :
  (uniquify fs path = Some path <-> fs !! path = None) /\
  forall r, uniquify fs path = Some r -> uniquify fs r = Some r.
Proof.
  assert (forall r, uniquify fs path = Some r -> fs !! r = None) as Hfree.
  { intros r. unfold uniquify, uniquify_fuel.
    destruct (OsPath.splitext path) as [filename extension]. intros Hr.
    apply uniquify_loop_sound in Hr as [Hr _].
    apply exists_false in Hr. by apply not_elem_of_dom. }
  split.
  - split; [apply Hfree | apply uniquify_of_free].
  - intros r Hr. apply uniquify_of_free. by apply Hfree.
Qed.

End FreePaths.

#[local] Existing Instance Toy.framework.

(** Two epochs over two train and two validation batches, logged. *)
Lemma train_calls_witness :
  snd Runs.logged = Ok Runs.logged_metrics /\
  map call_of (w_events (fst Runs.logged))
  = map call_of (w_events Toy.start)
    ++ concat (replicate (Z.to_nat 2)
                 (epoch_calls (w_grad_enabled Toy.start)
                    (Some "training") (Some "run")
                    (batch_count (FW := Toy.framework) (Toy.loader "train"))
                    (batch_count (FW := Toy.framework) (Toy.loader "val")))).
Proof.
  assert (snd Runs.logged = Ok Runs.logged_metrics) as Hrun
    by (vm_compute; reflexivity).
  split; [exact Hrun|].
  exact (train_calls (FW := Toy.framework)
           (Toy.loader "train") (Toy.loader "val") Toy.loss_fun 2 2 "cpu"
           false (Some "run.pt") None (Some "training") (Some "run")
           Toy.start (fst Runs.logged) Runs.logged_metrics
           (run_outcome _ _ _ Hrun)).
Defined.

(** The tables of [runs/v1.2/model.pt] go to [runs/v1_outputs.csv]. *)
Lemma beside_checkpoint_first_dot_witness :
  beside_checkpoint ("runs/v1" +:+ "." +:+ "2/model.pt") "_outputs.csv"
  = Ok ("runs/v1" +:+ "_outputs.csv") /\
  beside_checkpoint "runs/v1" "_outputs.csv" = Ok ("runs/v1" +:+ "_outputs.csv").
Proof.
  exact (beside_checkpoint_first_dot "runs/v1" "2/model.pt" "_outputs.csv"
           eq_refl).
Defined.

(** The test run from [run.pt]: two batches, then the analyzer. *)
Lemma test_calls_witness :
  snd Toy.tested = Ok Toy.tested_result /\
  w_events (fst Toy.tested)
  = w_events Toy.fresh ++ replicate 2 (EvForward false) ++ [EvForward true].
Proof.
  assert (snd Toy.tested = Ok Toy.tested_result) as Hrun
    by (vm_compute; reflexivity).
  split; [exact Hrun|].
  destruct (test_calls (FW := Toy.framework)
              (Toy.loader "test") Toy.loss_fun 2 "cpu" false (Some "run.pt")
              Toy.fresh)
    as (_ & _ & _ & k & analysis & He & _ & _ & Hret).
  destruct (Hret _ Hrun) as [-> ->]. exact He.
Defined.

(** The test run from [run.pt]. *)
Lemma test_tables_beside_checkpoint_witness :
  snd Toy.tested = Ok Toy.tested_result /\
  exists d stem preds,
    Toy.loader "test" = Some d /\
    PyStr.split "." "run.pt" !! 0%nat = Some stem /\
    w_fs (fst Toy.tested)
    = <[stem +:+ "_metrics.csv" :=
          File (CsvMetrics (FW := Toy.framework)
                  (cls (w_model (fst Toy.tested)))
                  (gflops Toy.tested_result) (test_loss Toy.tested_result)
                  (test_acc Toy.tested_result) (test_auc Toy.tested_result))]>
        (<[stem +:+ "_outputs.csv" :=
             File (CsvOutputs preds
                     (flat_map (fun b => tolist (snd b)) (batches d)))]>
           (w_fs Toy.fresh)).
Proof.
  assert (snd Toy.tested = Ok Toy.tested_result) as Hrun
    by (vm_compute; reflexivity).
  split; [exact Hrun|].
  exact (test_tables_beside_checkpoint (FW := Toy.framework)
           (Toy.loader "test") Toy.loss_fun 2 "cpu" false "run.pt"
           Toy.fresh (fst Toy.tested) Toy.tested_result
           (run_outcome _ _ _ Hrun)).
Defined.

(** The checkpoint of the run of one epoch. *)
Lemma train_checkpoint_contents_witness :
  snd Toy.trained = Ok Toy.trained_metrics /\
  exists path,
    (forall given, Some "run.pt" = Some given ->
                   path = given /\
                   forall p, p <> given ->
                             w_fs (fst Toy.trained) !! p = w_fs Toy.start !! p) /\
    w_fs (fst Toy.trained) !! path
    = Some (File (Pickle (FW := Toy.framework)
                    (list_to_map
                       [("epochs", VInt 1);
                        ("model_state_dict",
                         VStateDict (state_dict (w_model (fst Toy.trained))));
                        ("optimizer_state_dict",
                         VOptState (w_optimizer (fst Toy.trained)));
                        ("train_loss", VFloat (train_loss Toy.trained_metrics));
                        ("train_acc", VTensor (train_acc Toy.trained_metrics));
                        ("train_auc", VTensor (train_auc Toy.trained_metrics));
                        ("val_loss", VFloat (val_loss Toy.trained_metrics));
                        ("val_acc", VTensor (val_acc Toy.trained_metrics));
                        ("val_auc", VTensor (val_auc Toy.trained_metrics))]))).
Proof.
  assert (snd Toy.trained = Ok Toy.trained_metrics) as Hrun
    by (vm_compute; reflexivity).
  split; [exact Hrun|].
  exact (train_checkpoint_contents (FW := Toy.framework)
           (Toy.loader "train") (Toy.loader "val") Toy.loss_fun 1 2 "cpu"
           false (Some "run.pt") None None None
           Toy.start (fst Toy.trained) Toy.trained_metrics
           (run_outcome _ _ _ Hrun)).
Defined.

(** Ten epochs saved without a path, where the synthesized folder is
    there already. *)
Lemma train_saves_in_new_folder_witness :
  exists synthesized folder checkpoint,
    synthesize_folder
      (cls (w_model
              (fst (train (Toy.loader "train") (Toy.loader "val") Toy.loss_fun
                      10 2 "cpu" false None None None None Toy.collision))))
      (str_float
         (opt_lr
            (w_optimizer
               (fst (train (Toy.loader "train") (Toy.loader "val")
                       Toy.loss_fun 10 2 "cpu" false None None None None
                       Toy.collision))))) 10 false
    = Ok synthesized /\
    uniquify (w_fs Toy.collision) synthesized = Some folder /\
    w_fs Toy.collision !! folder = None /\
    w_fs (fst (train (Toy.loader "train") (Toy.loader "val") Toy.loss_fun
                 10 2 "cpu" false None None None None Toy.collision))
    = <[OsPath.join folder
          (cls (w_model
                  (fst (train (Toy.loader "train") (Toy.loader "val")
                          Toy.loss_fun 10 2 "cpu" false None None None None
                          Toy.collision))) +:+ ".pt") :=
          File (Pickle checkpoint)]>
        (<[folder := Dir]>
           (if exists_ (w_fs Toy.collision) "models" then w_fs Toy.collision
            else <["models" := Dir]> (w_fs Toy.collision))).
Proof.
  assert (snd (train (Toy.loader "train") (Toy.loader "val") Toy.loss_fun
                 10 2 "cpu" false None None None None Toy.collision)
          = Ok Runs.unnamed_metrics) as Hrun
    by (vm_compute; reflexivity).
  exact (train_saves_in_new_folder (FW := Toy.framework)
           (Toy.loader "train") (Toy.loader "val") Toy.loss_fun 10 2 "cpu"
           false None None None Toy.collision _ Runs.unnamed_metrics
           (run_outcome _ _ _ Hrun)).
Defined.

(** One epoch at a learning rate of [1e-05]. *)
Lemma train_lr_without_point_witness :
  str_float (opt_lr (w_optimizer Runs.small_lr)) = "1e-05" /\
  snd (train (FW := Toy.framework) (Toy.loader "train") (Toy.loader "val")
         Toy.loss_fun 1 2 "cpu" false None None None None Runs.small_lr)
  = Raise IndexError /\
  w_fs (fst (train (FW := Toy.framework) (Toy.loader "train") (Toy.loader "val")
               Toy.loss_fun 1 2 "cpu" false None None None None
               Runs.small_lr))
  = w_fs Runs.small_lr.
Proof.
  split; [reflexivity|]. split; [vm_compute; reflexivity|].
  apply (train_lr_without_point (FW := Toy.framework)
           (Toy.loader "train") (Toy.loader "val") Toy.loss_fun 1 2 "cpu"
           false None None None Runs.small_lr).
  vm_compute. reflexivity.
Defined.

(** The loaders of [get_dataloaders] with [train] off, in [train]. *)
Lemma train_without_train_loader_witness :
  snd (train (FW := Toy.framework) None None Toy.loss_fun 1 2 "cpu" false
         None None None None Toy.start)
  = Raise TypeError /\
  w_events (fst (train (FW := Toy.framework) None None Toy.loss_fun 1 2 "cpu"
                   false None None None None Toy.start))
  = w_events Toy.start.
Proof.
  destruct (train_without_train_loader (FW := Toy.framework)
              "data" 4 true true 96 false None None
              (Some (mkDataLoader
                       (mkDataset "data" "test" true (testval_transform 96))
                       4 true))
              Toy.loss_fun 1 2 "cpu" false None None None Toy.start)
    as (Hraise & Hevents & _).
  - reflexivity.
  - lia.
  - split; assumption.
Defined.

(** A run attached, no logger. *)
Lemma train_run_without_logger_witness :
  snd (train (FW := Toy.framework) (Some Runs.train_split) (Toy.loader "val")
         Toy.loss_fun 1 2 "cpu" false None None None (Some "run") Toy.start)
  = Raise (AttributeError "NoneType" "base_namespace") /\
  map call_of
      (w_events (fst (train (FW := Toy.framework) (Some Runs.train_split)
                        (Toy.loader "val") Toy.loss_fun 1 2 "cpu" false
                        None None None (Some "run") Toy.start)))
  = map call_of (w_events Toy.start)
    ++ [CZeroGrad; CForward (w_grad_enabled Toy.start); CBackward;
        COptimizerStep].
Proof.
  destruct (train_run_without_logger (FW := Toy.framework)
              Runs.train_split (Toy.loader "val") Toy.loss_fun 1 2 "cpu"
              false None "run" Toy.start)
    as (Hraise & Hcalls & _).
  - lia.
  - simpl. discriminate.
  - split; assumption.
Defined.

(** A pickle that is not a checkpoint of [train]. *)
Lemma checkpoint_unreadable_witness :
  test (FW := Toy.framework) (Toy.loader "test") Toy.loss_fun 2 "cpu" false
       (Some "other.pt") Runs.foreign
  = (Runs.foreign, Raise (KeyError "model_state_dict")) /\
  snd (train (FW := Toy.framework) (Toy.loader "train") (Toy.loader "val")
         Toy.loss_fun 1 2 "cpu" false None (Some "other.pt") None None
         Runs.foreign)
  = Raise (KeyError "model_state_dict").
Proof.
  destruct (checkpoint_unreadable (FW := Toy.framework)
              "other.pt" (KeyError "model_state_dict")
              (Toy.loader "train") (Toy.loader "val") (Toy.loader "test")
              Toy.loss_fun 1 2 "cpu" false false None None None Runs.foreign)
    as (Htest & Htrain & _).
  - right. exists (<["epochs" := VInt 3]> ∅).
    split; [vm_compute; reflexivity|]. split; [vm_compute; reflexivity|].
    reflexivity.
  - split; [exact Htest|]. rewrite Htrain. reflexivity.
Defined.

(** ResNet-18 of the small zoo. *)
Lemma get_model_keeps_pretrained_witness :
  cls Toy.resnet_adapted = "ResNet" /\
  forall path p,
    (path, p) ∈ named_parameters Toy.resnet_adapted ->
    requires_grad p = false ->
    exists p0,
      (path, p0) ∈ named_parameters (Toy.toy_resnet18 true) /\
      data p = data p0 /\ grad p = grad p0.
Proof.
  exact (get_model_keeps_pretrained (FW := Toy.framework)
           "ResNet-18" "cpu" true Toy.toy_resnet18 Toy.resnet_adapted
           eq_refl eq_refl eq_refl).
Defined.

Lemma get_model_all_linears_elsewhere_witness :
  get_model (FW := Toy.framework) "ResNet-18" "cpu" true
  = get_model (FW := Toy.framework) "ResNet-18" "cpu" false.
Proof.
  exact (get_model_all_linears_elsewhere (FW := Toy.framework)
           "ResNet-18" "cpu" Toy.toy_resnet18 eq_refl eq_refl).
Defined.

(** Nothing on disk and no download. *)
Lemma get_dataloaders_first_missing_witness :
  exists split,
    DataAccessError "train" = DataAccessError split /\
    pcam_available (Framework := Toy.framework) "data" split false = false /\
    (split = "train" /\ true = true \/
     split = "val" /\ true = true /\
       pcam_available (Framework := Toy.framework) "data" "train" false = true \/
     split = "test" /\
       (true = true ->
        pcam_available (Framework := Toy.framework) "data" "train" false = true /\
        pcam_available (Framework := Toy.framework) "data" "val" false = true)).
Proof.
  exact (get_dataloaders_first_missing (FW := Toy.framework)
           "data" 4 true true false 96 false (DataAccessError "train") eq_refl).
Defined.

(** The first dropout layer of the AlexNet classifier, and the linear
    layer after it, in a test with [dropout] set. *)
Lemma test_mode_of_modules_witness :
  exists m0,
    test_pass (Toy.loader "test") Toy.loss_fun 2 true
              (Toy.world (Toy.toy_alexnet true) (1 # 2) ∅)
    = no_grad (bs ← iterate (Toy.loader "test");
               for_each bs (test_step Toy.loss_fun)
                 (mkRunning [] (metric_reset (MulticlassAUROC 2))
                            (metric_reset MulticlassAccuracy), ([], [])))
              (with_model m0 (Toy.world (Toy.toy_alexnet true) (1 # 2) ∅)) /\
    training_at m0 ["classifier"; "0"] = Some (ABool true) /\
    training_at m0 ["classifier"; "1"] = Some (ABool false).
Proof.
  destruct (test_mode_of_modules (FW := Toy.framework)
              (Toy.loader "test") Toy.loss_fun 2 true
              (Toy.world (Toy.toy_alexnet true) (1 # 2) ∅))
    as (m0 & Hrun & _ & Hmode).
  exists m0. split; [exact Hrun|]. split.
  - exact (Hmode ["classifier"; "0"]
             (Toy.plain "Dropout" [("p", AFrac (1 # 2))]) eq_refl).
  - exact (Hmode ["classifier"; "1"] (Toy.linear 9216 4096) eq_refl).
Defined.
